(** * Verification of the assertion helpers of [assert/assertions.go]

    The Go source works on arbitrary [interface{}] values through the
    [reflect] package.  This development gives a shallow embedding of
    - the Go values the helpers can receive (module [reflect]),
    - the pieces of the Go runtime and of the libraries they call
      (modules [strings], [utf8], [float64], [runtime], [difflib]),
    - the helpers themselves (section [Assert]), each one written after the
      source function of the same name,
    and then proves properties of the helpers.

    Run-time panics are explicit: a function that can panic returns a
    [result]; a function that in addition may call [t.Errorf] lives in the
    monad [M], whose state is the list of [Errorf] calls received by the
    [TestingT] so far. *)

From Stdlib Require Import ZArith List String Ascii Bool Lia.
From Stdlib Require Import Floats.SpecFloat.
From Stdlib Require DecimalString.
Import ListNotations.

Set Warnings "-register-all".

Local Open Scope list_scope.
Local Open Scope string_scope.
Local Open Scope Z_scope.

(* ================================================================== *)
(** ** Panics *)

Inductive result (A : Type) : Type :=
| Ok (a : A)
| Panic (msg : string).
Arguments Ok {A} a.
Arguments Panic {A} msg.

Definition rbind {A B : Type} (r : result A) (k : A -> result B) : result B :=
  match r with
  | Ok a => k a
  | Panic m => Panic m
  end.

Declare Scope result_scope.
Delimit Scope result_scope with res.
Notation "'do' x <- r ; k" := (rbind r (fun x => k))
  (at level 10, x pattern, r at level 100, k at level 200) : result_scope.

(** [recover] as used by a deferred function that overwrites the named
    results: a panic of the body is replaced by the fallback value. *)
Definition recover {A : Type} (fallback : A) (r : result A) : A :=
  match r with
  | Ok a => a
  | Panic _ => fallback
  end.

(** Indexing a Go slice: out of range panics. *)
Definition index_or_panic {A : Type} (l : list A) (i : Z) : result A :=
  if i <? 0 then Panic "runtime error: index out of range"
  else match nth_error l (Z.to_nat i) with
       | Some a => Ok a
       | None => Panic "runtime error: index out of range"
       end.

(* ================================================================== *)
(** ** Package [strings] (the functions the source calls) *)

Module strings.

Fixpoint HasPrefix (s prefix : string) {struct prefix} : bool :=
  match prefix with
  | EmptyString => true
  | String c p =>
      match s with
      | String d s' => Ascii.eqb c d && HasPrefix s' p
      | EmptyString => false
      end
  end.

Fixpoint Contains (s substr : string) : bool :=
  HasPrefix s substr ||
  match s with
  | EmptyString => false
  | String _ s' => Contains s' substr
  end.

(** [Split s sep] for a one-byte separator; always at least one part. *)
Fixpoint Split (s : string) (sep : ascii) : list string :=
  match s with
  | EmptyString => [EmptyString]
  | String c s' =>
      if Ascii.eqb c sep then EmptyString :: Split s' sep
      else match Split s' sep with
           | p :: ps => String c p :: ps
           | [] => [String c EmptyString]
           end
  end.

Fixpoint Join (parts : list string) (sep : string) : string :=
  match parts with
  | [] => EmptyString
  | [p] => p
  | p :: ps => p ++ sep ++ Join ps sep
  end.

Fixpoint Repeat (s : string) (count : nat) : string :=
  match count with
  | O => EmptyString
  | S n => s ++ Repeat s n
  end.

(** Drop the first [n] bytes: the slice expression [s[n:]]. *)
Fixpoint drop (n : nat) (s : string) : string :=
  match n, s with
  | O, _ => s
  | S n', String _ s' => drop n' s'
  | S _, EmptyString => EmptyString
  end.

End strings.


(* ================================================================== *)
(** ** IEEE 754 binary64 and binary32, after [Floats.SpecFloat] *)

Module float64.

Definition prec : Z := 53.
Definition emax : Z := 1024.

Definition t := spec_float.

Definition of_Z (n : Z) : t := binary_normalize prec emax n 0 false.

(** Re-round a float (of any format) to binary64. *)
Definition of_float (f : spec_float) : t :=
  match f with
  | S754_finite s m e => binary_normalize prec emax (cond_Zopp s (Zpos m)) e s
  | _ => f
  end.

Definition sub (x y : t) : t := SFsub prec emax x y.
Definition mul (x y : t) : t := SFmul prec emax x y.
Definition div (x y : t) : t := SFdiv prec emax x y.
Definition neg (x : t) : t := SFopp x.
Definition abs (x : t) : t := SFabs x.
Definition ltb (x y : t) : bool := SFltb x y.
Definition leb (x y : t) : bool := SFleb x y.
Definition eqb (x y : t) : bool := SFeqb x y.

Definition IsNaN (x : t) : bool :=
  match x with
  | S754_nan => true
  | _ => false
  end.

Definition NaN : t := S754_nan.
Definition Inf : t := S754_infinity false.

(** The float64 nearest to the decimal constant [num / den]
    (Go rounds an untyped constant to the nearest float64). *)
Definition const (num den : Z) : t := div (of_Z num) (of_Z den).

(** Truncation towards zero, for finite values. *)
Definition trunc (x : t) : Z :=
  match x with
  | S754_finite s m e =>
      let n := match e with
               | Z0 => Zpos m
               | Zpos p => Z.shiftl (Zpos m) e
               | Zneg p => Z.shiftr (Zpos m) (Zpos p)
               end in
      cond_Zopp s n
  | _ => 0
  end.

End float64.

Module float32.
Definition prec : Z := 24.
Definition emax : Z := 128.
Definition of_Z (n : Z) : spec_float := binary_normalize prec emax n 0 false.
Definition of_float (f : spec_float) : spec_float :=
  match f with
  | S754_finite s m e => binary_normalize prec emax (cond_Zopp s (Zpos m)) e s
  | _ => f
  end.
End float32.

(* ================================================================== *)
(** ** Package [unicode/utf8] *)

Module utf8.

Definition RuneError : Z := 0xFFFD.

Definition code (c : ascii) : Z := Z.of_nat (nat_of_ascii c).
Definition byte_of (n : Z) : ascii := ascii_of_nat (Z.to_nat n).

Definition bytes_to_string (bs : list Z) : string :=
  fold_right (fun b s => String (byte_of b) s) EmptyString bs.

Definition in_range (lo hi c : Z) : bool := (lo <=? c) && (c <=? hi).
Definition cont (c : Z) : bool := in_range 0x80 0xBF c.
Definition low6 (c : Z) : Z := Z.land c 0x3F.

(** The UTF-8 encoding of a rune; an invalid rune encodes as U+FFFD. *)
Definition EncodeRune (r : Z) : string :=
  if (r <? 0) || (0x10FFFF <? r) || in_range 0xD800 0xDFFF r
  then bytes_to_string [0xEF; 0xBF; 0xBD]
  else if r <? 0x80 then bytes_to_string [r]
  else if r <? 0x800 then
    bytes_to_string [Z.lor 0xC0 (Z.shiftr r 6); Z.lor 0x80 (low6 r)]
  else if r <? 0x10000 then
    bytes_to_string [Z.lor 0xE0 (Z.shiftr r 12);
                     Z.lor 0x80 (low6 (Z.shiftr r 6)); Z.lor 0x80 (low6 r)]
  else
    bytes_to_string [Z.lor 0xF0 (Z.shiftr r 18);
                     Z.lor 0x80 (low6 (Z.shiftr r 12));
                     Z.lor 0x80 (low6 (Z.shiftr r 6)); Z.lor 0x80 (low6 r)].

(** The first rune of [s] and its width in bytes: [(RuneError, 0)] for the
    empty string and [(RuneError, 1)] for an invalid encoding. *)
Definition DecodeRuneInString (s : string) : Z * nat :=
  match s with
  | EmptyString => (RuneError, 0%nat)
  | String c0 s1 =>
      let b0 := code c0 in
      if b0 <? 0x80 then (b0, 1%nat)
      else if in_range 0xC2 0xDF b0 then
        match s1 with
        | String c1 _ =>
            if cont (code c1)
            then (Z.lor (Z.shiftl (Z.land b0 0x1F) 6) (low6 (code c1)), 2%nat)
            else (RuneError, 1%nat)
        | _ => (RuneError, 1%nat)
        end
      else if in_range 0xE0 0xEF b0 then
        match s1 with
        | String c1 (String c2 _) =>
            let lo := if b0 =? 0xE0 then 0xA0 else 0x80 in
            let hi := if b0 =? 0xED then 0x9F else 0xBF in
            if in_range lo hi (code c1) && cont (code c2)
            then (Z.lor (Z.shiftl (Z.land b0 0x0F) 12)
                    (Z.lor (Z.shiftl (low6 (code c1)) 6) (low6 (code c2))), 3%nat)
            else (RuneError, 1%nat)
        | _ => (RuneError, 1%nat)
        end
      else if in_range 0xF0 0xF4 b0 then
        match s1 with
        | String c1 (String c2 (String c3 _)) =>
            let lo := if b0 =? 0xF0 then 0x90 else 0x80 in
            let hi := if b0 =? 0xF4 then 0x8F else 0xBF in
            if in_range lo hi (code c1) && cont (code c2) && cont (code c3)
            then (Z.lor (Z.shiftl (Z.land b0 0x07) 18)
                    (Z.lor (Z.shiftl (low6 (code c1)) 12)
                       (Z.lor (Z.shiftl (low6 (code c2)) 6) (low6 (code c3)))),
                  4%nat)
            else (RuneError, 1%nat)
        | _ => (RuneError, 1%nat)
        end
      else (RuneError, 1%nat)
  end.

(** The runes of a string, as [[]rune(s)] yields them. *)
Fixpoint runes_fuel (fuel : nat) (s : string) : list Z :=
  match fuel with
  | O => []
  | S fuel' =>
      match s with
      | EmptyString => []
      | _ =>
          let '(r, w) := DecodeRuneInString s in
          r :: runes_fuel fuel' (strings.drop w s)
      end
  end.

Definition runes (s : string) : list Z := runes_fuel (String.length s) s.

Definition bytes (s : string) : list Z := List.map code (list_ascii_of_string s).

End utf8.

(* ================================================================== *)
(** ** Package [reflect]: Go types and values

    A value of type [interface{}] is either the nil interface [VNil] or a
    concrete value that carries its dynamic type.  Every constructor holds
    what is needed to rebuild that type: the name of a defined type
    ([Some "pkg.T"] for [type T ...], [None] for a type literal or a
    predeclared type) and the element types of a composite.

    Reference-like values (slices, maps, channels, pointers, functions)
    carry the address of what they refer to, because [reflect.DeepEqual]
    and [==] look at it; [None] is the nil value of the kind.  Two values
    that carry the same address stand for the same storage.  Values are
    finite trees, so cyclic data is outside the model.

    The package is modelled as of Go 1.20: [Value.Len] accepts a pointer
    to an array (Go 1.19), and a slice converts to a pointer to an array
    (Go 1.17) and to an array (Go 1.20). *)

Module reflect.

Inductive Kind : Type :=
| Invalid | Bool
| Int | Int8 | Int16 | Int32 | Int64
| Uint | Uint8 | Uint16 | Uint32 | Uint64 | Uintptr
| Float32 | Float64 | Complex64 | Complex128
| Array | Chan | Func | Interface | Map | Ptr | Slice
| String | Struct | UnsafePointer.

(** The numeric value of a [Kind] constant (its position in the
    [const] block of package reflect). *)
Definition Kind_ord (k : Kind) : nat :=
  match k with
  | Invalid => 0 | Bool => 1
  | Int => 2 | Int8 => 3 | Int16 => 4 | Int32 => 5 | Int64 => 6
  | Uint => 7 | Uint8 => 8 | Uint16 => 9 | Uint32 => 10 | Uint64 => 11
  | Uintptr => 12
  | Float32 => 13 | Float64 => 14 | Complex64 => 15 | Complex128 => 16
  | Array => 17 | Chan => 18 | Func => 19 | Interface => 20 | Map => 21
  | Ptr => 22 | Slice => 23 | String => 24 | Struct => 25
  | UnsafePointer => 26
  end%nat.

Definition Kind_eqb (a b : Kind) : bool := Nat.eqb (Kind_ord a) (Kind_ord b).
Definition Kind_leb (a b : Kind) : bool := Nat.leb (Kind_ord a) (Kind_ord b).

Inductive IntKind : Type :=
| KInt | KInt8 | KInt16 | KInt32 | KInt64
| KUint | KUint8 | KUint16 | KUint32 | KUint64 | KUintptr.

Inductive FloatKind : Type := KFloat32 | KFloat64.
Inductive ComplexKind : Type := KComplex64 | KComplex128.

Definition Kind_of_int (k : IntKind) : Kind :=
  match k with
  | KInt => Int | KInt8 => Int8 | KInt16 => Int16 | KInt32 => Int32
  | KInt64 => Int64
  | KUint => Uint | KUint8 => Uint8 | KUint16 => Uint16 | KUint32 => Uint32
  | KUint64 => Uint64 | KUintptr => Uintptr
  end.

Definition Kind_of_float (k : FloatKind) : Kind :=
  match k with KFloat32 => Float32 | KFloat64 => Float64 end.

Definition Kind_of_complex (k : ComplexKind) : Kind :=
  match k with KComplex64 => Complex64 | KComplex128 => Complex128 end.

Definition IntKind_eqb (a b : IntKind) : bool :=
  Kind_eqb (Kind_of_int a) (Kind_of_int b).
Definition FloatKind_eqb (a b : FloatKind) : bool :=
  Kind_eqb (Kind_of_float a) (Kind_of_float b).
Definition ComplexKind_eqb (a b : ComplexKind) : bool :=
  Kind_eqb (Kind_of_complex a) (Kind_of_complex b).

(** Integer widths on a 64-bit platform. *)
Definition int_bits (k : IntKind) : Z :=
  match k with
  | KInt8 | KUint8 => 8
  | KInt16 | KUint16 => 16
  | KInt32 | KUint32 => 32
  | KInt | KInt64 | KUint | KUint64 | KUintptr => 64
  end.

Definition int_signed (k : IntKind) : bool :=
  match k with
  | KInt | KInt8 | KInt16 | KInt32 | KInt64 => true
  | _ => false
  end.

(** Wrap-around of an integer into the range of kind [k]. *)
Definition wrap_int (k : IntKind) (n : Z) : Z :=
  let m := 2 ^ int_bits k in
  if int_signed k then (n + m / 2) mod m - m / 2 else n mod m.

(** Run-time type descriptors ([reflect.Type]).  A function signature and
    an interface's method set are kept as their printed form. *)
Inductive rtype : Type :=
| TBool
| TInt (k : IntKind)
| TFloat (k : FloatKind)
| TComplex (k : ComplexKind)
| TString
| TUnsafePointer
| TArray (len : nat) (elem : rtype)
| TChan (elem : rtype)
| TFunc (sig : string)
| TInterface (methods : string)
| TMap (key elem : rtype)
| TPtr (elem : rtype)
| TSlice (elem : rtype)
| TStruct (fields : list (string * rtype))
| TNamed (name : string) (underlying : rtype).

Fixpoint rtype_eqb (a b : rtype) {struct a} : bool :=
  match a, b with
  | TBool, TBool => true
  | TInt k, TInt k' => IntKind_eqb k k'
  | TFloat k, TFloat k' => FloatKind_eqb k k'
  | TComplex k, TComplex k' => ComplexKind_eqb k k'
  | TString, TString => true
  | TUnsafePointer, TUnsafePointer => true
  | TArray n e, TArray n' e' => Nat.eqb n n' && rtype_eqb e e'
  | TChan e, TChan e' => rtype_eqb e e'
  | TFunc s, TFunc s' => String.eqb s s'
  | TInterface m, TInterface m' => String.eqb m m'
  | TMap k e, TMap k' e' => rtype_eqb k k' && rtype_eqb e e'
  | TPtr e, TPtr e' => rtype_eqb e e'
  | TSlice e, TSlice e' => rtype_eqb e e'
  | TStruct fa, TStruct fb =>
      (fix fields_eqb (fa fb : list (string * rtype)) {struct fa} : bool :=
         match fa, fb with
         | [], [] => true
         | (n, t) :: ra, (n', t') :: rb =>
             String.eqb n n' && rtype_eqb t t' && fields_eqb ra rb
         | _, _ => false
         end) fa fb
  | TNamed n u, TNamed n' u' => String.eqb n n' && rtype_eqb u u'
  | _, _ => false
  end.

(** Comparison of two [reflect.Type] interface values ([==]); the nil
    Type is [None]. *)
Definition Type_eqb (a b : option rtype) : bool :=
  match a, b with
  | None, None => true
  | Some x, Some y => rtype_eqb x y
  | _, _ => false
  end.

(** [Type.Kind] *)
Fixpoint kindOf (t : rtype) : Kind :=
  match t with
  | TBool => Bool
  | TInt k => Kind_of_int k
  | TFloat k => Kind_of_float k
  | TComplex k => Kind_of_complex k
  | TString => String
  | TUnsafePointer => UnsafePointer
  | TArray _ _ => Array
  | TChan _ => Chan
  | TFunc _ => Func
  | TInterface _ => Interface
  | TMap _ _ => Map
  | TPtr _ => Ptr
  | TSlice _ => Slice
  | TStruct _ => Struct
  | TNamed _ u => kindOf u
  end.

(** Calling a method on the nil [reflect.Type] dereferences nil. *)
Definition Type_Kind (t : option rtype) : result Kind :=
  match t with
  | Some ty => Ok (kindOf ty)
  | None => Panic "runtime error: invalid memory address or nil pointer dereference"
  end.

(** [Type.Elem], used by the source on pointer types only. *)
Definition Type_Elem (t : rtype) : result rtype :=
  let fix elem (u : rtype) : result rtype :=
    match u with
    | TArray _ e | TChan e | TPtr e | TSlice e | TMap _ e => Ok e
    | TNamed _ u' => elem u'
    | _ => Panic "reflect: Elem of invalid type"
    end in
  elem t.

Definition underlying (t : rtype) : rtype :=
  let fix strip (u : rtype) : rtype :=
    match u with
    | TNamed _ u' => strip u'
    | _ => u
    end in
  strip t.

Definition int_name (k : IntKind) : string :=
  match k with
  | KInt => "int" | KInt8 => "int8" | KInt16 => "int16" | KInt32 => "int32"
  | KInt64 => "int64"
  | KUint => "uint" | KUint8 => "uint8" | KUint16 => "uint16"
  | KUint32 => "uint32" | KUint64 => "uint64" | KUintptr => "uintptr"
  end.

Definition nat_to_string (n : nat) : string :=
  DecimalString.NilEmpty.string_of_uint (Nat.to_uint n).

(** [Type.String] *)
Fixpoint Type_String (t : rtype) : string :=
  match t with
  | TBool => "bool"
  | TInt k => int_name k
  | TFloat KFloat32 => "float32"
  | TFloat KFloat64 => "float64"
  | TComplex KComplex64 => "complex64"
  | TComplex KComplex128 => "complex128"
  | TString => "string"
  | TUnsafePointer => "unsafe.Pointer"
  | TArray n e => "[" ++ nat_to_string n ++ "]" ++ Type_String e
  | TChan e => "chan " ++ Type_String e
  | TFunc sig => sig
  | TInterface m => "interface {" ++ m ++ "}"
  | TMap k e => "map[" ++ Type_String k ++ "]" ++ Type_String e
  | TPtr e => "*" ++ Type_String e
  | TSlice e => "[]" ++ Type_String e
  | TStruct fs =>
      "struct {" ++
      (fix fields (fs : list (string * rtype)) : string :=
         match fs with
         | [] => EmptyString
         | (n, ft) :: rest => " " ++ n ++ " " ++ Type_String ft ++ ";" ++ fields rest
         end) fs ++ " }"
  | TNamed n _ => n
  end.

(** Can values of the type be compared with [==]? *)
Fixpoint comparable (t : rtype) : bool :=
  match t with
  | TSlice _ | TMap _ _ | TFunc _ => false
  | TArray _ e => comparable e
  | TStruct fs =>
      (fix all (fs : list (string * rtype)) : bool :=
         match fs with
         | [] => true
         | (_, ft) :: rest => comparable ft && all rest
         end) fs
  | TNamed _ u => comparable u
  | _ => true
  end.

Definition tyname := option string.

Definition named (nm : tyname) (t : rtype) : rtype :=
  match nm with
  | Some n => TNamed n t
  | None => t
  end.

Inductive value : Type :=
| VNil
| VBool (nm : tyname) (b : bool)
| VInt (nm : tyname) (k : IntKind) (n : Z)
| VFloat (nm : tyname) (k : FloatKind) (f : spec_float)
| VComplex (nm : tyname) (k : ComplexKind) (re im : spec_float)
| VString (nm : tyname) (s : string)
| VUnsafePointer (nm : tyname) (addr : nat)
| VArray (nm : tyname) (elem : rtype) (elems : list value)
| VChan (nm : tyname) (elem : rtype) (ch : option nat) (queue : list value)
| VFunc (nm : tyname) (sig : string) (code : option nat)
| VIface (nm : tyname) (methods : string) (dyn : value)
| VMap (nm : tyname) (key elem : rtype) (hmap : option nat)
       (entries : list (value * value))
| VPtr (nm : tyname) (elem : rtype) (target : option (nat * value))
| VSlice (nm : tyname) (elem : rtype) (data : option nat) (elems : list value)
| VStruct (nm : tyname) (fields : list (string * rtype)) (vals : list value).

(** [reflect.TypeOf]: the dynamic type; nil for the nil interface. *)
Definition TypeOf (v : value) : option rtype :=
  match v with
  | VNil => None
  | VBool nm _ => Some (named nm TBool)
  | VInt nm k _ => Some (named nm (TInt k))
  | VFloat nm k _ => Some (named nm (TFloat k))
  | VComplex nm k _ _ => Some (named nm (TComplex k))
  | VString nm _ => Some (named nm TString)
  | VUnsafePointer nm _ => Some (named nm TUnsafePointer)
  | VArray nm e es => Some (named nm (TArray (List.length es) e))
  | VChan nm e _ _ => Some (named nm (TChan e))
  | VFunc nm sig _ => Some (named nm (TFunc sig))
  | VIface nm m _ => Some (named nm (TInterface m))
  | VMap nm k e _ _ => Some (named nm (TMap k e))
  | VPtr nm e _ => Some (named nm (TPtr e))
  | VSlice nm e _ _ => Some (named nm (TSlice e))
  | VStruct nm fs _ => Some (named nm (TStruct fs))
  end.

(** [reflect.ValueOf(x).IsValid()] *)
Definition IsValid (v : value) : bool :=
  match v with
  | VNil => false
  | _ => true
  end.

(** [Value.Kind]: [Invalid] for the zero Value. *)
Definition Value_Kind (v : value) : Kind :=
  match TypeOf v with
  | Some t => kindOf t
  | None => Invalid
  end.

(** [Value.IsNil]: panics unless the kind is chan, func, interface, map,
    pointer or slice. *)
Definition IsNil (v : value) : result bool :=
  match v with
  | VChan _ _ ch _ => Ok (match ch with None => true | Some _ => false end)
  | VFunc _ _ code => Ok (match code with None => true | Some _ => false end)
  | VIface _ _ dyn => Ok (match dyn with VNil => true | _ => false end)
  | VMap _ _ _ h _ => Ok (match h with None => true | Some _ => false end)
  | VPtr _ _ tg => Ok (match tg with None => true | Some _ => false end)
  | VSlice _ _ d _ => Ok (match d with None => true | Some _ => false end)
  | _ => Panic "reflect: call of reflect.Value.IsNil on invalid kind"
  end.

(** [Value.Len]: arrays, channels (queued elements), maps, slices,
    strings and, since Go 1.19, pointers to an array (the length of the
    array type, also for a nil pointer); panics on any other kind. *)
Definition Len (v : value) : result Z :=
  match v with
  | VArray _ _ es => Ok (Z.of_nat (List.length es))
  | VChan _ _ _ q => Ok (Z.of_nat (List.length q))
  | VMap _ _ _ _ en => Ok (Z.of_nat (List.length en))
  | VSlice _ _ _ es => Ok (Z.of_nat (List.length es))
  | VString _ s => Ok (Z.of_nat (String.length s))
  | VPtr _ e _ =>
      match underlying e with
      | TArray n _ => Ok (Z.of_nat n)
      | _ => Panic "reflect: call of reflect.Value.Len on ptr to non-array Value"
      end
  | _ => Panic "reflect: call of reflect.Value.Len on invalid kind"
  end.

(** [Value.Index]: arrays, slices and strings; panics on another kind
    and on an index out of range. *)
Definition Index (v : value) (i : Z) : result value :=
  match v with
  | VArray _ _ es =>
      if (i <? 0) || (Z.of_nat (List.length es) <=? i)
      then Panic "reflect: array index out of range"
      else match nth_error es (Z.to_nat i) with
           | Some x => Ok x
           | None => Panic "reflect: array index out of range"
           end
  | VSlice _ _ _ es =>
      if (i <? 0) || (Z.of_nat (List.length es) <=? i)
      then Panic "reflect: slice index out of range"
      else match nth_error es (Z.to_nat i) with
           | Some x => Ok x
           | None => Panic "reflect: slice index out of range"
           end
  | VString _ s =>
      match (if i <? 0 then None else String.get (Z.to_nat i) s) with
      | Some c => Ok (VInt None KUint8 (Z.of_nat (nat_of_ascii c)))
      | None => Panic "reflect: string index out of range"
      end
  | _ => Panic "reflect: call of reflect.Value.Index on invalid kind"
  end.

(** [Value.Interface]: the value as an [interface{}]; a value of
    interface kind yields what it holds. *)
Definition Value_Interface (v : value) : value :=
  match v with
  | VIface _ _ dyn => dyn
  | _ => v
  end.

(** [Value.MapKeys] (in the order of the entries; Go leaves the order
    unspecified). *)
Definition MapKeys (v : value) : result (list value) :=
  match v with
  | VMap _ _ _ _ en => Ok (List.map fst en)
  | _ => Panic "reflect: call of reflect.Value.MapKeys on invalid kind"
  end.

(** [Value.String]: the string itself for a string kind, and a
    placeholder naming the type otherwise; it never panics. *)
Definition Value_String (v : value) : string :=
  match v with
  | VString _ s => s
  | _ => match TypeOf v with
         | None => "<invalid Value>"
         | Some t => "<" ++ Type_String t ++ " Value>"
         end
  end.

(** Identity of what two reference-like values refer to. *)
Definition addr_eqb (a b : option nat) : bool :=
  match a, b with
  | None, None => true
  | Some x, Some y => Nat.eqb x y
  | _, _ => false
  end.

Definition ptr_addr (target : option (nat * value)) : option nat :=
  match target with
  | Some (a, _) => Some a
  | None => None
  end.

(** Go's [==] on two operands of one comparable type.  Array elements and
    struct fields are compared in order, stopping at the first difference.
    Interface operands compare their dynamic types first; equal dynamic
    types that are not comparable make the comparison panic. *)
Fixpoint go_eq (a b : value) {struct a} : result bool :=
  match a, b with
  | VNil, VNil => Ok true
  | VBool _ x, VBool _ y => Ok (Bool.eqb x y)
  | VInt _ _ x, VInt _ _ y => Ok (x =? y)
  | VFloat _ _ x, VFloat _ _ y => Ok (SFeqb x y)
  | VComplex _ _ r i, VComplex _ _ r' i' => Ok (SFeqb r r' && SFeqb i i')
  | VString _ x, VString _ y => Ok (String.eqb x y)
  | VUnsafePointer _ x, VUnsafePointer _ y => Ok (Nat.eqb x y)
  | VChan _ _ c _, VChan _ _ c' _ => Ok (addr_eqb c c')
  | VPtr _ _ t, VPtr _ _ t' => Ok (addr_eqb (ptr_addr t) (ptr_addr t'))
  | VArray _ _ xs, VArray _ _ ys
  | VStruct _ _ xs, VStruct _ _ ys =>
      (fix each (xs ys : list value) {struct xs} : result bool :=
         match xs, ys with
         | [], [] => Ok true
         | x :: xs', y :: ys' =>
             match go_eq x y with
             | Ok true => each xs' ys'
             | r => r
             end
         | _, _ => Ok false
         end) xs ys
  | VIface _ _ x, VIface _ _ y =>
      match x, y with
      | VNil, VNil => Ok true
      | VNil, _ | _, VNil => Ok false
      | _, _ =>
          match TypeOf x, TypeOf y with
          | Some tx, Some ty =>
              if rtype_eqb tx ty then
                if comparable tx then go_eq x y
                else Panic "runtime error: comparing uncomparable type"
              else Ok false
          | _, _ => Ok false
          end
      end
  | VSlice _ _ _ _, _ | VMap _ _ _ _ _, _ | VFunc _ _ _, _ =>
      Panic "runtime error: comparing uncomparable type"
  | _, _ => Ok false
  end.

(** [a == b] for two operands of type [interface{}]. *)
Definition iface_eq (a b : value) : result bool :=
  match a, b with
  | VNil, VNil => Ok true
  | VNil, _ | _, VNil => Ok false
  | _, _ =>
      match TypeOf a, TypeOf b with
      | Some ta, Some tb =>
          if rtype_eqb ta tb then
            if comparable ta then go_eq a b
            else Panic "runtime error: comparing uncomparable type"
          else Ok false
      | _, _ => Ok false
      end
  end.

(** [Value.MapIndex]: the element stored under a key equal to [k]. *)
Fixpoint MapIndex (entries : list (value * value)) (k : value) : option value :=
  match entries with
  | [] => None
  | (k', x) :: rest =>
      match go_eq k' k with
      | Ok true => Some x
      | _ => MapIndex rest k
      end
  end.

(** [deepValueEqual] of package reflect (without the cycle bookkeeping,
    which finite trees do not need). *)
Fixpoint deepValueEqual (v1 v2 : value) {struct v1} : bool :=
  match v1 with
  | VNil => match v2 with VNil => true | _ => false end
  | VArray _ _ es1 =>
      match v2 with
      | VArray _ _ es2 =>
          Type_eqb (TypeOf v1) (TypeOf v2) &&
          (fix each (l1 l2 : list value) {struct l1} : bool :=
             match l1, l2 with
             | [], [] => true
             | x :: l1', y :: l2' => deepValueEqual x y && each l1' l2'
             | _, _ => false
             end) es1 es2
      | _ => false
      end
  | VStruct _ _ es1 =>
      match v2 with
      | VStruct _ _ es2 =>
          Type_eqb (TypeOf v1) (TypeOf v2) &&
          (fix each (l1 l2 : list value) {struct l1} : bool :=
             match l1, l2 with
             | [], [] => true
             | x :: l1', y :: l2' => deepValueEqual x y && each l1' l2'
             | _, _ => false
             end) es1 es2
      | _ => false
      end
  | VSlice _ _ d1 es1 =>
      match v2 with
      | VSlice _ _ d2 es2 =>
          Type_eqb (TypeOf v1) (TypeOf v2) &&
          Bool.eqb (match d1 with None => true | _ => false end)
                   (match d2 with None => true | _ => false end) &&
          Nat.eqb (List.length es1) (List.length es2) &&
          (addr_eqb d1 d2 ||
           (fix each (l1 l2 : list value) {struct l1} : bool :=
              match l1, l2 with
              | [], [] => true
              | x :: l1', y :: l2' => deepValueEqual x y && each l1' l2'
              | _, _ => false
              end) es1 es2)
      | _ => false
      end
  | VIface _ _ d1 =>
      match v2 with
      | VIface _ _ d2 =>
          Type_eqb (TypeOf v1) (TypeOf v2) &&
          match d1, d2 with
          | VNil, VNil => true
          | VNil, _ | _, VNil => false
          | _, _ => deepValueEqual d1 d2
          end
      | _ => false
      end
  | VPtr _ _ t1 =>
      match v2 with
      | VPtr _ _ t2 =>
          Type_eqb (TypeOf v1) (TypeOf v2) &&
          (addr_eqb (ptr_addr t1) (ptr_addr t2) ||
           match t1, t2 with
           | Some (_, x), Some (_, y) => deepValueEqual x y
           | _, _ => false
           end)
      | _ => false
      end
  | VMap _ _ _ h1 en1 =>
      match v2 with
      | VMap _ _ _ h2 en2 =>
          Type_eqb (TypeOf v1) (TypeOf v2) &&
          Bool.eqb (match h1 with None => true | _ => false end)
                   (match h2 with None => true | _ => false end) &&
          Nat.eqb (List.length en1) (List.length en2) &&
          (addr_eqb h1 h2 ||
           (fix each (l1 : list (value * value)) {struct l1} : bool :=
              match l1 with
              | [] => true
              | (k, x) :: l1' =>
                  match MapIndex en2 k with
                  | Some y => deepValueEqual x y && each l1'
                  | None => false
                  end
              end) en1)
      | _ => false
      end
  | VFunc _ _ c1 =>
      match v2 with
      | VFunc _ _ c2 =>
          Type_eqb (TypeOf v1) (TypeOf v2) &&
          match c1, c2 with
          | None, None => true
          | _, _ => false
          end
      | _ => false
      end
  | _ =>
      (* bool, numbers, strings, channels, unsafe pointers: normal equality *)
      Type_eqb (TypeOf v1) (TypeOf v2) &&
      match go_eq v1 v2 with
      | Ok true => true
      | _ => false
      end
  end.

(** [reflect.DeepEqual] *)
Definition DeepEqual (x y : value) : bool :=
  match x, y with
  | VNil, VNil => true
  | VNil, _ | _, VNil => false
  | _, _ => Type_eqb (TypeOf x) (TypeOf y) && deepValueEqual x y
  end.

(** *** Conversion ([Type.ConvertibleTo], [Value.Convert])

    The conversions of package reflect as of Go 1.20 ([convertOp]):
    between numeric types, from an integer to a string, between a string
    and a byte or rune slice, from a slice to an array or to a pointer to
    an array with the same element type, between types with identical
    underlying types, between unnamed pointer types with identical
    underlying base types, and to the empty interface.  Method sets are
    not part of [rtype], so a conversion to an interface type with methods
    is outside this model ([ConvertibleTo] answers [false] for it); the
    source only ever converts to a dynamic type, which is never an
    interface type.  Channel types carry no direction here, so the rule
    for channels adds nothing to that for identical underlying types. *)

Definition is_byte_or_rune (e : rtype) : bool :=
  match e with
  | TInt KUint8 | TInt KInt32 => true
  | _ => false
  end.

Definition ConvertibleTo (src dst : rtype) : bool :=
  match underlying src, underlying dst with
  | TInt _, (TInt _ | TFloat _ | TString) => true
  | TFloat _, (TInt _ | TFloat _) => true
  | TComplex _, TComplex _ => true
  | TString, TSlice e => is_byte_or_rune e
  | TSlice e, TString => is_byte_or_rune e
  | TSlice e, TPtr a =>
      (* a slice to a pointer to an array with the same element type *)
      match underlying a with
      | TArray _ e' => rtype_eqb e e'
      | _ => false
      end
  | TSlice e, TArray _ e' =>
      (* a slice to an array with the same element type *)
      rtype_eqb e e'
  | _, _ => false
  end
  || rtype_eqb (underlying src) (underlying dst)
  || match src, dst with
     | TPtr a, TPtr b => rtype_eqb (underlying a) (underlying b)
     | _, _ => false
     end
  || match underlying dst with
     | TInterface m => String.eqb m EmptyString
     | _ => false
     end.

Definition name_of (t : rtype) : tyname :=
  match t with
  | TNamed n _ => Some n
  | _ => None
  end.

Definition round_float (k : FloatKind) (f : spec_float) : spec_float :=
  match k with
  | KFloat64 => float64.of_float f
  | KFloat32 => float32.of_float (float64.of_float f)
  end.

(** The same representation under another type name (a direct conversion
    between types with identical underlying types). *)
Definition set_name (nm : tyname) (v : value) : value :=
  match v with
  | VNil => VNil
  | VBool _ b => VBool nm b
  | VInt _ k n => VInt nm k n
  | VFloat _ k f => VFloat nm k f
  | VComplex _ k r i => VComplex nm k r i
  | VString _ s => VString nm s
  | VUnsafePointer _ a => VUnsafePointer nm a
  | VArray _ e es => VArray nm e es
  | VChan _ e c q => VChan nm e c q
  | VFunc _ sig c => VFunc nm sig c
  | VIface _ m d => VIface nm m d
  | VMap _ k e h en => VMap nm k e h en
  | VPtr _ e t => VPtr nm e t
  | VSlice _ e d es => VSlice nm e d es
  | VStruct _ fs vs => VStruct nm fs vs
  end.

Definition int_of (v : value) : Z :=
  match v with
  | VInt _ _ n => n
  | _ => 0
  end.

(** The largest address a value mentions, at any depth. *)
Fixpoint max_addr (v : value) : nat :=
  match v with
  | VUnsafePointer _ a => a
  | VArray _ _ es | VStruct _ _ es =>
      (fix many (l : list value) : nat :=
         match l with
         | [] => 0
         | x :: l' => Nat.max (max_addr x) (many l')
         end) es
  | VChan _ _ c es | VSlice _ _ c es =>
      Nat.max (match c with Some a => a | None => 0 end)
        ((fix many (l : list value) : nat :=
            match l with
            | [] => 0
            | x :: l' => Nat.max (max_addr x) (many l')
            end) es)
  | VFunc _ _ c => match c with Some a => a | None => 0 end
  | VIface _ _ d => max_addr d
  | VMap _ _ _ h en =>
      Nat.max (match h with Some a => a | None => 0 end)
        ((fix many (l : list (value * value)) : nat :=
            match l with
            | [] => 0
            | (k, x) :: l' => Nat.max (Nat.max (max_addr k) (max_addr x)) (many l')
            end) en)
  | VPtr _ _ (Some (a, x)) => Nat.max a (max_addr x)
  | _ => 0
  end%nat.

(** Storage a conversion allocates is new: its address is beyond every
    address the live values mention. *)
Definition fresh_addr (live : list value) : nat :=
  S (List.fold_right Nat.max 0%nat (List.map max_addr live)).

(** What a pointer refers to, seen through a pointer type with element
    type [e] (whose underlying type is that of the old element type). *)
Definition retarget (e : rtype) (target : option (nat * value))
  : option (nat * value) :=
  match target with
  | Some (a, x) => Some (a, set_name (name_of e) x)
  | None => None
  end.

(** [Value.Convert]; [fresh] is the address of the storage the conversion
    allocates, if it allocates any.  What Go leaves to the implementation,
    the result of converting a float that the integer type cannot hold, is
    taken to be the truncated number wrapped around (0 for an infinity or
    a NaN). *)
Definition Convert (v : value) (t : rtype) (fresh : nat) : result value :=
  match TypeOf v with
  | None => Panic "reflect: call of reflect.Value.Convert on zero Value"
  | Some src =>
      if negb (ConvertibleTo src t)
      then Panic "reflect.Value.Convert: value cannot be converted to type"
      else
        let nm := name_of t in
        match v, underlying t with
        | VInt _ _ n, TInt k => Ok (VInt nm k (wrap_int k n))
        | VInt _ _ n, TFloat k => Ok (VFloat nm k (round_float k (float64.of_Z n)))
        | VInt _ _ n, TString => Ok (VString nm (utf8.EncodeRune n))
        | VFloat _ _ f, TInt k => Ok (VInt nm k (wrap_int k (float64.trunc f)))
        | VFloat _ _ f, TFloat k => Ok (VFloat nm k (round_float k f))
        | VComplex _ _ r i, TComplex KComplex128 =>
            Ok (VComplex nm KComplex128 (round_float KFloat64 r) (round_float KFloat64 i))
        | VComplex _ _ r i, TComplex KComplex64 =>
            Ok (VComplex nm KComplex64 (round_float KFloat32 r) (round_float KFloat32 i))
        | VString _ s, TSlice (TInt KUint8) =>
            Ok (VSlice nm (TInt KUint8) (Some fresh)
                  (List.map (VInt None KUint8) (utf8.bytes s)))
        | VString _ s, TSlice (TInt KInt32) =>
            Ok (VSlice nm (TInt KInt32) (Some fresh)
                  (List.map (VInt None KInt32) (utf8.runes s)))
        | VSlice _ (TInt KUint8) _ es, TString =>
            Ok (VString nm (utf8.bytes_to_string (List.map int_of es)))
        | VSlice _ (TInt KInt32) _ es, TString =>
            Ok (VString nm
                  (List.fold_right (fun x s => utf8.EncodeRune (int_of x) ++ s)
                     EmptyString es))
        | VSlice _ _ d es, TArray n e' =>
            (* the first [n] elements, copied *)
            if (List.length es <? n)%nat
            then Panic ("reflect: cannot convert slice with length "
                        ++ nat_to_string (List.length es)
                        ++ " to array with length " ++ nat_to_string n)
            else Ok (VArray nm e' (List.firstn n es))
        | VSlice _ _ d es, TPtr a =>
            (* a pointer to the storage of the slice *)
            match underlying a with
            | TArray n e' =>
                if (List.length es <? n)%nat
                then Panic ("reflect: cannot convert slice with length "
                            ++ nat_to_string (List.length es)
                            ++ " to pointer to array with length "
                            ++ nat_to_string n)
                else Ok (VPtr nm a
                           (match d with
                            | Some addr =>
                                Some (addr, VArray (name_of a) e' (List.firstn n es))
                            | None => None
                            end))
            | _ => Ok (set_name nm v)
            end
        | VPtr _ _ tg, TPtr b => Ok (VPtr nm b (retarget b tg))
        | VIface _ _ d, TInterface m => Ok (VIface nm m d)
        | _, TInterface m => Ok (VIface nm m v)
        | _, _ => Ok (set_name nm v)
        end
  end.

(** [reflect.Zero]: the zero value of a type. *)
Fixpoint Zero (t : rtype) : value :=
  match t with
  | TBool => VBool None false
  | TInt k => VInt None k 0
  | TFloat k => VFloat None k (S754_zero false)
  | TComplex k => VComplex None k (S754_zero false) (S754_zero false)
  | TString => VString None EmptyString
  | TUnsafePointer => VUnsafePointer None 0%nat
  | TArray n e => VArray None e (List.repeat (Zero e) n)
  | TChan e => VChan None e None []
  | TFunc sig => VFunc None sig None
  | TInterface m => VIface None m VNil
  | TMap k e => VMap None k e None []
  | TPtr e => VPtr None e None
  | TSlice e => VSlice None e None []
  | TStruct fs =>
      VStruct None fs
        ((fix zeros (fs : list (string * rtype)) : list value :=
            match fs with
            | [] => []
            | (_, ft) :: rest => Zero ft :: zeros rest
            end) fs)
  | TNamed n u => set_name (Some n) (Zero u)
  end.

End reflect.

(* ================================================================== *)
(** ** Package [runtime]: the call stack seen by [runtime.Caller] *)

Module runtime.

(** One stack frame: the file and line [runtime.Caller] reports, and the
    function name [runtime.FuncForPC(pc).Name()] gives ([None] when
    [FuncForPC] returns nil). *)
Record Frame : Type := {
  file : string;
  line : Z;
  func : option string
}.

(** [runtime.Caller(skip)], given the stack of the calling function
    (innermost frame first): [None] stands for [ok == false]. *)
Definition Caller (stack : list Frame) (skip : nat) : option Frame :=
  nth_error stack skip.

End runtime.

(** What the helpers read from their surroundings when a failure is
    reported. *)
Record Env : Type := {
  (** the call stack while [Fail] runs; frame 0 is [Fail] itself *)
  stack : list runtime.Frame;
  (** the frame of [CallerInfo] when [Fail] calls it *)
  callerInfoFrame : runtime.Frame;
  (** [os.LookupEnv("TESTIFY_PRINT_LOCATION")] *)
  TESTIFY_PRINT_LOCATION : option string
}.

(* ================================================================== *)
(** ** Package [difflib] (go-difflib): the input of the unified diff *)

Module difflib.

Record UnifiedDiff : Type := {
  A : list string;
  B : list string;
  FromFile : string;
  FromDate : string;
  ToFile : string;
  ToDate : string;
  Context : Z
}.

(** [strings.SplitAfter(s, "\n")] *)
Fixpoint SplitAfterNewline (s : string) : list string :=
  match s with
  | EmptyString => [EmptyString]
  | String c s' =>
      if Ascii.eqb c "010"%char then String c EmptyString :: SplitAfterNewline s'
      else match SplitAfterNewline s' with
           | p :: ps => String c p :: ps
           | [] => [String c EmptyString]
           end
  end.

Fixpoint terminate_last (lines : list string) : list string :=
  match lines with
  | [] => []
  | [l] => [l ++ String "010"%char EmptyString]
  | l :: rest => l :: terminate_last rest
  end.

(** [difflib.SplitLines]: split after each newline and terminate the last
    line. *)
Definition SplitLines (s : string) : list string :=
  terminate_last (SplitAfterNewline s).

End difflib.

(* ================================================================== *)
(** ** The [TestingT] sink and the monad of the assertions *)

(** One call [t.Errorf(format, args...)]. *)
Record ErrorfCall : Type := {
  format : string;
  args : list reflect.value
}.

(** A [TestingT] is observed through the calls of [Errorf] it has
    received, oldest first. *)
Definition TestingT : Type := list ErrorfCall.

Definition M (A : Type) : Type := TestingT -> result A * TestingT.

Definition ret {A : Type} (a : A) : M A := fun t => (Ok a, t).

Definition bind {A B : Type} (m : M A) (k : A -> M B) : M B :=
  fun t =>
    match m t with
    | (Ok a, t') => k a t'
    | (Panic msg, t') => (Panic msg, t')
    end.

Definition lift {A : Type} (r : result A) : M A := fun t => (r, t).

Definition Errorf (fmt : string) (a : list reflect.value) : M unit :=
  fun t => (Ok tt, (t ++ [{| format := fmt; args := a |}])%list).

Declare Scope monad_scope.
Delimit Scope monad_scope with M.
Notation "x <- m ;; k" := (bind m (fun x => k))
  (at level 61, m at next level, right associativity) : monad_scope.

(** Control characters of the format strings. *)
Definition CR : string := String "013"%char EmptyString.
Definition LF : string := String "010"%char EmptyString.
Definition TAB : string := String "009"%char EmptyString.
Definition DQ : string := String "034"%char EmptyString.

(** Go values of the predeclared types, as the source writes them. *)
Definition go_string (s : string) : reflect.value := reflect.VString None s.
Definition go_bool (b : bool) : reflect.value := reflect.VBool None b.
Definition go_int (n : Z) : reflect.value := reflect.VInt None reflect.KInt n.
Definition go_float64 (f : spec_float) : reflect.value :=
  reflect.VFloat None reflect.KFloat64 f.

(** [x == nil] for an [interface{}] operand. *)
Definition is_nil_interface (x : reflect.value) : bool :=
  match x with
  | reflect.VNil => true
  | _ => false
  end.

(** The type assertion [x.(string)], which panics on any other dynamic
    type. *)
Definition assert_string (x : reflect.value) : result string :=
  match x with
  | reflect.VString None s => Ok s
  | _ =>
      Panic ("interface conversion: interface {} is "
             ++ match reflect.TypeOf x with
                | Some t => reflect.Type_String t
                | None => "nil"
                end
             ++ ", not string")
  end.

(* ================================================================== *)
(** ** Sample inputs and instances of the library functions

    Concrete Go values used by the examples below, a call stack as a test
    run produces it, and simple stand-ins for the text-producing library
    functions. *)

Module sample.

Definition int32_5 : reflect.value := reflect.VInt None reflect.KInt32 5.
Definition int64_5 : reflect.value := reflect.VInt None reflect.KInt64 5.
Definition int64_300 : reflect.value := reflect.VInt None reflect.KInt64 300.
Definition uint8_44 : reflect.value := reflect.VInt None reflect.KUint8 44.
Definition uintptr_0 : reflect.value := reflect.VInt None reflect.KUintptr 0.
Definition int_42 : reflect.value := go_int 42.
Definition complex128_0 : reflect.value :=
  reflect.VComplex None reflect.KComplex128 (S754_zero false) (S754_zero false).
(** [time.Duration(0)], of the defined type [type Duration int64] *)
Definition duration_0 : reflect.value :=
  reflect.VInt (Some "time.Duration") reflect.KInt64 0.

(** [[]string{"Hello", "World"}] *)
Definition hello_world_slice : reflect.value :=
  reflect.VSlice None reflect.TString (Some 1%nat)
    [go_string "Hello"; go_string "World"].


(** A non-nil function value, [func() {}]. *)
Definition some_func : reflect.value :=
  reflect.VFunc None "func()" (Some 3%nat).

(** [[]float64{}] and [[]float64{1}] *)
Definition no_floats : reflect.value :=
  reflect.VSlice None (reflect.TFloat reflect.KFloat64) (Some 4%nat) [].
Definition one_float : reflect.value :=
  reflect.VSlice None (reflect.TFloat reflect.KFloat64) (Some 5%nat)
    [go_float64 (float64.of_Z 1)].


(** The float64 constants of the examples. *)
Definition f_3_14159 : spec_float := float64.const 314159 100000.
Definition f_22_7 : spec_float := float64.const 22 7.
Definition f_0_01 : spec_float := float64.const 1 100.
Definition f_3_0 : spec_float := float64.of_Z 3.
Definition f_3_02 : spec_float := float64.const 302 100.

(** The stack of a failing [assert.Equal] inside [TestAdd]. *)
Definition frame_Fail : runtime.Frame :=
  {| runtime.file := "/go/src/github.com/stretchr/testify/assert/assertions.go";
     runtime.line := 205;
     runtime.func := Some "github.com/stretchr/testify/assert.Fail" |}.
Definition frame_CallerInfo : runtime.Frame :=
  {| runtime.file := "/go/src/github.com/stretchr/testify/assert/assertions.go";
     runtime.line := 84;
     runtime.func := Some "github.com/stretchr/testify/assert.CallerInfo" |}.
Definition frame_Equal : runtime.Frame :=
  {| runtime.file := "/go/src/github.com/stretchr/testify/assert/assertions.go";
     runtime.line := 261;
     runtime.func := Some "github.com/stretchr/testify/assert.Equal" |}.
Definition frame_test : runtime.Frame :=
  {| runtime.file := "/home/dev/calc/calc_test.go";
     runtime.line := 12;
     runtime.func := Some "calc.TestAdd" |}.
Definition frame_runner : runtime.Frame :=
  {| runtime.file := "/usr/local/go/src/testing/testing.go";
     runtime.line := 610;
     runtime.func := Some "testing.tRunner" |}.

Definition env : Env :=
  {| stack := [frame_Fail; frame_Equal; frame_test; frame_runner];
     callerInfoFrame := frame_CallerInfo;
     TESTIFY_PRINT_LOCATION := None |}.

(** A formatter that returns the format string with its verbs left in. *)
Definition Sprintf (fmt : string) (a : list reflect.value) : string := fmt.

(** [unicode.IsLower] on the ASCII range. *)
Definition IsLower (r : Z) : bool := (97 <=? r) && (r <=? 122).

(** A dump that prints the type and, where there is one, the length. *)
Definition Sdump (v : reflect.value) : string :=
  reflect.Value_String v ++
  match reflect.Len v with
  | Ok n => " len=" ++ reflect.nat_to_string (Z.to_nat n)
  | Panic _ => EmptyString
  end ++ LF.

Fixpoint lines_eqb (a b : list string) : bool :=
  match a, b with
  | [], [] => true
  | x :: a', y :: b' => String.eqb x y && lines_eqb a' b'
  | _, _ => false
  end.

(** A unified diff reduced to its two header lines; empty when the two
    sides are the same. *)
Definition GetUnifiedDiffString (d : difflib.UnifiedDiff) : string :=
  if lines_eqb (difflib.A d) (difflib.B d) then EmptyString
  else "--- " ++ difflib.FromFile d ++ LF ++ "+++ " ++ difflib.ToFile d ++ LF.

(** [time.Time] with the fields of the Go 1.x runtime the source was
    written for, and its [IsZero]. *)
Definition time_Time : reflect.rtype :=
  reflect.TNamed "time.Time"
    (reflect.TStruct
       [("sec", reflect.TInt reflect.KInt64);
        ("nsec", reflect.TInt reflect.KInt32);
        ("loc", reflect.TPtr (reflect.TNamed "time.Location" (reflect.TStruct [])))]).

Definition time_IsZero (v : reflect.value) : bool :=
  match v with
  | reflect.VStruct _ _ (reflect.VInt _ _ sec :: reflect.VInt _ _ nsec :: _) =>
      (sec =? 0) && (nsec =? 0)
  | _ => false
  end.

Definition a_time (sec nsec : Z) : reflect.value :=
  reflect.VStruct (Some "time.Time")
    [("sec", reflect.TInt reflect.KInt64);
     ("nsec", reflect.TInt reflect.KInt32);
     ("loc", reflect.TPtr (reflect.TNamed "time.Location" (reflect.TStruct [])))]
    [reflect.VInt None reflect.KInt64 sec;
     reflect.VInt None reflect.KInt32 nsec;
     reflect.VPtr None (reflect.TNamed "time.Location" (reflect.TStruct [])) None].

(** [&t] for a [time.Time] value [t]. *)
Definition ptr_to_time (addr : nat) (t : reflect.value) : reflect.value :=
  reflect.VPtr None time_Time (Some (addr, t)).

(** [expected.Sub(actual)] for two times built by [a_time], in
    nanoseconds. *)
Definition time_Sub (a b : reflect.value) : Z :=
  match a, b with
  | reflect.VStruct _ _ (reflect.VInt _ _ s1 :: reflect.VInt _ _ n1 :: _),
    reflect.VStruct _ _ (reflect.VInt _ _ s2 :: reflect.VInt _ _ n2 :: _) =>
      (s1 - s2) * 1000000000 + (n1 - n2)
  | _, _ => 0
  end.

(** [errors.New(text)]: a pointer to an [errorString], and the method
    [Error] of such a value. *)
Definition errorString : reflect.rtype :=
  reflect.TNamed "errors.errorString" (reflect.TStruct [("s", reflect.TString)]).

Definition new_error (addr : nat) (text : string) : reflect.value :=
  reflect.VPtr None errorString
    (Some (addr,
           reflect.VStruct (Some "errors.errorString") [("s", reflect.TString)]
             [go_string text])).

Definition Error_method (err : reflect.value) : string :=
  match err with
  | reflect.VPtr _ _ (Some (_, reflect.VStruct _ _ (reflect.VString _ s :: _))) => s
  | _ => EmptyString
  end.

(** A frame generated by the compiler, and the sample stack with such a
    frame under [Fail] while TESTIFY_PRINT_LOCATION is 1. *)
Definition frame_autogenerated : runtime.Frame :=
  {| runtime.file := "<autogenerated>";
     runtime.line := 1;
     runtime.func := Some "calc.(*Suite).Equal" |}.

Definition env_print_location : Env :=
  {| stack := [frame_Fail; frame_Equal; frame_autogenerated; frame_test;
               frame_runner];
     callerInfoFrame := frame_CallerInfo;
     TESTIFY_PRINT_LOCATION := Some "1" |}.

(** [struct{ n int }{1}] of the defined type [calc.Pair], and a pointer
    to it. *)
Definition Pair : reflect.rtype :=
  reflect.TNamed "calc.Pair" (reflect.TStruct [("n", reflect.TInt reflect.KInt)]).

Definition a_pair : reflect.value :=
  reflect.VStruct (Some "calc.Pair") [("n", reflect.TInt reflect.KInt)] [go_int 1].

(** [&x] for [x := MyInt(5)], of the defined type [type MyInt int], and
    [&y] for [y := 5]. *)
Definition ptr_to_MyInt_5 : reflect.value :=
  reflect.VPtr None (reflect.TNamed "calc.MyInt" (reflect.TInt reflect.KInt))
    (Some (10%nat, reflect.VInt (Some "calc.MyInt") reflect.KInt 5)).

Definition ptr_to_int_5 : reflect.value :=
  reflect.VPtr None (reflect.TInt reflect.KInt) (Some (11%nat, go_int 5)).


Definition ptr_to_two_ints : reflect.value :=
  reflect.VPtr None (reflect.TArray 2 (reflect.TInt reflect.KInt))
    (Some (13%nat,
           reflect.VArray None (reflect.TInt reflect.KInt) [go_int 1; go_int 2])).


(** [[]float64{1, 3}] and [[]float64{1, 3.02}] *)
Definition floats_1_3 : reflect.value :=
  reflect.VSlice None (reflect.TFloat reflect.KFloat64) (Some 15%nat)
    [go_float64 (float64.of_Z 1); go_float64 f_3_0].
Definition floats_1_3_02 : reflect.value :=
  reflect.VSlice None (reflect.TFloat reflect.KFloat64) (Some 16%nat)
    [go_float64 (float64.of_Z 1); go_float64 f_3_02].


(** A byte slice stored at address [d]. *)
Definition bytes_at (d : nat) (bs : list Z) : reflect.value :=
  reflect.VSlice None (reflect.TInt reflect.KUint8) (Some d)
    (List.map (reflect.VInt None reflect.KUint8) bs).

End sample.

(* ================================================================== *)
(** ** The helpers of [assertions.go] *)

Section Assert.

(** Library functions whose result only ever ends up inside the text of a
    report: [fmt.Sprintf], [unicode.IsLower], [spew.Sdump] (with sorted
    keys) and [difflib.GetUnifiedDiffString].  None of them panics. *)
Variable Sprintf : string -> list reflect.value -> string.
Variable unicode_IsLower : Z -> bool.
Variable Sdump : reflect.value -> string.
Variable GetUnifiedDiffString : difflib.UnifiedDiff -> string.

(** Package [time]: the type [time.Time] and its method [IsZero]. *)
Variable time_Time : reflect.rtype.
Variable time_IsZero : reflect.value -> bool.

Variable env : Env.

Local Open Scope monad_scope.

(** *** Helper functions *)

Definition ObjectsAreEqual (expected actual : reflect.value) : result bool :=
  if is_nil_interface expected || is_nil_interface actual
  then reflect.iface_eq expected actual
  else Ok (reflect.DeepEqual expected actual).

Definition ObjectsAreEqualValues (expected actual : reflect.value) : result bool :=
  (do eq <- ObjectsAreEqual expected actual;
   if eq then Ok true
   else
     let actualType := reflect.TypeOf actual in
     match actualType with
     | None => Ok false
     | Some aty =>
         let expectedValue := expected in
         match reflect.TypeOf expectedValue with
         | Some ety =>
             if reflect.IsValid expectedValue && reflect.ConvertibleTo ety aty
             then
               (* Attempt comparison after type conversion *)
               do c <- reflect.Convert expectedValue aty
                         (reflect.fresh_addr [expected; actual]);
               Ok (reflect.DeepEqual (reflect.Value_Interface c) actual)
             else Ok false
         | None => Ok false
         end
     end)%res.

Definition isTest (name prefix : string) : bool :=
  if negb (strings.HasPrefix name prefix) then false
  else if Nat.eqb (String.length name) (String.length prefix) then true
  else
    let '(rune, _) :=
      utf8.DecodeRuneInString (strings.drop (String.length prefix) name) in
    negb (unicode_IsLower rune).

(** [parts[len(parts)-k]] *)
Definition from_end (parts : list string) (k : Z) : result string :=
  index_or_panic parts (Z.of_nat (List.length parts) - k).

(** The loop of [CallerInfo] over the frames [runtime.Caller(i)],
    [runtime.Caller(i+1)], ...; running out of frames is [!ok], which
    returns nil. *)
Fixpoint CallerInfo_loop (frames : list runtime.Frame) (callers : list string)
  : result (list string) :=
  match frames with
  | [] => Ok []
  | fr :: rest =>
      (* This is a huge edge case, but it will panic if this is the case *)
      if String.eqb (runtime.file fr) "<autogenerated>" then Ok callers
      else
        let parts := strings.Split (runtime.file fr) "/"%char in
        (do dir <- from_end parts 2;
         do file <- from_end parts 1;
         let callers :=
           if (negb (String.eqb dir "assert") && negb (String.eqb dir "mock")
               && negb (String.eqb dir "require"))
              || String.eqb file "mock_test.go"
           then (callers ++
                 [Sprintf "%s:%d" [go_string file; go_int (runtime.line fr)]])%list
           else callers in
         match runtime.func fr with
         | None => Ok callers
         | Some name =>
             (* Drop the package *)
             let segments := strings.Split name "."%char in
             do name <- from_end segments 1;
             if isTest name "Test" || isTest name "Benchmark"
                || isTest name "Example"
             then Ok callers
             else CallerInfo_loop rest callers
         end)%res
  end.

(** [CallerInfo], given the stack it sees (frame 0 is [CallerInfo]). *)
Definition CallerInfo (frames : list runtime.Frame) : result (list string) :=
  CallerInfo_loop frames [].

(** [getWhitespaceString], given the stack of its caller: frame 1 of its
    own stack is frame 0 there. *)
Definition getWhitespaceString (callerStack : list runtime.Frame) : string :=
  match runtime.Caller callerStack 0 with
  | None => EmptyString
  | Some fr =>
      let parts := strings.Split (runtime.file fr) "/"%char in
      let file := List.last parts EmptyString in
      strings.Repeat " "
        (String.length
           (Sprintf "%s:%d:      " [go_string file; go_int (runtime.line fr)]))
  end.

Definition messageFromMsgAndArgs (msgAndArgs : list reflect.value) : result string :=
  match msgAndArgs with
  | [] => Ok EmptyString
  | [m] => assert_string m
  | m :: rest => (do f <- assert_string m; Ok (Sprintf f rest))%res
  end.

(** The lines [bufio.Scanner] yields: split at newlines, without a final
    empty line, each without a trailing carriage return.  The scanner's
    buffer grows up to [bufio.MaxScanTokenSize] bytes and must hold a line
    together with its newline (or, for an unterminated last line, leave
    room for the read that meets the end of the input): at a line of that
    many bytes or more [Scan] stops with [ErrTooLong], an error the source
    does not look at, so that this line and what follows it are lost. *)
Fixpoint dropCR (s : string) : string :=
  match s with
  | EmptyString => EmptyString
  | String c EmptyString => if Ascii.eqb c "013"%char then EmptyString else s
  | String c s' => String c (dropCR s')
  end.

Definition MaxScanTokenSize : Z := 64 * 1024.

(** The lines up to the first one the buffer cannot hold. *)
Fixpoint scanned (parts : list string) : list string :=
  match parts with
  | [] => []
  | p :: rest =>
      if MaxScanTokenSize <=? Z.of_nat (String.length p) then []
      else p :: scanned rest
  end.

Definition scan_lines (s : string) : list string :=
  let parts := strings.Split s "010"%char in
  let parts :=
    if String.eqb (List.last parts EmptyString) EmptyString
    then List.removelast parts else parts in
  List.map dropCR (scanned parts).

(** How many tabs the inner loop of [indentMessageLines] writes: all lines
    except the first get one fewer. *)
Definition tabs_written (first : bool) (tabs : Z) : nat :=
  if first then Z.to_nat tabs
  else if tabs <=? 0 then 0%nat
  else if tabs =? 1 then 1%nat
  else Z.to_nat (tabs - 1).

Fixpoint indent_lines (first : bool) (lines : list string) (tabs : Z) : string :=
  match lines with
  | [] => EmptyString
  | l :: rest =>
      (if first then EmptyString else LF)
      ++ strings.Repeat TAB (tabs_written first tabs) ++ l
      ++ indent_lines false rest tabs
  end.

Definition indentMessageLines (message : string) (tabs : Z) : string :=
  indent_lines true (scan_lines message) tabs.

(** The loop of [Fail] that looks for the first frame outside the
    library. *)
Fixpoint Fail_location (frames : list runtime.Frame) : result string :=
  match frames with
  | [] => Ok EmptyString
  | fr :: rest =>
      let parts := strings.Split (runtime.file fr) "/"%char in
      (do dir <- from_end parts 2;
       if negb (String.eqb dir "assert") && negb (String.eqb dir "mock")
          && negb (String.eqb dir "require")
       then Ok (Sprintf ("%s:%d:0" ++ LF)
                  [go_string (runtime.file fr); go_int (runtime.line fr)])
       else Fail_location rest)%res
  end.

(** Fail reports a failure through [t.Errorf] and returns false. *)
Definition Fail (failureMessage : string) (msgAndArgs : list reflect.value) : M bool :=
  let printLocation :=
    match TESTIFY_PRINT_LOCATION env with
    | Some v => v
    | None => EmptyString
    end in
  location <- lift (if String.eqb printLocation "1"
                    then Fail_location (stack env) else Ok EmptyString) ;;
  message <- lift (messageFromMsgAndArgs msgAndArgs) ;;
  callers <- lift (CallerInfo (callerInfoFrame env :: stack env)) ;;
  let errorTrace := strings.Join callers (LF ++ CR ++ TAB ++ TAB ++ TAB) in
  _ <- (if (0 <? Z.of_nat (String.length message))
        then Errorf (CR ++ "%s" ++ CR ++ "%s" ++ TAB ++ "Error Trace:" ++ TAB
                       ++ "%s" ++ LF
                     ++ CR ++ TAB ++ "Error:%s" ++ LF
                     ++ CR ++ TAB ++ "Messages:" ++ TAB ++ "%s" ++ LF ++ CR)
               [go_string (getWhitespaceString (stack env));
                go_string location;
                go_string errorTrace;
                go_string (indentMessageLines failureMessage 2);
                go_string message]
        else Errorf (CR ++ "%s" ++ CR ++ "%s" ++ TAB ++ "Error Trace:" ++ TAB
                       ++ "%s" ++ LF
                     ++ CR ++ TAB ++ "Error:%s" ++ LF ++ CR)
               [go_string (getWhitespaceString (stack env));
                go_string location;
                go_string errorTrace;
                go_string (indentMessageLines failureMessage 2)]) ;;
  ret false.

(** *** Equality assertions *)

Definition typeAndKind (v : reflect.value) : result (reflect.rtype * reflect.Kind) :=
  match reflect.TypeOf v with
  | None => Panic "runtime error: invalid memory address or nil pointer dereference"
  | Some t =>
      let k := reflect.kindOf t in
      if reflect.Kind_eqb k reflect.Ptr
      then (do t' <- reflect.Type_Elem t; Ok (t', reflect.kindOf t'))%res
      else Ok (t, k)
  end.

(** diff returns a diff of both values as long as both are of the same
    type and are a struct, map, slice or array.  Otherwise it returns an
    empty string. *)
Definition diff (expected actual : reflect.value) : result string :=
  if is_nil_interface expected || is_nil_interface actual then Ok EmptyString
  else
    (do etk <- typeAndKind expected;
     do atk <- typeAndKind actual;
     let '(et, ek) := etk in
     let '(aty, _) := atk in
     if negb (reflect.rtype_eqb et aty) then Ok EmptyString
     else if negb (reflect.Kind_eqb ek reflect.Struct)
             && negb (reflect.Kind_eqb ek reflect.Map)
             && negb (reflect.Kind_eqb ek reflect.Slice)
             && negb (reflect.Kind_eqb ek reflect.Array)
     then Ok EmptyString
     else
       let e := Sdump expected in
       let a := Sdump actual in
       let d := GetUnifiedDiffString
                  {| difflib.A := difflib.SplitLines e;
                     difflib.B := difflib.SplitLines a;
                     difflib.FromFile := "Expected";
                     difflib.FromDate := EmptyString;
                     difflib.ToFile := "Actual";
                     difflib.ToDate := EmptyString;
                     difflib.Context := 1 |} in
       Ok (LF ++ LF ++ "Diff:" ++ LF ++ d))%res.

Definition Equal (expected actual : reflect.value) (msgAndArgs : list reflect.value)
  : M bool :=
  eq <- lift (ObjectsAreEqual expected actual) ;;
  if negb eq then
    d <- lift (diff expected actual) ;;
    Fail (Sprintf ("Not equal: %#v (expected)" ++ LF
                   ++ "        != %#v (actual)%s")
            [expected; actual; go_string d]) msgAndArgs
  else ret true.

Definition EqualValues (expected actual : reflect.value)
  (msgAndArgs : list reflect.value) : M bool :=
  eq <- lift (ObjectsAreEqualValues expected actual) ;;
  if negb eq then
    Fail (Sprintf ("Not equal: %#v (expected)" ++ LF
                   ++ "        != %#v (actual)") [expected; actual]) msgAndArgs
  else ret true.

(** A [reflect.Type] handed to [fmt] as an argument; the nil Type is the
    nil interface. *)
Definition type_arg (t : option reflect.rtype) : reflect.value :=
  match t with
  | Some ty => go_string (reflect.Type_String ty)
  | None => reflect.VNil
  end.

Definition Exactly (expected actual : reflect.value) (msgAndArgs : list reflect.value)
  : M bool :=
  let aType := reflect.TypeOf expected in
  let bType := reflect.TypeOf actual in
  if negb (reflect.Type_eqb aType bType) then
    Fail (Sprintf ("Types expected to match exactly" ++ LF ++ CR ++ TAB
                   ++ "%v != %v") [type_arg aType; type_arg bType]) msgAndArgs
  else Equal expected actual msgAndArgs.

(** *** Nil *)

(** isNil checks if a specified object is nil or not, without Failing. *)
Definition isNil (object : reflect.value) : result bool :=
  if is_nil_interface object then Ok true
  else
    let value := object in
    let kind := reflect.Value_Kind value in
    if reflect.Kind_leb reflect.Chan kind && reflect.Kind_leb kind reflect.Slice
    then (do n <- reflect.IsNil value; Ok n)%res
    else Ok false.

Definition NotNil (object : reflect.value) (msgAndArgs : list reflect.value) : M bool :=
  n <- lift (isNil object) ;;
  if negb n then ret true
  else Fail "Expected value not to be nil." msgAndArgs.

Definition Nil (object : reflect.value) (msgAndArgs : list reflect.value) : M bool :=
  n <- lift (isNil object) ;;
  if n then ret true
  else Fail (Sprintf "Expected nil, but got: %#v" [object]) msgAndArgs.

(** *** Emptiness *)

Definition numericZeros : list reflect.value :=
  [ reflect.VInt None reflect.KInt 0;
    reflect.VInt None reflect.KInt8 0;
    reflect.VInt None reflect.KInt16 0;
    reflect.VInt None reflect.KInt32 0;
    reflect.VInt None reflect.KInt64 0;
    reflect.VInt None reflect.KUint 0;
    reflect.VInt None reflect.KUint8 0;
    reflect.VInt None reflect.KUint16 0;
    reflect.VInt None reflect.KUint32 0;
    reflect.VInt None reflect.KUint64 0;
    reflect.VFloat None reflect.KFloat32 (S754_zero false);
    reflect.VFloat None reflect.KFloat64 (S754_zero false) ].

(** The loop [for _, v := range numericZeros { if object == v ... }]:
    is [object] equal to one of [zeros]? *)
Fixpoint equals_one_of (object : reflect.value) (zeros : list reflect.value)
  : result bool :=
  match zeros with
  | [] => Ok false
  | v :: rest =>
      (do e <- reflect.iface_eq object v;
       if e then Ok true else equals_one_of object rest)%res
  end.

(** The pointee of a non-nil pointer. *)
Definition pointee (object : reflect.value) : result reflect.value :=
  match object with
  | reflect.VPtr _ _ (Some (_, x)) => Ok x
  | _ => Panic "runtime error: invalid memory address or nil pointer dereference"
  end.

(** isEmpty gets whether the specified object is considered empty or
    not. *)
Definition isEmpty (object : reflect.value) : result bool :=
  if is_nil_interface object then Ok true
  else
    (do e <- reflect.iface_eq object (go_string EmptyString);
     if e then Ok true
     else
       do f <- reflect.iface_eq object (go_bool false);
       if f then Ok true
       else
         do z <- equals_one_of object numericZeros;
         if z then Ok true
         else
           let objValue := object in
           match reflect.Value_Kind objValue with
           | reflect.Map | reflect.Slice | reflect.Chan =>
               do n <- reflect.Len objValue; Ok (n =? 0)
           | reflect.Ptr =>
               do n <- reflect.IsNil objValue;
               if n then Ok true
               else if reflect.Type_eqb (reflect.TypeOf object)
                         (Some (reflect.TPtr time_Time))
               then (do x <- pointee object; Ok (time_IsZero x))
               else Ok false
           | _ => Ok false
           end)%res.

Definition Empty (object : reflect.value) (msgAndArgs : list reflect.value) : M bool :=
  pass <- lift (isEmpty object) ;;
  if negb pass then
    _ <- Fail (Sprintf "Should be empty, but was %v" [object]) msgAndArgs ;;
    ret pass
  else ret pass.

Definition NotEmpty (object : reflect.value) (msgAndArgs : list reflect.value)
  : M bool :=
  e <- lift (isEmpty object) ;;
  let pass := negb e in
  if negb pass then
    _ <- Fail (Sprintf "Should NOT be empty, but was %v" [object]) msgAndArgs ;;
    ret pass
  else ret pass.

(** *** Containment *)

(** The loop over the map keys or the elements of the list. *)
Fixpoint includes (candidates : list reflect.value) (element : reflect.value)
  : result (bool * bool) :=
  match candidates with
  | [] => Ok (true, false)
  | c :: rest =>
      (do e <- ObjectsAreEqual (reflect.Value_Interface c) element;
       if e then Ok (true, true) else includes rest element)%res
  end.

(** The loop [for i := 0; i < listValue.Len(); i++] with
    [listValue.Index(i)], for [n] more rounds from index [i]. *)
Fixpoint includes_indexed (listValue element : reflect.value) (n : nat) (i : Z)
  : result (bool * bool) :=
  match n with
  | O => Ok (true, false)
  | S n' =>
      (do x <- reflect.Index listValue i;
       do e <- ObjectsAreEqual (reflect.Value_Interface x) element;
       if e then Ok (true, true)
       else includes_indexed listValue element n' (i + 1))%res
  end.

(** The body of [includeElement]; the deferred [recover] is applied by
    [includeElement] below. *)
Definition includeElement_body (lst element : reflect.value)
  : result (bool * bool) :=
  let listValue := lst in
  let elementValue := element in
  (do k <- reflect.Type_Kind (reflect.TypeOf lst);
   if reflect.Kind_eqb k reflect.String
   then Ok (true, strings.Contains (reflect.Value_String listValue)
                    (reflect.Value_String elementValue))
   else if reflect.Kind_eqb k reflect.Map
   then (do mapKeys <- reflect.MapKeys listValue; includes mapKeys element)
   else
     do n <- reflect.Len listValue;
     includes_indexed listValue element (Z.to_nat n) 0)%res.

(** includeElement: (false, false) if impossible, (true, false) if the
    element was not found, (true, true) if it was found. *)
Definition includeElement (lst element : reflect.value) : bool * bool :=
  recover (false, false) (includeElement_body lst element).

Definition Contains (s contains : reflect.value) (msgAndArgs : list reflect.value)
  : M bool :=
  let '(ok, found) := includeElement s contains in
  if negb ok then
    Fail (Sprintf (DQ ++ "%s" ++ DQ ++ " could not be applied builtin len()") [s]) msgAndArgs
  else if negb found then
    Fail (Sprintf (DQ ++ "%s" ++ DQ ++ " does not contain " ++ DQ ++ "%s" ++ DQ) [s; contains]) msgAndArgs
  else ret true.

Definition NotContains (s contains : reflect.value) (msgAndArgs : list reflect.value)
  : M bool :=
  let '(ok, found) := includeElement s contains in
  if negb ok then
    Fail (Sprintf (DQ ++ "%s" ++ DQ ++ " could not be applied builtin len()") [s]) msgAndArgs
  else if found then
    Fail (Sprintf (DQ ++ "%s" ++ DQ ++ " should not contain " ++ DQ ++ "%s" ++ DQ) [s; contains]) msgAndArgs
  else ret true.

(** *** Numeric closeness *)

Definition toFloat (x : reflect.value) : spec_float * bool :=
  match x with
  | reflect.VInt None k n =>
      match k with
      | reflect.KUint8 | reflect.KUint16 | reflect.KUint32 | reflect.KUint64
      | reflect.KInt | reflect.KInt8 | reflect.KInt16 | reflect.KInt32
      | reflect.KInt64 => (float64.of_Z n, true)
      | _ => (S754_zero false, false)
      end
  | reflect.VFloat None reflect.KFloat32 f => (float64.of_float f, true)
  | reflect.VFloat None reflect.KFloat64 f => (f, true)
  | _ => (S754_zero false, false)
  end.

(** InDelta asserts that the two numerals are within delta of each
    other. *)
Definition InDelta (expected actual : reflect.value) (delta : spec_float)
  (msgAndArgs : list reflect.value) : M bool :=
  let '(af, aok) := toFloat expected in
  let '(bf, bok) := toFloat actual in
  if negb aok || negb bok then
    Fail (Sprintf "Parameters must be numerical" []) msgAndArgs
  else if float64.IsNaN af then
    Fail (Sprintf "Actual must not be NaN" []) msgAndArgs
  else if float64.IsNaN bf then
    Fail (Sprintf "Expected %v with delta %v, but was NaN"
            [expected; go_float64 delta]) msgAndArgs
  else
    let dt := float64.sub af bf in
    if float64.ltb dt (float64.neg delta) || float64.ltb delta dt then
      Fail (Sprintf "Max difference between %v and %v allowed is %v, but difference was %v"
              [expected; actual; go_float64 delta; go_float64 dt]) msgAndArgs
    else ret true.

(** The guard shared by [InDeltaSlice] and [InEpsilonSlice]:
    [expected == nil || actual == nil || kind of actual is not Slice ||
    kind of expected is not Slice]. *)
Definition not_both_slices (expected actual : reflect.value) : result bool :=
  if is_nil_interface expected || is_nil_interface actual then Ok true
  else
    (do ka <- reflect.Type_Kind (reflect.TypeOf actual);
     if negb (reflect.Kind_eqb ka reflect.Slice) then Ok true
     else
       do ke <- reflect.Type_Kind (reflect.TypeOf expected);
       Ok (negb (reflect.Kind_eqb ke reflect.Slice)))%res.

(** The loop [for i := 0; i < actualSlice.Len(); i++] of the two slice
    assertions, for [n] more rounds from index [i]; [check] is [InDelta]
    or [InEpsilon], called without message arguments. *)
Fixpoint slice_loop
  (check : reflect.value -> reflect.value -> spec_float -> list reflect.value -> M bool)
  (actualSlice expectedSlice : reflect.value) (delta : spec_float)
  (n : nat) (i : Z) : M bool :=
  match n with
  | O => ret true
  | S n' =>
      a <- lift (reflect.Index actualSlice i) ;;
      e <- lift (reflect.Index expectedSlice i) ;;
      result <- check (reflect.Value_Interface a) (reflect.Value_Interface e)
                  delta [] ;;
      if negb result then ret result
      else slice_loop check actualSlice expectedSlice delta n' (i + 1)
  end.

(** InDeltaSlice is the same as InDelta, except it compares two slices. *)
Definition InDeltaSlice (expected actual : reflect.value) (delta : spec_float)
  (msgAndArgs : list reflect.value) : M bool :=
  bad <- lift (not_both_slices expected actual) ;;
  if bad then Fail (Sprintf "Parameters must be slice" []) msgAndArgs
  else
    let actualSlice := actual in
    let expectedSlice := expected in
    n <- lift (reflect.Len actualSlice) ;;
    slice_loop InDelta actualSlice expectedSlice delta (Z.to_nat n) 0.

(** min(|expected|, |actual|) * epsilon *)
Definition calcEpsilonDelta (expected actual : reflect.value) (epsilon : spec_float)
  : spec_float :=
  let '(af, aok) := toFloat expected in
  let '(bf, bok) := toFloat actual in
  if negb aok || negb bok then
    (* invalid input *)
    S754_zero false
  else
    let af := if float64.ltb af (S754_zero false) then float64.neg af else af in
    let bf := if float64.ltb bf (S754_zero false) then float64.neg bf else bf in
    if float64.ltb af bf then float64.mul af epsilon
    else float64.mul bf epsilon.

(** InEpsilon asserts that expected and actual have a relative error less
    than epsilon. *)
Definition InEpsilon (expected actual : reflect.value) (epsilon : spec_float)
  (msgAndArgs : list reflect.value) : M bool :=
  let delta := calcEpsilonDelta expected actual epsilon in
  InDelta expected actual delta msgAndArgs.

(** InEpsilonSlice is the same as InEpsilon, except it compares two
    slices. *)
Definition InEpsilonSlice (expected actual : reflect.value) (delta : spec_float)
  (msgAndArgs : list reflect.value) : M bool :=
  bad <- lift (not_both_slices expected actual) ;;
  if bad then Fail (Sprintf "Parameters must be slice" []) msgAndArgs
  else
    let actualSlice := actual in
    let expectedSlice := expected in
    n <- lift (reflect.Len actualSlice) ;;
    slice_loop InEpsilon actualSlice expectedSlice delta (Z.to_nat n) 0.

(** *** The remaining assertions *)

(** Package [time]: [expected.Sub(actual)], a [time.Duration] in
    nanoseconds; and the method [Error] of an error value. *)
Variable time_Sub : reflect.value -> reflect.value -> Z.
Variable Error_method : reflect.value -> string.

(** A [time.Duration] handed to [fmt]. *)
Definition go_duration (d : Z) : reflect.value :=
  reflect.VInt (Some "time.Duration") reflect.KInt64 d.

(** NotEqual asserts that the specified values are NOT equal. *)
Definition NotEqual (expected actual : reflect.value)
  (msgAndArgs : list reflect.value) : M bool :=
  eq <- lift (ObjectsAreEqual expected actual) ;;
  if eq then
    Fail (Sprintf ("Should not be: %#v" ++ LF) [actual]) msgAndArgs
  else ret true.

(** getLen try to get length of object; (false, 0) if impossible. *)
Definition getLen (x : reflect.value) : bool * Z :=
  let v := x in
  recover (false, 0) (do n <- reflect.Len v; Ok (true, n))%res.

(** Len asserts that the specified object has specific length. *)
Definition Len (object : reflect.value) (length : Z)
  (msgAndArgs : list reflect.value) : M bool :=
  let '(ok, l) := getLen object in
  if negb ok then
    Fail (Sprintf (DQ ++ "%s" ++ DQ ++ " could not be applied builtin len()")
            [object]) msgAndArgs
  else if negb (l =? length) then
    Fail (Sprintf (DQ ++ "%s" ++ DQ ++ " should have %d item(s), but has %d")
            [object; go_int length; go_int l]) msgAndArgs
  else ret true.

(** True asserts that the specified value is true. *)
Definition True_ (value : bool) (msgAndArgs : list reflect.value) : M bool :=
  if negb (Bool.eqb value true) then Fail "Should be true" msgAndArgs
  else ret true.

(** False asserts that the specified value is false. *)
Definition False_ (value : bool) (msgAndArgs : list reflect.value) : M bool :=
  if negb (Bool.eqb value false) then Fail "Should be false" msgAndArgs
  else ret true.

(** WithinDuration asserts that the two times are within duration delta
    of each other.  A [time.Duration] is an int64: [-delta] wraps. *)
Definition WithinDuration (expected actual : reflect.value) (delta : Z)
  (msgAndArgs : list reflect.value) : M bool :=
  let dt := time_Sub expected actual in
  if (dt <? reflect.wrap_int reflect.KInt64 (- delta)) || (delta <? dt) then
    Fail (Sprintf "Max difference between %v and %v allowed is %v, but difference was %v"
            [expected; actual; go_duration delta; go_duration dt]) msgAndArgs
  else ret true.

(** NoError asserts that a function returned no error (i.e. nil). *)
Definition NoError (err : reflect.value) (msgAndArgs : list reflect.value)
  : M bool :=
  n <- lift (isNil err) ;;
  if n then ret true
  else Fail (Sprintf "Received unexpected error %q" [err]) msgAndArgs.

(** Error asserts that a function returned an error (i.e. not nil). *)
Definition Error (err : reflect.value) (msgAndArgs : list reflect.value)
  : M bool :=
  message <- lift (messageFromMsgAndArgs msgAndArgs) ;;
  NotNil err [go_string "An error is expected but got nil. %s"; go_string message].

(** EqualError asserts that a function returned an error (i.e. not nil)
    and that it is equal to the provided error. *)
Definition EqualError (theError : reflect.value) (errString : string)
  (msgAndArgs : list reflect.value) : M bool :=
  message <- lift (messageFromMsgAndArgs msgAndArgs) ;;
  ok <- NotNil theError
          [go_string "An error is expected but got nil. %s"; go_string message] ;;
  if negb ok then ret false
  else
    let s := "An error with value " ++ DQ ++ "%s" ++ DQ ++ " is expected but got "
             ++ DQ ++ "%s" ++ DQ ++ ". %s" in
    Equal (go_string errString) (go_string (Error_method theError))
      [go_string s; go_string errString; go_string (Error_method theError);
       go_string message].

(** The test shared by [Zero] and [NotZero]:
    [reflect.DeepEqual(i, reflect.Zero(reflect.TypeOf(i)).Interface())],
    for a non-nil [i]. *)
Definition equals_zero_of_its_type (i : reflect.value) : result bool :=
  match reflect.TypeOf i with
  | None => Panic "reflect: Zero(nil)"
  | Some ty =>
      Ok (reflect.DeepEqual i (reflect.Value_Interface (reflect.Zero ty)))
  end.

(** Zero asserts that i is the zero value for its type. *)
Definition Zero (i : reflect.value) (msgAndArgs : list reflect.value) : M bool :=
  if negb (is_nil_interface i) then
    z <- lift (equals_zero_of_its_type i) ;;
    if negb z then Fail (Sprintf "Should be zero, but was %v" [i]) msgAndArgs
    else ret true
  else ret true.

(** NotZero asserts that i is not the zero value for its type. *)
Definition NotZero (i : reflect.value) (msgAndArgs : list reflect.value) : M bool :=
  if is_nil_interface i then
    Fail (Sprintf "Should not be zero, but was %v" [i]) msgAndArgs
  else
    z <- lift (equals_zero_of_its_type i) ;;
    if z then Fail (Sprintf "Should not be zero, but was %v" [i]) msgAndArgs
    else ret true.

(** *** Conditions under which a report can be written

    [Fail] panics when the first message argument is not a string (the
    unchecked type assertion of [messageFromMsgAndArgs]) and when a file
    name it splits at the slashes has no directory part. *)

Definition msgAndArgs_ok (msgAndArgs : list reflect.value) : bool :=
  match msgAndArgs with
  | [] => true
  | reflect.VString None _ :: _ => true
  | _ => false
  end.

Definition has_dir (file : string) : bool :=
  2 <=? Z.of_nat (List.length (strings.Split file "/"%char)).

Definition frames_ok (frames : list runtime.Frame) : bool :=
  forallb (fun fr => has_dir (runtime.file fr)) frames.

Definition env_ok : bool :=
  frames_ok (callerInfoFrame env :: stack env).

(** *** Properties of the call-stack walk and of the report text *)

(** Does [CallerInfo] list the frame: is its directory none of assert,
    mock and require, or its file mock_test.go? *)
Definition listed (fr : runtime.Frame) : bool :=
  let parts := strings.Split (runtime.file fr) "/"%char in
  match from_end parts 2, from_end parts 1 with
  | Ok dir, Ok file =>
      (negb (String.eqb dir "assert") && negb (String.eqb dir "mock")
       && negb (String.eqb dir "require"))
      || String.eqb file "mock_test.go"
  | _, _ => false
  end.

(** The entry [CallerInfo] writes for a frame. *)
Definition trace_entry (fr : runtime.Frame) : string :=
  Sprintf "%s:%d"
    [go_string (List.last (strings.Split (runtime.file fr) "/"%char) EmptyString);
     go_int (runtime.line fr)].

(** Is the frame that of a test, benchmark or example function? *)
Definition is_test_frame (fr : runtime.Frame) : bool :=
  match runtime.func fr with
  | None => false
  | Some name =>
      let short := List.last (strings.Split name "."%char) EmptyString in
      isTest short "Test" || isTest short "Benchmark" || isTest short "Example"
  end.

(** A frame the walk passes by: a real file with a directory part, a
    known function, and not a test function. *)
Definition passed_by (fr : runtime.Frame) : bool :=
  negb (String.eqb (runtime.file fr) "<autogenerated>")
  && has_dir (runtime.file fr)
  && match runtime.func fr with Some _ => true | None => false end
  && negb (is_test_frame fr).

(** A line of a message: no newline inside and no carriage return at the
    end. *)
Fixpoint no_newline (s : string) : bool :=
  match s with
  | EmptyString => true
  | String c s' => negb (Ascii.eqb c "010"%char) && no_newline s'
  end.

Definition clean_line (s : string) : bool :=
  no_newline s && String.eqb (dropCR s) s.

(** A line the scanner's buffer can hold. *)
Definition short_line (s : string) : bool :=
  Z.of_nat (String.length s) <? MaxScanTokenSize.

Fixpoint only_spaces (s : string) : bool :=
  match s with
  | EmptyString => true
  | String c s' => Ascii.eqb c " "%char && only_spaces s'
  end.

(** The two [Errorf] formats of [Fail]. *)
Definition format_with_messages : string :=
  CR ++ "%s" ++ CR ++ "%s" ++ TAB ++ "Error Trace:" ++ TAB ++ "%s" ++ LF
  ++ CR ++ TAB ++ "Error:%s" ++ LF
  ++ CR ++ TAB ++ "Messages:" ++ TAB ++ "%s" ++ LF ++ CR.

Definition format_without_messages : string :=
  CR ++ "%s" ++ CR ++ "%s" ++ TAB ++ "Error Trace:" ++ TAB ++ "%s" ++ LF
  ++ CR ++ TAB ++ "Error:%s" ++ LF ++ CR.

(** Is the frame one of the library: is its directory assert, mock or
    require? *)
Definition in_library (fr : runtime.Frame) : bool :=
  match from_end (strings.Split (runtime.file fr) "/"%char) 2 with
  | Ok dir =>
      String.eqb dir "assert" || String.eqb dir "mock" || String.eqb dir "require"
  | Panic _ => false
  end.

(** The file names the location loop of [Fail] splits have a directory
    part: those of the frames up to and including the first one outside
    the library. *)
Fixpoint location_walk_ok (frames : list runtime.Frame) : bool :=
  match frames with
  | [] => true
  | fr :: rest =>
      has_dir (runtime.file fr)
      && (negb (in_library fr) || location_walk_ok rest)
  end.

(** Likewise for the walk of [CallerInfo], which ends at an autogenerated
    frame before splitting its name, and after a frame of unknown function
    or of a test function. *)
Fixpoint trace_walk_ok (frames : list runtime.Frame) : bool :=
  match frames with
  | [] => true
  | fr :: rest =>
      String.eqb (runtime.file fr) "<autogenerated>"
      || (has_dir (runtime.file fr)
          && match runtime.func fr with
             | None => true
             | Some _ => is_test_frame fr || trace_walk_ok rest
             end)
  end.

(** The two walks of [Fail] over the call stack go through: the location
    loop, which only runs when TESTIFY_PRINT_LOCATION is 1, and the one of
    [CallerInfo]. *)
Definition walks_ok : bool :=
  (if String.eqb (match TESTIFY_PRINT_LOCATION env with
                  | Some v => v
                  | None => EmptyString
                  end) "1"
   then location_walk_ok (stack env) else true)
  && trace_walk_ok (callerInfoFrame env :: stack env).

(** The outcome of an assertion that did not panic: true and no report,
    or false and one report. *)
Definition verdict (r : result bool * TestingT) (t : TestingT) : Prop :=
  r = (Ok true, t) \/ exists call, r = (Ok false, (t ++ [call])%list).

(** *** Properties used to state the claims *)

(** Does the value hold a NaN anywhere? *)
Fixpoint bears_NaN (v : reflect.value) : bool :=
  match v with
  | reflect.VFloat _ _ f => float64.IsNaN f
  | reflect.VComplex _ _ r i => float64.IsNaN r || float64.IsNaN i
  | reflect.VArray _ _ es | reflect.VStruct _ _ es
  | reflect.VSlice _ _ _ es | reflect.VChan _ _ _ es =>
      (fix any (l : list reflect.value) : bool :=
         match l with
         | [] => false
         | x :: l' => bears_NaN x || any l'
         end) es
  | reflect.VIface _ _ d => bears_NaN d
  | reflect.VPtr _ _ (Some (_, x)) => bears_NaN x
  | reflect.VMap _ _ _ _ en =>
      (fix any (l : list (reflect.value * reflect.value)) : bool :=
         match l with
         | [] => false
         | (k, x) :: l' => bears_NaN k || bears_NaN x || any l'
         end) en
  | _ => false
  end.

(** Is the value free of what [reflect.DeepEqual] never finds equal to
    itself: a NaN or a non-nil function, held directly, in an array
    element, in a struct field or in an interface?  What lies behind a
    pointer, a slice or a map does not count: one and the same reference is
    equal to itself. *)
Fixpoint self_equal (v : reflect.value) : bool :=
  match v with
  | reflect.VFloat _ _ f => negb (float64.IsNaN f)
  | reflect.VComplex _ _ r i => negb (float64.IsNaN r) && negb (float64.IsNaN i)
  | reflect.VFunc _ _ code => match code with None => true | Some _ => false end
  | reflect.VArray _ _ es | reflect.VStruct _ _ es =>
      (fix all (l : list reflect.value) : bool :=
         match l with
         | [] => true
         | x :: l' => self_equal x && all l'
         end) es
  | reflect.VIface _ _ d => self_equal d
  | _ => true
  end.

(** Is the value a slice with fewer elements than the array type, or the
    array type pointed to, that [t] is? *)
Definition too_short (v : reflect.value) (t : reflect.rtype) : bool :=
  match v, reflect.underlying t with
  | reflect.VSlice _ _ _ es, reflect.TArray n _ => (List.length es <? n)%nat
  | reflect.VSlice _ _ _ es, reflect.TPtr a =>
      match reflect.underlying a with
      | reflect.TArray n _ => (List.length es <? n)%nat
      | _ => false
      end
  | _, _ => false
  end.

(** The scalar kinds: booleans, numbers and strings. *)
Definition is_scalar (v : reflect.value) : bool :=
  match v with
  | reflect.VBool _ _ | reflect.VInt _ _ _ | reflect.VFloat _ _ _
  | reflect.VComplex _ _ _ _ | reflect.VString _ _ => true
  | _ => false
  end.

(** The kinds [isNil] looks into. *)
Definition nillable (k : reflect.Kind) : bool :=
  match k with
  | reflect.Chan | reflect.Func | reflect.Interface | reflect.Map
  | reflect.Ptr | reflect.Slice => true
  | _ => false
  end.

(** The type of a value with a pointer type replaced by its element
    type, one level only: for a pointer the type it points to, for any
    other value its own type (none for nil); and the kind of that type. *)
Definition deref_type (v : reflect.value) : option reflect.rtype :=
  match v with
  | reflect.VNil => None
  | reflect.VPtr _ elem _ => Some elem
  | reflect.VBool nm _ => Some (reflect.named nm reflect.TBool)
  | reflect.VInt nm k _ => Some (reflect.named nm (reflect.TInt k))
  | reflect.VFloat nm k _ => Some (reflect.named nm (reflect.TFloat k))
  | reflect.VComplex nm k _ _ => Some (reflect.named nm (reflect.TComplex k))
  | reflect.VString nm _ => Some (reflect.named nm reflect.TString)
  | reflect.VUnsafePointer nm _ => Some (reflect.named nm reflect.TUnsafePointer)
  | reflect.VArray nm e es =>
      Some (reflect.named nm (reflect.TArray (List.length es) e))
  | reflect.VChan nm e _ _ => Some (reflect.named nm (reflect.TChan e))
  | reflect.VFunc nm sig _ => Some (reflect.named nm (reflect.TFunc sig))
  | reflect.VIface nm m _ => Some (reflect.named nm (reflect.TInterface m))
  | reflect.VMap nm k e _ _ => Some (reflect.named nm (reflect.TMap k e))
  | reflect.VSlice nm e _ _ => Some (reflect.named nm (reflect.TSlice e))
  | reflect.VStruct nm fs _ => Some (reflect.named nm (reflect.TStruct fs))
  end.

Definition deref_kind (v : reflect.value) : reflect.Kind :=
  match deref_type v with
  | Some t => reflect.kindOf t
  | None => reflect.Invalid
  end.

Definition composite (k : reflect.Kind) : bool :=
  match k with
  | reflect.Struct | reflect.Map | reflect.Slice | reflect.Array => true
  | _ => false
  end.

(** A sequence container, a slice or an array, and its elements. *)
Definition sequence_of (lst : reflect.value) (es : list reflect.value) : Prop :=
  (exists nm e d, lst = reflect.VSlice nm e d es)
  \/ (exists nm e, lst = reflect.VArray nm e es).

(** The kinds whose length [includeElement] can take. *)
Definition containable (k : reflect.Kind) : bool :=
  match k with
  | reflect.String | reflect.Map | reflect.Slice | reflect.Array
  | reflect.Chan => true
  | _ => false
  end.

(** The length of the array type a pointer type points to, for a value
    that is a pointer to an array: [reflect] takes the length of such a
    value, nil or not, from its type. *)
Definition array_pointed_to (v : reflect.value) : option nat :=
  match v with
  | reflect.VPtr _ e _ =>
      match reflect.underlying e with
      | reflect.TArray n _ => Some n
      | _ => None
      end
  | _ => None
  end.

(** The numeric kinds of Go: the integer kinds, [uintptr] among them, the
    floating-point kinds and the complex kinds. *)
Definition is_numeric_kind (k : reflect.Kind) : bool :=
  reflect.Kind_leb reflect.Int k && reflect.Kind_leb k reflect.Complex128.



(* ================================================================== *)
(** ** Facts about the model of package [reflect] *)

Lemma Kind_eqb_eq (a b : reflect.Kind) : reflect.Kind_eqb a b = true <-> a = b.
Proof.
  split.
  - destruct a, b; simpl; intros H; try reflexivity; discriminate H.
  - intros ->. destruct b; reflexivity.
Qed.

Lemma IntKind_eqb_eq (a b : reflect.IntKind) :
  reflect.IntKind_eqb a b = true <-> a = b.
Proof.
  split.
  - destruct a, b; simpl; intros H; try reflexivity; discriminate H.
  - intros ->. destruct b; reflexivity.
Qed.

Lemma FloatKind_eqb_eq (a b : reflect.FloatKind) :
  reflect.FloatKind_eqb a b = true <-> a = b.
Proof.
  split.
  - destruct a, b; simpl; intros H; try reflexivity; discriminate H.
  - intros ->. destruct b; reflexivity.
Qed.

Lemma ComplexKind_eqb_eq (a b : reflect.ComplexKind) :
  reflect.ComplexKind_eqb a b = true <-> a = b.
Proof.
  split.
  - destruct a, b; simpl; intros H; try reflexivity; discriminate H.
  - intros ->. destruct b; reflexivity.
Qed.

(** Induction on type descriptors that reaches the field types of a
    struct. *)
Lemma rtype_nested_ind (P : reflect.rtype -> Prop)
  (HBool : P reflect.TBool)
  (HInt : forall k, P (reflect.TInt k))
  (HFloat : forall k, P (reflect.TFloat k))
  (HComplex : forall k, P (reflect.TComplex k))
  (HString : P reflect.TString)
  (HUnsafe : P reflect.TUnsafePointer)
  (HArray : forall n e, P e -> P (reflect.TArray n e))
  (HChan : forall e, P e -> P (reflect.TChan e))
  (HFunc : forall s, P (reflect.TFunc s))
  (HInterface : forall m, P (reflect.TInterface m))
  (HMap : forall k e, P k -> P e -> P (reflect.TMap k e))
  (HPtr : forall e, P e -> P (reflect.TPtr e))
  (HSlice : forall e, P e -> P (reflect.TSlice e))
  (HStruct : forall fs, Forall (fun nt => P (snd nt)) fs -> P (reflect.TStruct fs))
  (HNamed : forall n u, P u -> P (reflect.TNamed n u)) :
  forall t, P t.
Proof.
  fix IH 1.
  intros [ | k | k | k | | | n e | e | s | m | k e | e | e | fs | n u ].
  - exact HBool.
  - apply HInt.
  - apply HFloat.
  - apply HComplex.
  - exact HString.
  - exact HUnsafe.
  - apply HArray, IH.
  - apply HChan, IH.
  - apply HFunc.
  - apply HInterface.
  - apply HMap; apply IH.
  - apply HPtr, IH.
  - apply HSlice, IH.
  - apply HStruct.
    revert fs. fix IHfs 1.
    intros [ | [n ft] fs ].
    + constructor.
    + constructor; [ apply IH | apply IHfs ].
  - apply HNamed, IH.
Qed.

Lemma rtype_eqb_refl (t : reflect.rtype) : reflect.rtype_eqb t t = true.
Proof.
  induction t using rtype_nested_ind; simpl;
    repeat match goal with
           | H : reflect.rtype_eqb _ _ = true |- _ => rewrite H; clear H
           end;
    rewrite ?Nat.eqb_refl, ?String.eqb_refl; try reflexivity.
  - apply IntKind_eqb_eq; reflexivity.
  - apply FloatKind_eqb_eq; reflexivity.
  - apply ComplexKind_eqb_eq; reflexivity.
  - induction H as [ | [n ft] fs Hft _ IHfs ]; [ reflexivity | ].
    simpl in Hft. rewrite String.eqb_refl, Hft, IHfs. reflexivity.
Qed.

Lemma rtype_eqb_sound (a : reflect.rtype) :
  forall b, reflect.rtype_eqb a b = true -> a = b.
Proof.
  induction a using rtype_nested_ind; intros b Hb; destruct b; simpl in Hb;
    try discriminate Hb;
    repeat match goal with
           | H : _ && _ = true |- _ => apply andb_true_iff in H; destruct H
           end;
    try reflexivity.
  - f_equal. apply IntKind_eqb_eq; assumption.
  - f_equal. apply FloatKind_eqb_eq; assumption.
  - f_equal. apply ComplexKind_eqb_eq; assumption.
  - f_equal; [ apply Nat.eqb_eq; assumption | auto ].
  - f_equal; auto.
  - f_equal. apply String.eqb_eq; assumption.
  - f_equal. apply String.eqb_eq; assumption.
  - f_equal; auto.
  - f_equal; auto.
  - f_equal; auto.
  - f_equal. revert fields Hb.
    induction H as [ | [n ft] fs Hft _ IHfs ]; intros [ | [n' ft'] fs' ] Hb;
      try discriminate Hb; [ reflexivity | ].
    apply andb_true_iff in Hb; destruct Hb as [Hb Hrest].
    apply andb_true_iff in Hb; destruct Hb as [Hn Ht].
    apply String.eqb_eq in Hn. simpl in Hft. apply Hft in Ht.
    apply IHfs in Hrest. subst. reflexivity.
  - f_equal; [ apply String.eqb_eq; assumption | auto ].
Qed.

Lemma rtype_eqb_eq (a b : reflect.rtype) : reflect.rtype_eqb a b = true <-> a = b.
Proof.
  split; [ apply rtype_eqb_sound | intros ->; apply rtype_eqb_refl ].
Qed.

Lemma rtype_eqb_neq (a b : reflect.rtype) : reflect.rtype_eqb a b = false <-> a <> b.
Proof.
  split.
  - intros H E. apply rtype_eqb_eq in E. congruence.
  - intros H. destruct (reflect.rtype_eqb a b) eqn:E; [ | reflexivity ].
    apply rtype_eqb_eq in E. contradiction.
Qed.

Lemma Type_eqb_eq (a b : option reflect.rtype) :
  reflect.Type_eqb a b = true <-> a = b.
Proof.
  destruct a as [a | ], b as [b | ]; simpl.
  - rewrite rtype_eqb_eq. split; congruence.
  - split; discriminate.
  - split; discriminate.
  - split; reflexivity.
Qed.

Lemma Type_eqb_refl (a : option reflect.rtype) : reflect.Type_eqb a a = true.
Proof. apply Type_eqb_eq; reflexivity. Qed.

(** Induction on values that reaches the values nested in lists, in map
    entries and behind pointers. *)
Lemma value_nested_ind (P : reflect.value -> Prop)
  (HNil : P reflect.VNil)
  (HBool : forall nm b, P (reflect.VBool nm b))
  (HInt : forall nm k n, P (reflect.VInt nm k n))
  (HFloat : forall nm k f, P (reflect.VFloat nm k f))
  (HComplex : forall nm k r i, P (reflect.VComplex nm k r i))
  (HString : forall nm s, P (reflect.VString nm s))
  (HUnsafe : forall nm a, P (reflect.VUnsafePointer nm a))
  (HArray : forall nm e es, Forall P es -> P (reflect.VArray nm e es))
  (HChan : forall nm e c q, Forall P q -> P (reflect.VChan nm e c q))
  (HFunc : forall nm s c, P (reflect.VFunc nm s c))
  (HIface : forall nm m d, P d -> P (reflect.VIface nm m d))
  (HMap : forall nm k e h en,
      Forall (fun kx => P (fst kx) /\ P (snd kx)) en ->
      P (reflect.VMap nm k e h en))
  (HPtrNil : forall nm e, P (reflect.VPtr nm e None))
  (HPtr : forall nm e a x, P x -> P (reflect.VPtr nm e (Some (a, x))))
  (HSlice : forall nm e d es, Forall P es -> P (reflect.VSlice nm e d es))
  (HStruct : forall nm fs vs, Forall P vs -> P (reflect.VStruct nm fs vs)) :
  forall v, P v.
Proof.
  fix IH 1.
  assert (Hlist : forall l : list reflect.value, Forall P l).
  { fix IHl 1. intros [ | x l ]; constructor; [ apply IH | apply IHl ]. }
  intros [ | nm b | nm k n | nm k f | nm k r i | nm s | nm a | nm e es
         | nm e c q | nm s c | nm m d | nm k e h en | nm e [[a x] | ]
         | nm e d es | nm fs vs ].
  - exact HNil.
  - apply HBool.
  - apply HInt.
  - apply HFloat.
  - apply HComplex.
  - apply HString.
  - apply HUnsafe.
  - apply HArray, Hlist.
  - apply HChan, Hlist.
  - apply HFunc.
  - apply HIface, IH.
  - apply HMap.
    revert en. fix IHen 1.
    intros [ | [k' x] en ]; constructor;
      [ split; apply IH | apply IHen ].
  - apply HPtr, IH.
  - apply HPtrNil.
  - apply HSlice, Hlist.
  - apply HStruct, Hlist.
Qed.

Lemma SFeqb_self (f : spec_float) : SFeqb f f = negb (float64.IsNaN f).
Proof.
  destruct f as [ s | s | | s m e ]; unfold SFeqb; simpl.
  - reflexivity.
  - destruct s; reflexivity.
  - reflexivity.
  - rewrite Z.compare_refl, Pos.compare_cont_refl. destruct s; reflexivity.
Qed.

Lemma addr_eqb_refl (a : option nat) : reflect.addr_eqb a a = true.
Proof. destruct a; simpl; [ apply Nat.eqb_refl | reflexivity ]. Qed.

Lemma bool_eqb_refl (b : bool) : Bool.eqb b b = true.
Proof. destruct b; reflexivity. Qed.

(** [deepValueEqual] of a value with itself. *)
Lemma deepValueEqual_self (v : reflect.value) :
  reflect.deepValueEqual v v = self_equal v.
Proof.
  induction v using value_nested_ind; simpl;
    rewrite ?Type_eqb_refl, ?rtype_eqb_refl, ?Nat.eqb_refl, ?bool_eqb_refl,
      ?addr_eqb_refl, ?Z.eqb_refl, ?String.eqb_refl, ?SFeqb_self; simpl;
    try reflexivity.
  - destruct (float64.IsNaN f); reflexivity.
  - destruct (float64.IsNaN r), (float64.IsNaN i); reflexivity.
  - induction H as [ | x l Hx _ IHl ]; [ reflexivity | ].
    rewrite Hx, IHl. reflexivity.
  - destruct c; reflexivity.
  - destruct v; try exact IHv; reflexivity.
  - induction H as [ | x l Hx _ IHl ]; [ reflexivity | ].
    rewrite Hx, IHl. reflexivity.
Qed.

(** [ObjectsAreEqual] never panics: it is [reflect.DeepEqual]. *)
Lemma ObjectsAreEqual_DeepEqual (expected actual : reflect.value) :
  ObjectsAreEqual expected actual = Ok (reflect.DeepEqual expected actual).
Proof.
  unfold ObjectsAreEqual.
  destruct expected; simpl; try reflexivity; destruct actual; reflexivity.
Qed.

Lemma DeepEqual_self (v : reflect.value) :
  reflect.DeepEqual v v = self_equal v.
Proof.
  destruct v; try reflexivity;
    unfold reflect.DeepEqual; rewrite Type_eqb_refl, deepValueEqual_self;
    reflexivity.
Qed.

(* ================================================================== *)
(** ** Reporting a failure *)

Lemma Split_nonempty (s : string) (sep : ascii) :
  (1 <= List.length (strings.Split s sep))%nat.
Proof.
  induction s as [ | c s IH ]; simpl.
  - lia.
  - destruct (Ascii.eqb c sep); simpl; [ lia | ].
    destruct (strings.Split s sep); simpl; lia.
Qed.

Lemma from_end_ok (parts : list string) (k : Z) :
  1 <= k <= Z.of_nat (List.length parts) ->
  exists x, from_end parts k = Ok x.
Proof.
  intros Hk. unfold from_end, index_or_panic.
  destruct (Z.ltb_spec (Z.of_nat (List.length parts) - k) 0) as [Hlt | Hge];
    [ lia | ].
  destruct (nth_error parts (Z.to_nat (Z.of_nat (List.length parts) - k)))
    as [x | ] eqn:E.
  - exists x; reflexivity.
  - apply nth_error_None in E. lia.
Qed.

Lemma from_end_last_ok (s : string) (sep : ascii) :
  exists x, from_end (strings.Split s sep) 1 = Ok x.
Proof.
  apply from_end_ok. pose proof (Split_nonempty s sep). lia.
Qed.

Lemma from_end_dir_ok (file : string) :
  has_dir file = true ->
  exists x, from_end (strings.Split file "/"%char) 2 = Ok x.
Proof.
  unfold has_dir. intros H. apply Z.leb_le in H.
  apply from_end_ok. lia.
Qed.

Lemma CallerInfo_loop_ok (frames : list runtime.Frame) :
  frames_ok frames = true ->
  forall callers, exists l, CallerInfo_loop frames callers = Ok l.
Proof.
  induction frames as [ | fr rest IH ]; intros Hok callers; simpl.
  - eexists; reflexivity.
  - simpl in Hok. apply andb_true_iff in Hok. destruct Hok as [Hfr Hrest].
    destruct (String.eqb (runtime.file fr) "<autogenerated>");
      [ eexists; reflexivity | ].
    destruct (from_end_dir_ok _ Hfr) as [dir Hdir]. rewrite Hdir. simpl.
    destruct (from_end_last_ok (runtime.file fr) "/"%char) as [file Hfile].
    rewrite Hfile. simpl.
    destruct (runtime.func fr) as [name | ]; [ | eexists; reflexivity ].
    destruct (from_end_last_ok name "."%char) as [nm Hnm].
    rewrite Hnm. simpl.
    destruct (isTest nm "Test" || isTest nm "Benchmark" || isTest nm "Example");
      [ eexists; reflexivity | ].
    apply IH. exact Hrest.
Qed.

Lemma Fail_location_ok (frames : list runtime.Frame) :
  frames_ok frames = true ->
  exists s, Fail_location frames = Ok s.
Proof.
  induction frames as [ | fr rest IH ]; intros Hok; simpl.
  - eexists; reflexivity.
  - simpl in Hok. apply andb_true_iff in Hok. destruct Hok as [Hfr Hrest].
    destruct (from_end_dir_ok _ Hfr) as [dir Hdir]. rewrite Hdir. simpl.
    match goal with |- context [if ?c then _ else _] => destruct c end;
      [ eexists; reflexivity | apply IH; exact Hrest ].
Qed.

Lemma messageFromMsgAndArgs_ok (msgAndArgs : list reflect.value) :
  msgAndArgs_ok msgAndArgs = true ->
  exists m, messageFromMsgAndArgs msgAndArgs = Ok m.
Proof.
  destruct msgAndArgs as [ | m rest ]; simpl; intros H.
  - eexists; reflexivity.
  - destruct m; try discriminate H. destruct nm; try discriminate H.
    destruct rest; eexists; reflexivity.
Qed.

(** Whatever its arguments, [Fail] either writes exactly one report and
    returns false, or panics before writing anything. *)
Lemma Fail_cases (failureMessage : string) (msgAndArgs : list reflect.value)
  (t : TestingT) :
  (exists call, Fail failureMessage msgAndArgs t = (Ok false, (t ++ [call])%list))
  \/ (exists msg, Fail failureMessage msgAndArgs t = (Panic msg, t)).
Proof.
  unfold Fail, bind, lift.
  match goal with
  | |- context [if ?c then Fail_location _ else _] =>
      destruct (if c then Fail_location (stack env) else Ok EmptyString)
  end; [ | right; eexists; reflexivity ].
  destruct (messageFromMsgAndArgs msgAndArgs); [ | right; eexists; reflexivity ].
  destruct (CallerInfo (callerInfoFrame env :: stack env));
    [ | right; eexists; reflexivity ].
  left.
  match goal with |- context [if ?c then _ else _] => destruct c end;
    unfold Errorf, ret; eexists; reflexivity.
Qed.

Lemma Fail_never_true (failureMessage : string) (msgAndArgs : list reflect.value)
  (t : TestingT) :
  fst (Fail failureMessage msgAndArgs t) <> Ok true.
Proof.
  destruct (Fail_cases failureMessage msgAndArgs t) as [[call H] | [msg H]];
    rewrite H; simpl; discriminate.
Qed.

(** With a string (or nothing) as first message argument and file names
    that have a directory part, [Fail] does not panic. *)
Lemma Fail_ok (failureMessage : string) (msgAndArgs : list reflect.value)
  (t : TestingT) :
  msgAndArgs_ok msgAndArgs = true ->
  env_ok = true ->
  exists call, Fail failureMessage msgAndArgs t = (Ok false, (t ++ [call])%list).
Proof.
  intros Hargs Henv.
  destruct (Fail_cases failureMessage msgAndArgs t) as [H | [msg H]];
    [ exact H | exfalso ].
  revert H. unfold Fail, bind, lift.
  unfold env_ok in Henv.
  assert (Hstack : frames_ok (stack env) = true).
  { simpl in Henv. apply andb_true_iff in Henv. apply Henv. }
  destruct (Fail_location_ok _ Hstack) as [loc Hloc].
  destruct (messageFromMsgAndArgs_ok _ Hargs) as [m Hm].
  destruct (CallerInfo_loop_ok _ Henv []) as [l Hl].
  unfold CallerInfo. rewrite Hm, Hl.
  match goal with
  | |- context [if ?c then Fail_location _ else _] => destruct c
  end; rewrite ?Hloc;
    match goal with |- context [if ?c then _ else _] => destruct c end;
    unfold Errorf, ret; discriminate.
Qed.


(* ================================================================== *)
(** ** Equality after conversion *)

(** A conversion that [ConvertibleTo] allows panics in one case only: a
    slice with fewer elements than the array, or the array pointed to, it
    is converted to. *)
Lemma Convert_ok (v : reflect.value) (src t : reflect.rtype) (fresh : nat) :
  reflect.TypeOf v = Some src ->
  reflect.ConvertibleTo src t = true ->
  too_short v t = false ->
  exists c, reflect.Convert v t fresh = Ok c.
Proof.
  intros Hty Hconv Hs. unfold reflect.Convert. rewrite Hty, Hconv. simpl.
  unfold too_short in Hs.
  destruct v; try discriminate Hty;
    destruct (reflect.underlying t);
    repeat match goal with
           | |- context [match ?x with _ => _ end] => destruct x
           end;
    try discriminate Hs; eexists; reflexivity.
Qed.

Lemma Convert_too_short (v : reflect.value) (src t : reflect.rtype) (fresh : nat) :
  reflect.TypeOf v = Some src ->
  reflect.ConvertibleTo src t = true ->
  too_short v t = true ->
  exists msg, reflect.Convert v t fresh = Panic msg.
Proof.
  intros Hty Hconv Hs. unfold reflect.Convert. rewrite Hty, Hconv. simpl.
  unfold too_short in Hs.
  destruct v; try discriminate Hs;
    destruct (reflect.underlying t); try discriminate Hs;
    repeat match goal with
           | |- context [match ?x with _ => _ end] => destruct x
           end;
    try discriminate Hs; eexists; reflexivity.
Qed.

Lemma TypeOf_IsValid (v : reflect.value) (t : reflect.rtype) :
  reflect.TypeOf v = Some t -> reflect.IsValid v = true.
Proof. destruct v; simpl; intros H; try reflexivity; discriminate H. Qed.

(** A dynamic type is a type literal or a defined type over one. *)
Lemma TypeOf_shape (a : reflect.value) (t : reflect.rtype) :
  reflect.TypeOf a = Some t ->
  t = reflect.named (reflect.name_of t) (reflect.underlying t).
Proof.
  destruct a; simpl; intros H; try discriminate H; injection H as <-;
    destruct nm; reflexivity.
Qed.

(** [ObjectsAreEqualValues] succeeds exactly when the operands are equal or
    the expected value, converted to the type of the actual one, is equal
    to it. *)
Lemma ObjectsAreEqualValues_spec (expected actual : reflect.value) :
  ObjectsAreEqualValues expected actual = Ok true <->
  (ObjectsAreEqual expected actual = Ok true
   \/ exists ety aty c,
        reflect.TypeOf expected = Some ety /\
        reflect.TypeOf actual = Some aty /\
        reflect.ConvertibleTo ety aty = true /\
        reflect.Convert expected aty (reflect.fresh_addr [expected; actual])
        = Ok c /\
        ObjectsAreEqual (reflect.Value_Interface c) actual = Ok true).
Proof.
  unfold ObjectsAreEqualValues. rewrite !ObjectsAreEqual_DeepEqual. simpl.
  destruct (reflect.DeepEqual expected actual) eqn:Heq.
  - split; [ left; reflexivity | reflexivity ].
  - split.
    + intros H. right.
      destruct (reflect.TypeOf actual) as [aty | ]; [ | discriminate H ].
      destruct (reflect.TypeOf expected) as [ety | ] eqn:Ety; [ | discriminate H ].
      destruct (reflect.IsValid expected && reflect.ConvertibleTo ety aty) eqn:C;
        [ | discriminate H ].
      apply andb_true_iff in C. destruct C as [_ C].
      destruct (reflect.Convert expected aty
                  (reflect.fresh_addr [expected; actual])) as [c | msg] eqn:Hc;
        [ | discriminate H ].
      simpl in H. exists ety, aty, c.
      rewrite ObjectsAreEqual_DeepEqual. repeat split; auto.
    + intros [H | (ety & aty & c & Ety & Aty & C & Hc & H)]; [ discriminate H | ].
      rewrite Aty, Ety, (TypeOf_IsValid _ _ Ety), C, Hc. simpl.
      rewrite ObjectsAreEqual_DeepEqual in H. exact H.
Qed.

Lemma underlying_named_lit (nm : reflect.tyname) (u : reflect.rtype) :
  reflect.underlying (reflect.named nm u) = reflect.underlying u.
Proof. destruct nm; reflexivity. Qed.

Lemma TypeOf_set_name (v : reflect.value) (src : reflect.rtype)
  (nm : reflect.tyname) :
  reflect.TypeOf v = Some src ->
  reflect.TypeOf (reflect.set_name nm v)
  = Some (reflect.named nm (reflect.underlying src)).
Proof.
  destruct v; simpl; intros H; try discriminate H; injection H as <-;
    destruct nm0; reflexivity.
Qed.

(** [ObjectsAreEqualValues] panics in one case only: the operands are not
    strictly equal and the expected value is a slice that the type of the
    actual value, an array type or a pointer to one with the same element
    type, asks more elements of than it has. *)
Lemma ObjectsAreEqualValues_panics (expected actual : reflect.value) :
  (exists msg, ObjectsAreEqualValues expected actual = Panic msg)
  <-> (ObjectsAreEqual expected actual = Ok false
       /\ exists ety aty,
            reflect.TypeOf expected = Some ety /\
            reflect.TypeOf actual = Some aty /\
            reflect.ConvertibleTo ety aty = true /\
            too_short expected aty = true).
Proof.
  unfold ObjectsAreEqualValues. rewrite !ObjectsAreEqual_DeepEqual. simpl.
  destruct (reflect.DeepEqual expected actual).
  { split; [ intros [msg H]; discriminate H | intros [H _]; discriminate H ]. }
  destruct (reflect.TypeOf actual) as [aty | ] eqn:Aty.
  2: { split; [ intros [msg H]; discriminate H | ].
       intros (_ & ety & aty & _ & H & _). discriminate H. }
  destruct (reflect.TypeOf expected) as [ety | ] eqn:Ety.
  2: { split; [ intros [msg H]; discriminate H | ].
       intros (_ & ety & aty' & H & _). discriminate H. }
  rewrite (TypeOf_IsValid _ _ Ety). simpl.
  destruct (reflect.ConvertibleTo ety aty) eqn:C.
  2: { split; [ intros [msg H]; discriminate H | ].
       intros (_ & ety' & aty' & E1 & E2 & C' & _).
       injection E1 as <-. injection E2 as <-. rewrite C in C'. discriminate C'. }
  destruct (too_short expected aty) eqn:S.
  - destruct (Convert_too_short expected ety aty
                (reflect.fresh_addr [expected; actual]) Ety C S) as [msg Hm].
    rewrite Hm. simpl. split.
    + intros _. split; [ reflexivity | ]. exists ety, aty. auto.
    + intros _. exists msg. reflexivity.
  - destruct (Convert_ok expected ety aty
                (reflect.fresh_addr [expected; actual]) Ety C S) as [c Hc].
    rewrite Hc. simpl. split; [ intros [msg H]; discriminate H | ].
    intros (_ & ety' & aty' & E1 & E2 & _ & S').
    injection E2 as <-. rewrite S in S'. discriminate S'.
Qed.

(** The result of a conversion has the type converted to. *)
Lemma Convert_TypeOf (v a : reflect.value) (t : reflect.rtype) (fresh : nat)
  (c : reflect.value) :
  reflect.TypeOf a = Some t ->
  reflect.Convert v t fresh = Ok c ->
  reflect.TypeOf c = Some t.
Proof.
  intros Ha Hc. pose proof (TypeOf_shape a t Ha) as Ht.
  assert (Hlit : forall n u, reflect.underlying t <> reflect.TNamed n u).
  { clear Hc Ht. destruct a; simpl in Ha; try discriminate Ha; injection Ha as <-;
      destruct nm; discriminate. }
  rewrite Ht. clear Ha.
  unfold reflect.Convert in Hc.
  destruct (reflect.TypeOf v) as [src | ] eqn:Hv; [ | discriminate Hc ].
  destruct (reflect.ConvertibleTo src t) eqn:Hconv; [ | discriminate Hc ].
  cbv iota beta in Hc. simpl negb in Hc. cbv iota in Hc.
  unfold reflect.ConvertibleTo in Hconv.
  assert (Hptr : forall X,
             reflect.underlying t = X ->
             (forall b, X <> reflect.TPtr b) ->
             forall s0,
               match s0, t with
               | reflect.TPtr a0, reflect.TPtr b =>
                   reflect.rtype_eqb (reflect.underlying a0) (reflect.underlying b)
               | _, _ => false
               end = false).
  { intros X HX Hn s0. destruct s0; try reflexivity.
    destruct t; try reflexivity. exfalso. eapply Hn. symmetry. exact HX. }
  remember (reflect.name_of t) as nm eqn:Enm. clear Enm Ht.
  destruct (reflect.underlying t) as [ | | | | | | | | | | | | | | ] eqn:U.
  15: { exfalso. eapply Hlit. reflexivity. }
  all: clear Hlit.
  all: try (rewrite (Hptr _ eq_refl) in Hconv by discriminate).
  all: clear Hptr.
  all: destruct v; simpl in Hv; try discriminate Hv; injection Hv as <-;
       rewrite underlying_named_lit in Hconv; simpl reflect.underlying in Hconv.
  all: try (injection Hc as <-; reflexivity).
  all: cbn -[reflect.rtype_eqb] in Hconv.
  all: rewrite ?orb_false_r in Hconv.
  all: try discriminate Hconv.
  all: try (apply rtype_eqb_eq in Hconv; try discriminate Hconv).
  all: try (injection Hconv as; subst; injection Hc as <-; reflexivity).
  all: try (destruct k; injection Hc as <-; reflexivity).
  all: try (destruct nm0; cbn -[reflect.rtype_eqb] in Hconv;
            rewrite ?orb_false_r in Hconv; try discriminate Hconv;
            apply rtype_eqb_eq in Hconv; discriminate Hconv).
  all: try match type of Hc with
       | context [match ?e with _ => _ end] =>
           is_var e;
           match type of e with
           | reflect.rtype =>
               destruct e as [ | ke | | | | | | | | | | | | | ];
               try destruct ke; cbv iota in Hc
           end
       end.
  all: try (injection Hc as <-; reflexivity).
  all: cbn -[reflect.rtype_eqb] in Hconv; rewrite ?orb_false_r in Hconv.
  all: try discriminate Hconv.
  all: try (destruct nm0; cbn -[reflect.rtype_eqb] in Hconv;
            rewrite ?orb_false_r in Hconv; try discriminate Hconv;
            apply rtype_eqb_eq in Hconv; try discriminate Hconv;
            injection Hconv as; subst; injection Hc as <-; reflexivity).
  all: try (injection Hconv as; subst; injection Hc as <-; reflexivity).
  all: try (destruct (reflect.underlying r) eqn:?;
            try (destruct nm0; discriminate Hconv)).
  all: try match type of Hc with
       | context [if ?b then _ else _] =>
           destruct b eqn:Hlen; [ discriminate Hc | ];
           apply Nat.ltb_ge in Hlen;
           injection Hc as <-; simpl; rewrite ?firstn_length_le by exact Hlen;
           reflexivity
       end.
Qed.

Lemma fresh_addr_differs (e a : reflect.value) (nm : reflect.tyname)
  (el : reflect.rtype) (d : nat) (es : list reflect.value) :
  a = reflect.VSlice nm el (Some d) es ->
  Nat.eqb (reflect.fresh_addr [e; a]) d = false.
Proof.
  intros ->. apply Nat.eqb_neq. unfold reflect.fresh_addr.
  cbn [List.map List.fold_right reflect.max_addr]. lia.
Qed.

(** C1.  [ObjectsAreEqualValues(int32(5), int64(5))] is true while
    [Exactly(int32(5), int64(5))] takes its failure branch and never
    returns true (it returns false whenever the report can be written);
    in general [ObjectsAreEqualValues] succeeds exactly when the operands
    are strictly equal or the expected value converted to the type of the
    actual value, a value of that very type, is strictly equal to it.  The
    conversion goes from expected to actual only: [int64(300)] against
    [uint8(44)] is true, while with the operands exchanged it is false
    although converting the actual operand would give 44.  Conversion
    covers pointers (a [*MyInt] against a [*int] pointing to equal numbers
    is true) and strings against byte slices, whose converted bytes live
    in storage of their own. *)
Theorem C1_value_equality_converts_expected_to_actual :
  ObjectsAreEqualValues sample.int32_5 sample.int64_5 = Ok true
  /\ (forall msgAndArgs t,
         Exactly sample.int32_5 sample.int64_5 msgAndArgs t
         = Fail (Sprintf ("Types expected to match exactly" ++ LF ++ CR ++ TAB
                          ++ "%v != %v")
                   [go_string "int32"; go_string "int64"]) msgAndArgs t
         /\ fst (Exactly sample.int32_5 sample.int64_5 msgAndArgs t) <> Ok true
         /\ (msgAndArgs_ok msgAndArgs = true -> env_ok = true ->
             fst (Exactly sample.int32_5 sample.int64_5 msgAndArgs t) = Ok false))
  /\ (forall expected actual,
         ObjectsAreEqualValues expected actual = Ok true <->
         (ObjectsAreEqual expected actual = Ok true
          \/ exists ety aty c,
               reflect.TypeOf expected = Some ety /\
               reflect.TypeOf actual = Some aty /\
               reflect.ConvertibleTo ety aty = true /\
               reflect.Convert expected aty (reflect.fresh_addr [expected; actual])
               = Ok c /\
               reflect.TypeOf c = Some aty /\
               ObjectsAreEqual (reflect.Value_Interface c) actual = Ok true))
  /\ ObjectsAreEqualValues sample.int64_300 sample.uint8_44 = Ok true
  /\ ObjectsAreEqualValues sample.uint8_44 sample.int64_300 = Ok false
  /\ (forall fresh,
         reflect.Convert sample.int64_300 (reflect.TInt reflect.KUint8) fresh
         = Ok sample.uint8_44)
  /\ ObjectsAreEqualValues sample.ptr_to_MyInt_5 sample.ptr_to_int_5 = Ok true
  /\ ObjectsAreEqual sample.ptr_to_MyInt_5 sample.ptr_to_int_5 = Ok false
  /\ (forall d,
         ObjectsAreEqualValues (go_string "a") (sample.bytes_at d [97]) = Ok true
         /\ ObjectsAreEqualValues (go_string "a") (sample.bytes_at d [98])
            = Ok false).
Proof.
  split; [ reflexivity | ].
  split.
  { intros msgAndArgs t.
    assert (E : Exactly sample.int32_5 sample.int64_5 msgAndArgs t
                = Fail (Sprintf ("Types expected to match exactly" ++ LF ++ CR
                                 ++ TAB ++ "%v != %v")
                          [go_string "int32"; go_string "int64"]) msgAndArgs t)
      by reflexivity.
    split; [ exact E | ]. rewrite E. split.
    - apply Fail_never_true.
    - intros Hargs Henv.
      destruct (Fail_ok (Sprintf ("Types expected to match exactly" ++ LF ++ CR
                                  ++ TAB ++ "%v != %v")
                           [go_string "int32"; go_string "int64"])
                  msgAndArgs t Hargs Henv) as [call Hcall].
      rewrite Hcall. reflexivity. }
  split.
  { intros expected actual. rewrite ObjectsAreEqualValues_spec.
    split; (intros [H | (ety & aty & c & H)]; [ left; exact H | right ]).
    - destruct H as (Ety & Aty & C & Hc & H).
      exists ety, aty, c. repeat split; try assumption.
      exact (Convert_TypeOf _ _ _ _ _ Aty Hc).
    - destruct H as (Ety & Aty & C & Hc & _ & H).
      exists ety, aty, c. repeat split; assumption. }
  split; [ reflexivity | ].
  split; [ reflexivity | ].
  split; [ reflexivity | ].
  split; [ reflexivity | ].
  split; [ reflexivity | ].
  intros d.
  assert (F : forall b,
             Nat.eqb (reflect.fresh_addr [go_string "a"; sample.bytes_at d [b]]) d
             = false).
  { intros b. apply (fresh_addr_differs _ _ None (reflect.TInt reflect.KUint8) d
                       [reflect.VInt None reflect.KUint8 b]). reflexivity. }
  split; unfold ObjectsAreEqualValues; cbn -[reflect.fresh_addr];
    rewrite F; reflexivity.
Qed.

(* ================================================================== *)
(** ** Strict equality of a value with itself *)

(** C3 (amended).  [ObjectsAreEqual(v, v)] never panics, and it is true
    exactly when [v] holds neither a NaN nor a non-nil function value
    directly, in an array element, in a struct field or in an interface;
    what lies behind a pointer, a slice or a map does not matter. *)
Theorem C3_strict_equality_with_itself :
  forall v : reflect.value, ObjectsAreEqual v v = Ok (self_equal v).
Proof.
  intros v. rewrite ObjectsAreEqual_DeepEqual, DeepEqual_self. reflexivity.
Qed.

(* ================================================================== *)
(** ** Nil *)

Lemma Value_Kind_named (nm : reflect.tyname) (t : reflect.rtype) :
  reflect.kindOf (reflect.named nm t) = reflect.kindOf t.
Proof. destruct nm; reflexivity. Qed.

Lemma isNil_total (object : reflect.value) : exists b, isNil object = Ok b.
Proof.
  unfold isNil, reflect.Value_Kind.
  destruct object; simpl; rewrite ?Value_Kind_named; simpl;
    try (eexists; reflexivity);
    match goal with
    | k : reflect.IntKind |- _ => destruct k
    | k : reflect.FloatKind |- _ => destruct k
    | k : reflect.ComplexKind |- _ => destruct k
    end; eexists; reflexivity.
Qed.

Lemma isNil_spec (object : reflect.value) :
  isNil object = Ok true <->
  (object = reflect.VNil
   \/ (nillable (reflect.Value_Kind object) = true
       /\ reflect.IsNil object = Ok true)).
Proof.
  unfold isNil, reflect.Value_Kind.
  destruct object; simpl; rewrite ?Value_Kind_named; simpl;
    try match goal with
      | k : reflect.IntKind |- _ => destruct k
      | k : reflect.FloatKind |- _ => destruct k
      | k : reflect.ComplexKind |- _ => destruct k
      end; simpl;
    (split;
     [ intros H; first [ left; reflexivity | discriminate H
                       | right; split; [ reflexivity | exact H ] ]
     | intros [H | [H1 H2]];
       first [ reflexivity | discriminate H | discriminate H1
             | discriminate H2 | exact H2 ] ]).
Qed.

Lemma isNil_scalar (object : reflect.value) :
  is_scalar object = true -> isNil object = Ok false.
Proof.
  unfold isNil, reflect.Value_Kind.
  destruct object; simpl; intros H; try discriminate H;
    rewrite ?Value_Kind_named; simpl;
    try match goal with
      | k : reflect.IntKind |- _ => destruct k
      | k : reflect.FloatKind |- _ => destruct k
      | k : reflect.ComplexKind |- _ => destruct k
      end; reflexivity.
Qed.

(** C9.  [isNil] never panics and answers true only for the nil interface
    and for a nil value of kind chan, func, interface, map, pointer or
    slice.  Hence on every scalar (boolean, number, string), zero or not,
    [NotNil] returns true without reporting and [Nil] takes its failure
    branch: it never returns true, and returns false with one report
    whenever the report can be written.  The zero scalars [0], the empty
    string and [false] are such values although [isEmpty] holds of
    them. *)
Theorem C9_isNil_only_nil_interface_or_nil_reference :
  (forall object, exists b, isNil object = Ok b)
  /\ (forall object,
         isNil object = Ok true <->
         (object = reflect.VNil
          \/ (nillable (reflect.Value_Kind object) = true
              /\ reflect.IsNil object = Ok true)))
  /\ (forall object msgAndArgs t,
         is_scalar object = true ->
         NotNil object msgAndArgs t = (Ok true, t)
         /\ Nil object msgAndArgs t
            = Fail (Sprintf "Expected nil, but got: %#v" [object]) msgAndArgs t
         /\ fst (Nil object msgAndArgs t) <> Ok true
         /\ (msgAndArgs_ok msgAndArgs = true -> env_ok = true ->
             exists call,
               Nil object msgAndArgs t = (Ok false, (t ++ [call])%list)))
  /\ (is_scalar (go_int 0) = true /\ isEmpty (go_int 0) = Ok true)
  /\ (is_scalar (go_string EmptyString) = true
      /\ isEmpty (go_string EmptyString) = Ok true)
  /\ (is_scalar (go_bool false) = true /\ isEmpty (go_bool false) = Ok true).
Proof.
  split; [ exact isNil_total | ].
  split; [ exact isNil_spec | ].
  split.
  { intros object msgAndArgs t Hs.
    assert (EN : NotNil object msgAndArgs t = (Ok true, t)).
    { unfold NotNil, bind, lift. rewrite (isNil_scalar _ Hs). reflexivity. }
    assert (E : Nil object msgAndArgs t
                = Fail (Sprintf "Expected nil, but got: %#v" [object])
                    msgAndArgs t).
    { unfold Nil, bind, lift. rewrite (isNil_scalar _ Hs). reflexivity. }
    split; [ exact EN | ]. split; [ exact E | ]. rewrite E. split.
    - apply Fail_never_true.
    - intros Hargs Henv. apply Fail_ok; assumption. }
  repeat split; reflexivity.
Qed.

(* ================================================================== *)
(** ** Emptiness *)

(** [isEmpty] never panics: the interface comparisons it makes have a
    boolean, a number or a string on one side. *)
Lemma isEmpty_total (object : reflect.value) : exists b, isEmpty object = Ok b.
Proof.
  unfold isEmpty.
  destruct object; try (eexists; reflexivity);
    try match goal with nm : reflect.tyname |- _ => destruct nm end;
    try match goal with
      | k : reflect.IntKind |- _ => destruct k
      | k : reflect.FloatKind |- _ => destruct k
      | k : reflect.ComplexKind |- _ => destruct k
      | tg : option (nat * reflect.value) |- _ => destruct tg as [[? ?] | ]
      end;
    cbn;
    repeat match goal with
      | |- context [if ?c then _ else _] => destruct c; cbn
      | |- context [match ?c with _ => _ end] => destruct c; cbn
      end;
    eexists; reflexivity.
Qed.

Lemma isEmpty_int_zero (k : reflect.IntKind) :
  reflect.IntKind_eqb k reflect.KUintptr = false ->
  isEmpty (reflect.VInt None k 0) = Ok true.
Proof. destruct k; intros H; try discriminate H; reflexivity. Qed.

Lemma isEmpty_float_zero (k : reflect.FloatKind) (s : bool) :
  isEmpty (reflect.VFloat None k (S754_zero s)) = Ok true.
Proof. destruct k, s; reflexivity. Qed.

Lemma isEmpty_slice (nm : reflect.tyname) (e : reflect.rtype) (d : option nat)
  (es : list reflect.value) :
  isEmpty (reflect.VSlice nm e d es) = Ok (Z.of_nat (List.length es) =? 0).
Proof. destruct nm; reflexivity. Qed.

Lemma isEmpty_map (nm : reflect.tyname) (k e : reflect.rtype) (h : option nat)
  (en : list (reflect.value * reflect.value)) :
  isEmpty (reflect.VMap nm k e h en) = Ok (Z.of_nat (List.length en) =? 0).
Proof. destruct nm; reflexivity. Qed.

Lemma isEmpty_chan (nm : reflect.tyname) (e : reflect.rtype) (c : option nat)
  (q : list reflect.value) :
  isEmpty (reflect.VChan nm e c q) = Ok (Z.of_nat (List.length q) =? 0).
Proof. destruct nm; reflexivity. Qed.

Lemma isEmpty_nil_pointer (nm : reflect.tyname) (e : reflect.rtype) :
  isEmpty (reflect.VPtr nm e None) = Ok true.
Proof. destruct nm; reflexivity. Qed.

(** A non-nil pointer is empty exactly when its type is [*time.Time] and
    the time it points to is the zero time. *)
Lemma isEmpty_pointer (nm : reflect.tyname) (e : reflect.rtype) (a : nat)
  (x : reflect.value) :
  isEmpty (reflect.VPtr nm e (Some (a, x)))
  = Ok (reflect.Type_eqb (reflect.TypeOf (reflect.VPtr nm e (Some (a, x))))
          (Some (reflect.TPtr time_Time))
        && time_IsZero x).
Proof.
  destruct nm; cbn.
  - reflexivity.
  - destruct (reflect.rtype_eqb e time_Time); reflexivity.
Qed.

(** C6 (amended).  [isEmpty] is true for nil, the empty string, the
    boolean false, the zero of every predeclared integer type other than
    uintptr (int, int8 to int64, uint, uint8 to uint64), the zero of
    float32 and float64 of either sign, a slice, map or channel of length
    zero of any type, and a nil pointer of any type; it is false for the
    string [a]. *)
Theorem C6_isEmpty_of_zero_values :
  isEmpty reflect.VNil = Ok true
  /\ isEmpty (go_string EmptyString) = Ok true
  /\ isEmpty (go_bool false) = Ok true
  /\ (forall k, reflect.IntKind_eqb k reflect.KUintptr = false ->
                isEmpty (reflect.VInt None k 0) = Ok true)
  /\ (forall k s, isEmpty (reflect.VFloat None k (S754_zero s)) = Ok true)
  /\ (forall nm e d, isEmpty (reflect.VSlice nm e d []) = Ok true)
  /\ (forall nm k e h, isEmpty (reflect.VMap nm k e h []) = Ok true)
  /\ (forall nm e c, isEmpty (reflect.VChan nm e c []) = Ok true)
  /\ (forall nm e, isEmpty (reflect.VPtr nm e None) = Ok true)
  /\ isEmpty (go_string "a") = Ok false.
Proof.
  split; [ reflexivity | ].
  split; [ reflexivity | ].
  split; [ reflexivity | ].
  split; [ exact isEmpty_int_zero | ].
  split; [ exact isEmpty_float_zero | ].
  split; [ intros; rewrite isEmpty_slice; reflexivity | ].
  split; [ intros; rewrite isEmpty_map; reflexivity | ].
  split; [ intros; rewrite isEmpty_chan; reflexivity | ].
  split; [ exact isEmpty_nil_pointer | reflexivity ].
Qed.

(** C10.  A non-nil [*time.Time] is empty exactly when the time it points
    to is the zero time; a non-nil pointer of any other type is never
    empty, and, [time.Time] being a struct type, that holds in particular
    of a pointer to an empty string, to a zero number and to an empty
    slice, although each of these pointees is empty itself. *)
Theorem C10_isEmpty_looks_through_time_pointers_only :
  reflect.kindOf time_Time = reflect.Struct ->
  (forall a x,
      isEmpty (reflect.VPtr None time_Time (Some (a, x))) = Ok (time_IsZero x))
  /\ (forall nm e a x,
         reflect.TypeOf (reflect.VPtr nm e (Some (a, x)))
         <> Some (reflect.TPtr time_Time) ->
         isEmpty (reflect.VPtr nm e (Some (a, x))) = Ok false)
  /\ (forall a,
         isEmpty (go_string EmptyString) = Ok true
         /\ isEmpty (reflect.VPtr None reflect.TString
                       (Some (a, go_string EmptyString))) = Ok false)
  /\ (forall a,
         isEmpty (go_int 0) = Ok true
         /\ isEmpty (reflect.VPtr None (reflect.TInt reflect.KInt)
                       (Some (a, go_int 0))) = Ok false)
  /\ (forall a d,
         isEmpty (reflect.VSlice None (reflect.TInt reflect.KInt) d []) = Ok true
         /\ isEmpty (reflect.VPtr None (reflect.TSlice (reflect.TInt reflect.KInt))
                       (Some (a, reflect.VSlice None (reflect.TInt reflect.KInt)
                                   d []))) = Ok false).
Proof.
  intros Hstruct.
  assert (Hother : forall nm e a x,
             reflect.TypeOf (reflect.VPtr nm e (Some (a, x)))
             <> Some (reflect.TPtr time_Time) ->
             isEmpty (reflect.VPtr nm e (Some (a, x))) = Ok false).
  { intros nm e a x Hne. rewrite isEmpty_pointer.
    destruct (reflect.Type_eqb _ _) eqn:E; [ | reflexivity ].
    apply Type_eqb_eq in E. contradiction. }
  split.
  { intros a x. rewrite isEmpty_pointer. simpl.
    rewrite rtype_eqb_refl. reflexivity. }
  split; [ exact Hother | ].
  split; [ | split ]; intros; (split; [ reflexivity | ]); apply Hother; simpl;
    intros E; injection E as E; rewrite <- E in Hstruct; discriminate Hstruct.
Qed.

(* ================================================================== *)
(** ** Numeric closeness *)

Lemma compare_cont_swap (m1 m2 : positive) :
  Pos.compare_cont Eq m2 m1 = CompOpp (Pos.compare_cont Eq m1 m2).
Proof. rewrite Pos.compare_cont_antisym. reflexivity. Qed.

(** For a difference and a tolerance that are numbers, the test of
    [InDelta] is the comparison of the absolute difference with the
    tolerance. *)
Lemma within_delta_abs (dt delta : spec_float) :
  float64.IsNaN dt = false ->
  float64.IsNaN delta = false ->
  float64.ltb dt (float64.neg delta) || float64.ltb delta dt
  = negb (float64.leb (float64.abs dt) delta).
Proof.
  unfold float64.ltb, float64.leb, float64.neg, float64.abs, SFltb, SFleb.
  destruct dt as [ s1 | s1 | | s1 m1 e1 ], delta as [ s2 | s2 | | s2 m2 e2 ];
    simpl; intros H1 H2; try discriminate H1; try discriminate H2;
    destruct s1, s2; simpl; try reflexivity;
    rewrite ?(Z.compare_antisym e1 e2), ?(compare_cont_swap m1 m2);
    destruct (e1 ?= e2); simpl; try reflexivity;
    destruct (Pos.compare_cont Eq m1 m2); reflexivity.
Qed.

Lemma InDelta_not_numerical (expected actual : reflect.value) (delta : spec_float)
  (msgAndArgs : list reflect.value) (t : TestingT) :
  snd (toFloat expected) = false \/ snd (toFloat actual) = false ->
  InDelta expected actual delta msgAndArgs t
  = Fail (Sprintf "Parameters must be numerical" []) msgAndArgs t.
Proof.
  unfold InDelta.
  destruct (toFloat expected) as [af aok], (toFloat actual) as [bf bok]; simpl.
  intros [-> | ->]; [ reflexivity | ]. rewrite orb_true_r. reflexivity.
Qed.

Lemma InDelta_NaN (expected actual : reflect.value) (delta : spec_float)
  (msgAndArgs : list reflect.value) (t : TestingT) :
  snd (toFloat expected) = true -> snd (toFloat actual) = true ->
  float64.IsNaN (fst (toFloat expected)) = true
  \/ float64.IsNaN (fst (toFloat actual)) = true ->
  InDelta expected actual delta msgAndArgs t
  = Fail (Sprintf "Actual must not be NaN" []) msgAndArgs t
  \/ InDelta expected actual delta msgAndArgs t
     = Fail (Sprintf "Expected %v with delta %v, but was NaN"
               [expected; go_float64 delta]) msgAndArgs t.
Proof.
  unfold InDelta.
  destruct (toFloat expected) as [af aok], (toFloat actual) as [bf bok]; simpl.
  intros -> ->. simpl.
  destruct (float64.IsNaN af); [ left; reflexivity | ].
  intros [H | ->]; [ discriminate H | right; reflexivity ].
Qed.

Lemma InDelta_numbers (expected actual : reflect.value) (delta : spec_float)
  (msgAndArgs : list reflect.value) (t : TestingT) :
  snd (toFloat expected) = true -> snd (toFloat actual) = true ->
  float64.IsNaN (fst (toFloat expected)) = false ->
  float64.IsNaN (fst (toFloat actual)) = false ->
  let dt := float64.sub (fst (toFloat expected)) (fst (toFloat actual)) in
  InDelta expected actual delta msgAndArgs t
  = if float64.ltb dt (float64.neg delta) || float64.ltb delta dt
    then Fail (Sprintf "Max difference between %v and %v allowed is %v, but difference was %v"
                 [expected; actual; go_float64 delta; go_float64 dt])
           msgAndArgs t
    else (Ok true, t).
Proof.
  unfold InDelta.
  destruct (toFloat expected) as [af aok], (toFloat actual) as [bf bok]; simpl.
  intros -> -> -> ->. simpl.
  destruct (float64.ltb (float64.sub af bf) (float64.neg delta)
            || float64.ltb delta (float64.sub af bf)); reflexivity.
Qed.

(** C4 (amended).  [InDelta] reports that the parameters must be numerical
    when [toFloat] rejects an operand, reports a NaN when a converted
    operand is one, and otherwise succeeds, without reporting, exactly
    when the float64 difference [dt] of the converted operands satisfies
    neither [dt < -delta] nor [dt > delta]; when [dt] and [delta] are
    numbers this is [|dt| <= delta].  [InDelta(3.14159, 22.0/7.0, 0.01)]
    succeeds and [InDelta(3.0, 3.02, 0.01)] takes the failure branch. *)
Theorem C4_InDelta_within_tolerance :
  forall (expected actual : reflect.value) (delta : spec_float)
         (msgAndArgs : list reflect.value) (t : TestingT),
    (snd (toFloat expected) = false \/ snd (toFloat actual) = false ->
     InDelta expected actual delta msgAndArgs t
     = Fail (Sprintf "Parameters must be numerical" []) msgAndArgs t)
    /\ (snd (toFloat expected) = true -> snd (toFloat actual) = true ->
        float64.IsNaN (fst (toFloat expected)) = true
        \/ float64.IsNaN (fst (toFloat actual)) = true ->
        (InDelta expected actual delta msgAndArgs t
         = Fail (Sprintf "Actual must not be NaN" []) msgAndArgs t
         \/ InDelta expected actual delta msgAndArgs t
            = Fail (Sprintf "Expected %v with delta %v, but was NaN"
                      [expected; go_float64 delta]) msgAndArgs t)
        /\ fst (InDelta expected actual delta msgAndArgs t) <> Ok true)
    /\ (snd (toFloat expected) = true -> snd (toFloat actual) = true ->
        float64.IsNaN (fst (toFloat expected)) = false ->
        float64.IsNaN (fst (toFloat actual)) = false ->
        let dt := float64.sub (fst (toFloat expected)) (fst (toFloat actual)) in
        (InDelta expected actual delta msgAndArgs t = (Ok true, t) <->
         float64.ltb dt (float64.neg delta) = false
         /\ float64.ltb delta dt = false)
        /\ (fst (InDelta expected actual delta msgAndArgs t) = Ok true <->
            float64.ltb dt (float64.neg delta) = false
            /\ float64.ltb delta dt = false)
        /\ (float64.IsNaN dt = false -> float64.IsNaN delta = false ->
            (fst (InDelta expected actual delta msgAndArgs t) = Ok true <->
             float64.leb (float64.abs dt) delta = true)))
    /\ InDelta (go_float64 sample.f_3_14159) (go_float64 sample.f_22_7)
         sample.f_0_01 msgAndArgs t = (Ok true, t)
    /\ fst (InDelta (go_float64 sample.f_3_0) (go_float64 sample.f_3_02)
              sample.f_0_01 msgAndArgs t) <> Ok true.
Proof.
  intros expected actual delta msgAndArgs t.
  split; [ apply InDelta_not_numerical | ].
  split.
  { intros Ha Hb Hnan.
    pose proof (InDelta_NaN expected actual delta msgAndArgs t Ha Hb Hnan) as H.
    split; [ exact H | ].
    destruct H as [H | H]; rewrite H; apply Fail_never_true. }
  split.
  { intros Ha Hb Na Nb dt.
    pose proof (InDelta_numbers expected actual delta msgAndArgs t Ha Hb Na Nb)
      as H.
    fold dt in H. cbv zeta in H.
    assert (Hfst : fst (InDelta expected actual delta msgAndArgs t) = Ok true <->
                   float64.ltb dt (float64.neg delta) = false
                   /\ float64.ltb delta dt = false).
    { rewrite H.
      destruct (float64.ltb dt (float64.neg delta)) eqn:E1;
        destruct (float64.ltb delta dt) eqn:E2; simpl;
        (split;
         [ intros K; try (exfalso; revert K; apply Fail_never_true);
           split; reflexivity
         | intros [K1 K2]; try discriminate K1; try discriminate K2;
           reflexivity ]). }
    split; [ | split; [ exact Hfst | ] ].
    - split.
      + intros K. apply Hfst. rewrite K. reflexivity.
      + intros [K1 K2]. rewrite H, K1, K2. reflexivity.
    - intros Ndt Nd. rewrite Hfst.
      pose proof (within_delta_abs dt delta Ndt Nd) as W.
      destruct (float64.ltb dt (float64.neg delta));
        destruct (float64.ltb delta dt);
        destruct (float64.leb (float64.abs dt) delta);
        simpl in W; try discriminate W;
        (split; [ intros [K1 K2]; try discriminate K1; try discriminate K2;
                  reflexivity
                | intros K; try discriminate K; split; reflexivity ]). }
  split; [ reflexivity | ].
  change (fst (Fail (Sprintf "Max difference between %v and %v allowed is %v, but difference was %v"
                       [go_float64 sample.f_3_0; go_float64 sample.f_3_02;
                        go_float64 sample.f_0_01;
                        go_float64 (float64.sub (fst (toFloat (go_float64 sample.f_3_0)))
                                      (fst (toFloat (go_float64 sample.f_3_02))))])
                 msgAndArgs t) <> Ok true).
  apply Fail_never_true.
Qed.

(* ================================================================== *)
(** ** Containment *)

Lemma HasPrefix_spec (s p : string) :
  strings.HasPrefix s p = true <-> exists post, s = p ++ post.
Proof.
  revert s. induction p as [ | c p IH ]; intros s; simpl.
  - split; [ intros _; exists s; reflexivity | reflexivity ].
  - destruct s as [ | d s ].
    + split; [ discriminate | intros [post H]; discriminate H ].
    + rewrite andb_true_iff, IH. split.
      * intros [Hc [post ->]]. apply Ascii.eqb_eq in Hc. subst.
        exists post; reflexivity.
      * intros [post H]. injection H as -> ->. split.
        -- apply Ascii.eqb_refl.
        -- exists post; reflexivity.
Qed.



Lemma Index_sequence (lst : reflect.value) (pre es : list reflect.value)
  (x : reflect.value) :
  sequence_of lst (pre ++ x :: es)%list ->
  reflect.Index lst (Z.of_nat (List.length pre)) = Ok x.
Proof.
  assert (Hnth : nth_error (pre ++ x :: es)%list (List.length pre) = Some x).
  { rewrite nth_error_app2 by lia. rewrite Nat.sub_diag. reflexivity. }
  assert (Hlen : (Z.of_nat (List.length pre) <? 0)
                 || (Z.of_nat (List.length (pre ++ x :: es)%list)
                     <=? Z.of_nat (List.length pre)) = false).
  { rewrite length_app. simpl.
    destruct (Z.ltb_spec (Z.of_nat (List.length pre)) 0); [ lia | ].
    destruct (Z.leb_spec (Z.of_nat (List.length pre + S (List.length es)))
                (Z.of_nat (List.length pre))); [ lia | reflexivity ]. }
  intros [(nm & e & d & ->) | (nm & e & ->)]; simpl;
    rewrite Hlen, Nat2Z.id, Hnth; reflexivity.
Qed.












(* ================================================================== *)
(** ** The structural diff *)


Lemma string_app_nil_r (a : string) : a ++ EmptyString = a.
Proof. induction a as [ | x a IH ]; simpl; [ reflexivity | rewrite IH; reflexivity ]. Qed.






Lemma string_length_app (a b : string) :
  String.length (a ++ b) = (String.length a + String.length b)%nat.
Proof. induction a as [ | x a IH ]; simpl; [ reflexivity | rewrite IH; reflexivity ]. Qed.



Lemma typeAndKind_ok (v : reflect.value) :
  v <> reflect.VNil -> exists t k, typeAndKind v = Ok (t, k).
Proof.
  unfold typeAndKind.
  destruct v; intros H; try contradiction; simpl;
    destruct nm; simpl;
    try match goal with
      | k : reflect.IntKind |- _ => destruct k
      | k : reflect.FloatKind |- _ => destruct k
      | k : reflect.ComplexKind |- _ => destruct k
      end; eexists; eexists; reflexivity.
Qed.

Lemma composite_test (k : reflect.Kind) :
  negb (reflect.Kind_eqb k reflect.Struct) && negb (reflect.Kind_eqb k reflect.Map)
  && negb (reflect.Kind_eqb k reflect.Slice) && negb (reflect.Kind_eqb k reflect.Array)
  = negb (composite k).
Proof. destruct k; reflexivity. Qed.

(** [typeAndKind] computes the type with one pointer level removed, and
    its kind. *)
Lemma typeAndKind_deref (v : reflect.value) (t : reflect.rtype) :
  deref_type v = Some t -> typeAndKind v = Ok (t, reflect.kindOf t).
Proof.
  unfold typeAndKind.
  destruct v; simpl; intros H; try discriminate H; injection H as <-;
    destruct nm; simpl;
    try match goal with
      | k : reflect.IntKind |- _ => destruct k
      | k : reflect.FloatKind |- _ => destruct k
      | k : reflect.ComplexKind |- _ => destruct k
      end; reflexivity.
Qed.

Lemma deref_type_nil (v : reflect.value) :
  deref_type v = None <-> v = reflect.VNil.
Proof. destruct v; simpl; split; intros H; try discriminate H; reflexivity. Qed.

(** [diff] on two non-nil values: the text of the differ under a heading
    when the dereferenced types agree and are composite, and the empty
    string otherwise. *)
Lemma diff_unfold (expected actual : reflect.value) :
  expected <> reflect.VNil -> actual <> reflect.VNil ->
  diff expected actual
  = Ok (if reflect.Type_eqb (deref_type expected) (deref_type actual)
           && composite (deref_kind expected)
        then LF ++ LF ++ "Diff:" ++ LF
             ++ GetUnifiedDiffString
                  {| difflib.A := difflib.SplitLines (Sdump expected);
                     difflib.B := difflib.SplitLines (Sdump actual);
                     difflib.FromFile := "Expected";
                     difflib.FromDate := EmptyString;
                     difflib.ToFile := "Actual";
                     difflib.ToDate := EmptyString;
                     difflib.Context := 1 |}
        else EmptyString).
Proof.
  intros He Ha.
  destruct (deref_type expected) as [et | ] eqn:Et;
    [ | apply deref_type_nil in Et; contradiction ].
  destruct (deref_type actual) as [aty | ] eqn:At;
    [ | apply deref_type_nil in At; contradiction ].
  unfold diff, deref_kind.
  rewrite Et, (typeAndKind_deref _ _ Et), (typeAndKind_deref _ _ At).
  assert (N : is_nil_interface expected || is_nil_interface actual = false).
  { destruct expected; try contradiction; destruct actual; try contradiction;
      reflexivity. }
  rewrite N. simpl. rewrite composite_test.
  destruct (reflect.rtype_eqb et aty); simpl; [ | reflexivity ].
  destruct (composite (reflect.kindOf et)); reflexivity.
Qed.


(* ================================================================== *)
(** ** A panic of the slice assertions *)

(** C2 (failing input).  [InDeltaSlice] walks the indices of the actual
    slice and indexes the expected slice with them: with
    [expected = []float64{}] and [actual = []float64{1}] it panics with an
    index out of range, whatever the message arguments, before anything is
    reported.  [InEpsilonSlice] shares the loop and the panic. *)
Theorem C2_slice_assertions_panic_on_shorter_expected :
  forall (msgAndArgs : list reflect.value) (t : TestingT),
    InDeltaSlice sample.no_floats sample.one_float sample.f_0_01 msgAndArgs t
    = (Panic "reflect: slice index out of range", t)
    /\ InEpsilonSlice sample.no_floats sample.one_float sample.f_0_01 msgAndArgs t
       = (Panic "reflect: slice index out of range", t).
Proof. intros msgAndArgs t. split; reflexivity. Qed.

(* ================================================================== *)
(** ** More about the equality assertions *)

Lemma DeepEqual_same_type (x y : reflect.value) :
  reflect.DeepEqual x y = true -> reflect.TypeOf x = reflect.TypeOf y.
Proof.
  unfold reflect.DeepEqual.
  destruct x; destruct y; intros H; try discriminate H; try reflexivity;
    apply andb_true_iff in H; destruct H as [H _];
    apply Type_eqb_eq in H; exact H.
Qed.

(** X1.  Two values are strictly equal only if they have the same dynamic
    type, and the nil interface is strictly equal to nothing but itself: a
    nil pointer, which has a type, is not equal to nil. *)
Theorem X1_ObjectsAreEqual_needs_the_same_type :
  (forall expected actual,
      ObjectsAreEqual expected actual = Ok true ->
      reflect.TypeOf expected = reflect.TypeOf actual)
  /\ (forall x, ObjectsAreEqual reflect.VNil x = Ok true <-> x = reflect.VNil)
  /\ (forall x, ObjectsAreEqual x reflect.VNil = Ok true <-> x = reflect.VNil)
  /\ (forall nm e,
         ObjectsAreEqual reflect.VNil (reflect.VPtr nm e None) = Ok false).
Proof.
  split.
  { intros expected actual H. rewrite ObjectsAreEqual_DeepEqual in H.
    injection H as H. apply DeepEqual_same_type. exact H. }
  split.
  { intros x. rewrite ObjectsAreEqual_DeepEqual.
    destruct x; simpl; split; intros H; try reflexivity; discriminate H. }
  split.
  { intros x. rewrite ObjectsAreEqual_DeepEqual.
    destruct x; simpl; split; intros H; try reflexivity; discriminate H. }
  intros nm e. reflexivity.
Qed.

Lemma diff_total (expected actual : reflect.value) :
  exists d, diff expected actual = Ok d.
Proof.
  destruct expected as [ | | | | | | | | | | | | | | ] eqn:E;
    try (destruct actual as [ | | | | | | | | | | | | | | ] eqn:A;
         [ eexists; reflexivity
         | rewrite <- E, <- A; rewrite diff_unfold;
           [ eexists; reflexivity | subst; discriminate | subst; discriminate ] .. ]).
  eexists; reflexivity.
Qed.

Lemma Equal_cases (expected actual : reflect.value)
  (msgAndArgs : list reflect.value) (t : TestingT) :
  Equal expected actual msgAndArgs t
  = if reflect.DeepEqual expected actual then (Ok true, t)
    else match diff expected actual with
         | Ok d =>
             Fail (Sprintf ("Not equal: %#v (expected)" ++ LF
                            ++ "        != %#v (actual)%s")
                     [expected; actual; go_string d]) msgAndArgs t
         | Panic msg => (Panic msg, t)
         end.
Proof.
  unfold Equal, bind, lift. rewrite ObjectsAreEqual_DeepEqual.
  destruct (reflect.DeepEqual expected actual); simpl; [ reflexivity | ].
  destruct (diff expected actual); reflexivity.
Qed.

Lemma Equal_success (expected actual : reflect.value)
  (msgAndArgs : list reflect.value) (t : TestingT) :
  fst (Equal expected actual msgAndArgs t) = Ok true
  <-> reflect.DeepEqual expected actual = true.
Proof.
  rewrite Equal_cases.
  destruct (reflect.DeepEqual expected actual); simpl.
  - split; reflexivity.
  - split; [ | discriminate ].
    destruct (diff expected actual); simpl; [ | discriminate ].
    intros H. exfalso. revert H. apply Fail_never_true.
Qed.

(** X2.  [Equal] and [NotEqual] are complementary: when the operands are
    strictly equal [Equal] returns true without reporting and [NotEqual]
    returns false with one report, and the other way round when they are
    not (the report being writable). *)
Theorem X2_Equal_and_NotEqual_are_complementary :
  forall expected actual msgAndArgs t,
    msgAndArgs_ok msgAndArgs = true -> env_ok = true ->
    (ObjectsAreEqual expected actual = Ok true ->
     Equal expected actual msgAndArgs t = (Ok true, t)
     /\ exists call,
          NotEqual expected actual msgAndArgs t = (Ok false, (t ++ [call])%list))
    /\ (ObjectsAreEqual expected actual = Ok false ->
        NotEqual expected actual msgAndArgs t = (Ok true, t)
        /\ exists call,
             Equal expected actual msgAndArgs t = (Ok false, (t ++ [call])%list)).
Proof.
  intros expected actual msgAndArgs t Hargs Henv.
  rewrite !ObjectsAreEqual_DeepEqual. split; intros H; injection H as H.
  - split.
    + rewrite Equal_cases, H. reflexivity.
    + unfold NotEqual, bind, lift. rewrite ObjectsAreEqual_DeepEqual, H.
      apply Fail_ok; assumption.
  - split.
    + unfold NotEqual, bind, lift. rewrite ObjectsAreEqual_DeepEqual, H.
      reflexivity.
    + rewrite Equal_cases, H. destruct (diff_total expected actual) as [d Hd].
      rewrite Hd. apply Fail_ok; assumption.
Qed.

(** X3.  [Exactly] gives the verdict of [Equal]: strictly equal values
    have the same type already, so the type test of [Exactly] changes the
    report and never the result.  Whatever [Equal] accepts, [EqualValues]
    accepts too. *)
Theorem X3_Exactly_Equal_EqualValues :
  forall expected actual msgAndArgs t,
    (fst (Exactly expected actual msgAndArgs t) = Ok true
     <-> fst (Equal expected actual msgAndArgs t) = Ok true)
    /\ (fst (Equal expected actual msgAndArgs t) = Ok true ->
        EqualValues expected actual msgAndArgs t = (Ok true, t)).
Proof.
  intros expected actual msgAndArgs t. split.
  - unfold Exactly.
    destruct (reflect.Type_eqb (reflect.TypeOf expected) (reflect.TypeOf actual))
      eqn:E; simpl; [ reflexivity | ].
    split.
    + intros H. exfalso. revert H. apply Fail_never_true.
    + intros H. apply Equal_success in H. apply DeepEqual_same_type in H.
      apply Type_eqb_eq in H. congruence.
  - intros H. apply Equal_success in H.
    unfold EqualValues, ObjectsAreEqualValues, bind, lift.
    rewrite ObjectsAreEqual_DeepEqual, H. reflexivity.
Qed.

Lemma ConvertibleTo_ints (nm nm' : reflect.tyname) (k k' : reflect.IntKind) :
  reflect.ConvertibleTo (reflect.named nm (reflect.TInt k))
    (reflect.named nm' (reflect.TInt k')) = true.
Proof. destruct nm, nm'; reflexivity. Qed.

Lemma Convert_int (nm nm' : reflect.tyname) (k k' : reflect.IntKind) (n : Z)
  (fresh : nat) :
  reflect.Convert (reflect.VInt nm k n) (reflect.named nm' (reflect.TInt k')) fresh
  = Ok (reflect.VInt nm' k' (reflect.wrap_int k' n)).
Proof.
  unfold reflect.Convert.
  change (reflect.TypeOf (reflect.VInt nm k n))
    with (Some (reflect.named nm (reflect.TInt k))).
  cbv iota beta. rewrite ConvertibleTo_ints.
  destruct nm'; reflexivity.
Qed.

Lemma DeepEqual_ints (nm nm' : reflect.tyname) (k k' : reflect.IntKind) (n m : Z) :
  reflect.DeepEqual (reflect.VInt nm k n) (reflect.VInt nm' k' m)
  = reflect.Type_eqb (reflect.TypeOf (reflect.VInt nm k n))
      (reflect.TypeOf (reflect.VInt nm' k' m)) && (n =? m).
Proof.
  unfold reflect.DeepEqual, reflect.deepValueEqual, reflect.go_eq.
  destruct (reflect.Type_eqb _ _); simpl; [ | reflexivity ].
  destruct (n =? m); reflexivity.
Qed.

(** X4.  Two integers, of whatever integer types, are equal as values
    exactly when they are strictly equal or the expected number, wrapped
    around into the integer type of the actual one, is the actual number;
    and nil is equal as a value to nil only. *)
Theorem X4_ObjectsAreEqualValues_on_integers :
  (forall nm k n nm' k' m,
      ObjectsAreEqualValues (reflect.VInt nm k n) (reflect.VInt nm' k' m)
      = Ok ((reflect.Type_eqb (reflect.TypeOf (reflect.VInt nm k n))
               (reflect.TypeOf (reflect.VInt nm' k' m)) && (n =? m))
            || (reflect.wrap_int k' n =? m)))
  /\ (forall x, ObjectsAreEqualValues x reflect.VNil = Ok true <-> x = reflect.VNil)
  /\ (forall x, ObjectsAreEqualValues reflect.VNil x = Ok true <-> x = reflect.VNil).
Proof.
  split.
  { intros nm k n nm' k' m.
    unfold ObjectsAreEqualValues. rewrite ObjectsAreEqual_DeepEqual.
    unfold rbind at 1. rewrite DeepEqual_ints.
    destruct (reflect.Type_eqb (reflect.TypeOf (reflect.VInt nm k n))
                (reflect.TypeOf (reflect.VInt nm' k' m)) && (n =? m)) eqn:E;
      [ reflexivity | ].
    change (reflect.TypeOf (reflect.VInt nm' k' m))
      with (Some (reflect.named nm' (reflect.TInt k'))).
    change (reflect.TypeOf (reflect.VInt nm k n))
      with (Some (reflect.named nm (reflect.TInt k))).
    cbv iota beta.
    rewrite ConvertibleTo_ints, Convert_int.
    change (reflect.IsValid (reflect.VInt nm k n)) with true.
    unfold rbind. cbv iota beta.
    change (reflect.Value_Interface (reflect.VInt nm' k' (reflect.wrap_int k' n)))
      with (reflect.VInt nm' k' (reflect.wrap_int k' n)).
    rewrite DeepEqual_ints, Type_eqb_refl. reflexivity. }
  split.
  { intros x. unfold ObjectsAreEqualValues. rewrite ObjectsAreEqual_DeepEqual.
    destruct x; simpl; split; intros H; try reflexivity; discriminate H. }
  intros x. unfold ObjectsAreEqualValues. rewrite ObjectsAreEqual_DeepEqual.
  destruct x; simpl; split; intros H; try reflexivity; try discriminate H.
Qed.

(* ================================================================== *)
(** ** Pairs of opposite assertions *)

(** X5.  [Nil] and [NotNil] are complementary, and both follow [isNil]:
    a nil pointer, although it is not strictly equal to nil, passes [Nil]
    and fails [NotNil]. *)
Theorem X5_Nil_and_NotNil_are_complementary :
  forall object msgAndArgs t,
    msgAndArgs_ok msgAndArgs = true -> env_ok = true ->
    (isNil object = Ok true ->
     Nil object msgAndArgs t = (Ok true, t)
     /\ exists call,
          NotNil object msgAndArgs t = (Ok false, (t ++ [call])%list))
    /\ (isNil object = Ok false ->
        NotNil object msgAndArgs t = (Ok true, t)
        /\ exists call,
             Nil object msgAndArgs t = (Ok false, (t ++ [call])%list))
    /\ (forall nm e,
           Nil (reflect.VPtr nm e None) msgAndArgs t = (Ok true, t)
           /\ ObjectsAreEqual reflect.VNil (reflect.VPtr nm e None) = Ok false).
Proof.
  intros object msgAndArgs t Hargs Henv.
  split; [ | split ].
  - intros H. unfold Nil, NotNil, bind, lift. rewrite H. simpl.
    split; [ reflexivity | apply Fail_ok; assumption ].
  - intros H. unfold Nil, NotNil, bind, lift. rewrite H. simpl.
    split; [ reflexivity | apply Fail_ok; assumption ].
  - intros nm e. split; [ | reflexivity ].
    unfold Nil, bind, lift.
    assert (E : isNil (reflect.VPtr nm e None) = Ok true)
      by (destruct nm; reflexivity).
    rewrite E. reflexivity.
Qed.

(** X6.  [Empty] returns what [isEmpty] answers and [NotEmpty] the
    opposite; the one that returns false writes one report, the other
    none. *)
Theorem X6_Empty_and_NotEmpty_are_complementary :
  forall object msgAndArgs t,
    msgAndArgs_ok msgAndArgs = true -> env_ok = true ->
    (isEmpty object = Ok true ->
     Empty object msgAndArgs t = (Ok true, t)
     /\ exists call,
          NotEmpty object msgAndArgs t = (Ok false, (t ++ [call])%list))
    /\ (isEmpty object = Ok false ->
        NotEmpty object msgAndArgs t = (Ok true, t)
        /\ exists call,
             Empty object msgAndArgs t = (Ok false, (t ++ [call])%list)).
Proof.
  intros object msgAndArgs t Hargs Henv.
  split; intros H; unfold Empty, NotEmpty, bind, lift; rewrite H; simpl;
    (split; [ reflexivity | ]).
  - destruct (Fail_ok (Sprintf "Should NOT be empty, but was %v" [object])
                msgAndArgs t Hargs Henv) as [call Hc].
    rewrite Hc. exists call. reflexivity.
  - destruct (Fail_ok (Sprintf "Should be empty, but was %v" [object])
                msgAndArgs t Hargs Henv) as [call Hc].
    rewrite Hc. exists call. reflexivity.
Qed.

(** X7.  [Contains] and [NotContains] are complementary only where
    containment applies: when [includeElement] cannot look into the
    container both of them fail, each with one report; otherwise exactly
    one of them succeeds. *)
Theorem X7_Contains_and_NotContains :
  forall s contains msgAndArgs t,
    msgAndArgs_ok msgAndArgs = true -> env_ok = true ->
    (fst (includeElement s contains) = false ->
     (exists call,
         Contains s contains msgAndArgs t = (Ok false, (t ++ [call])%list))
     /\ (exists call,
            NotContains s contains msgAndArgs t = (Ok false, (t ++ [call])%list)))
    /\ (includeElement s contains = (true, true) ->
        Contains s contains msgAndArgs t = (Ok true, t)
        /\ exists call,
             NotContains s contains msgAndArgs t = (Ok false, (t ++ [call])%list))
    /\ (includeElement s contains = (true, false) ->
        NotContains s contains msgAndArgs t = (Ok true, t)
        /\ exists call,
             Contains s contains msgAndArgs t = (Ok false, (t ++ [call])%list)).
Proof.
  intros s contains msgAndArgs t Hargs Henv.
  unfold Contains, NotContains.
  destruct (includeElement s contains) as [ok found].
  split; [ | split ].
  - simpl. intros ->. simpl. split; apply Fail_ok; assumption.
  - intros H. injection H as -> ->. simpl.
    split; [ reflexivity | apply Fail_ok; assumption ].
  - intros H. injection H as -> ->. simpl.
    split; [ reflexivity | apply Fail_ok; assumption ].
Qed.

(* ================================================================== *)
(** ** Length *)

Lemma getLen_spec (x : reflect.value) :
  getLen x = match reflect.Len x with
             | Ok n => (true, n)
             | Panic _ => (false, 0)
             end.
Proof. unfold getLen. destruct (reflect.Len x); reflexivity. Qed.

(** X8.  [Len] succeeds, without reporting, exactly when the object has
    a length and that length is the expected one: an array, channel, map,
    slice or string (for a string the number of bytes, for a channel the
    number of queued elements), and also a pointer to an array, nil or
    not, whose length is that of the array type.  With another length it
    reports both lengths; for nil and for a value of any other kind it
    reports that the length cannot be taken. *)
Theorem X8_Len_on_what_has_a_length :
  forall object length msgAndArgs t,
    (Len object length msgAndArgs t = (Ok true, t)
     <-> reflect.Len object = Ok length)
    /\ (fst (Len object length msgAndArgs t) = Ok true
        <-> reflect.Len object = Ok length)
    /\ (containable (reflect.Value_Kind object) = false ->
        array_pointed_to object = None ->
        Len object length msgAndArgs t
        = Fail (Sprintf (DQ ++ "%s" ++ DQ ++ " could not be applied builtin len()")
                  [object]) msgAndArgs t)
    /\ (forall n,
           array_pointed_to object = Some n ->
           (Len object length msgAndArgs t = (Ok true, t)
            <-> length = Z.of_nat n))
    /\ (forall l,
           reflect.Len object = Ok l -> l <> length ->
           Len object length msgAndArgs t
           = Fail (Sprintf (DQ ++ "%s" ++ DQ ++ " should have %d item(s), but has %d")
                     [object; go_int length; go_int l]) msgAndArgs t)
    /\ (forall nm s,
           fst (Len (reflect.VString nm s) length msgAndArgs t) = Ok true
           <-> length = Z.of_nat (String.length s))
    /\ (forall nm k e,
           Len (reflect.VMap nm k e None []) 0 msgAndArgs t = (Ok true, t)).
Proof.
  intros object length msgAndArgs t.
  assert (Hfst : fst (Len object length msgAndArgs t) = Ok true
                 <-> reflect.Len object = Ok length).
  { unfold Len. rewrite getLen_spec.
    destruct (reflect.Len object) as [n | msg]; simpl.
    - destruct (Z.eqb_spec n length) as [-> | Hne]; simpl.
      + split; reflexivity.
      + split.
        * intros H. exfalso. revert H. apply Fail_never_true.
        * intros H. injection H as H. contradiction.
    - split; [ | discriminate ].
      intros H. exfalso. revert H. apply Fail_never_true. }
  assert (Hall : Len object length msgAndArgs t = (Ok true, t)
                 <-> reflect.Len object = Ok length).
  { split.
    + intros H. apply Hfst. rewrite H. reflexivity.
    + intros H. unfold Len. rewrite getLen_spec, H. simpl.
      rewrite Z.eqb_refl. reflexivity. }
  split; [ exact Hall | ].
  split; [ exact Hfst | ].
  split.
  { intros Hk Hp. unfold Len. rewrite getLen_spec.
    assert (E : exists msg, reflect.Len object = Panic msg).
    { revert Hk Hp. unfold reflect.Value_Kind, array_pointed_to.
      destruct object; simpl; rewrite ?Value_Kind_named; simpl; intros Hk Hp;
        try discriminate Hk; try (eexists; reflexivity).
      destruct (reflect.underlying elem); try discriminate Hp;
        eexists; reflexivity. }
    destruct E as [msg E]. rewrite E. reflexivity. }
  split.
  { intros n Hp. rewrite Hall.
    unfold array_pointed_to in Hp. destruct object; try discriminate Hp.
    simpl. destruct (reflect.underlying elem); try discriminate Hp.
    injection Hp as ->.
    split; intros H; [ injection H as <-; reflexivity | subst; reflexivity ]. }
  split.
  { intros l Hl Hne. unfold Len. rewrite getLen_spec, Hl. simpl.
    destruct (Z.eqb_spec l length); [ contradiction | reflexivity ]. }
  split.
  { intros nm s.
    unfold Len. rewrite getLen_spec. simpl.
    destruct (Z.eqb_spec (Z.of_nat (String.length s)) length) as [E | Hne]; simpl.
    + split; [ intros _; symmetry; exact E | reflexivity ].
    + split.
      * intros H. exfalso. revert H. apply Fail_never_true.
      * intros H. symmetry in H. contradiction. }
  intros nm k e. reflexivity.
Qed.

(* ================================================================== *)
(** ** Zero values *)

Lemma Zero_named_int (nm : reflect.tyname) (k : reflect.IntKind) :
  reflect.Zero (reflect.named nm (reflect.TInt k)) = reflect.VInt nm k 0.
Proof. destruct nm; reflexivity. Qed.

Lemma Zero_named_slice (nm : reflect.tyname) (e : reflect.rtype) :
  reflect.Zero (reflect.named nm (reflect.TSlice e)) = reflect.VSlice nm e None [].
Proof. destruct nm; reflexivity. Qed.

Lemma Zero_success (i : reflect.value) (msgAndArgs : list reflect.value)
  (t : TestingT) :
  fst (Zero i msgAndArgs t) = Ok true
  <-> (i = reflect.VNil \/ equals_zero_of_its_type i = Ok true).
Proof.
  unfold Zero, bind, lift.
  destruct (is_nil_interface i) eqn:N; simpl.
  - destruct i; try discriminate N. split; [ left; reflexivity | reflexivity ].
  - destruct (equals_zero_of_its_type i) as [[ | ] | msg]; simpl.
    + split; [ right; reflexivity | reflexivity ].
    + split.
      * intros H. exfalso. revert H. apply Fail_never_true.
      * intros [-> | H]; discriminate.
    + split; [ discriminate | ].
      intros [-> | H]; discriminate.
Qed.

(** X9.  [Zero] and [NotZero] are complementary, nil counting as zero.
    Unlike [isEmpty], the test is by type: an integer of any integer
    type, defined types included, is zero exactly when it is 0, and a
    slice is zero exactly when it is the nil slice, so that an empty
    slice that is not nil is empty and yet not zero. *)
Theorem X9_Zero_and_NotZero :
  forall i msgAndArgs t,
    msgAndArgs_ok msgAndArgs = true -> env_ok = true ->
    (i = reflect.VNil \/ equals_zero_of_its_type i = Ok true ->
     Zero i msgAndArgs t = (Ok true, t)
     /\ exists call, NotZero i msgAndArgs t = (Ok false, (t ++ [call])%list))
    /\ (equals_zero_of_its_type i = Ok false ->
        NotZero i msgAndArgs t = (Ok true, t)
        /\ exists call, Zero i msgAndArgs t = (Ok false, (t ++ [call])%list))
    /\ (forall nm k n,
           fst (Zero (reflect.VInt nm k n) msgAndArgs t) = Ok true <-> n = 0)
    /\ (forall nm e d es,
           fst (Zero (reflect.VSlice nm e d es) msgAndArgs t) = Ok true
           <-> d = None /\ es = [])
    /\ (forall nm e a,
           isEmpty (reflect.VSlice nm e (Some a) []) = Ok true
           /\ fst (Zero (reflect.VSlice nm e (Some a) []) msgAndArgs t) <> Ok true).
Proof.
  intros i msgAndArgs t Hargs Henv.
  assert (Hint : forall nm k n,
             fst (Zero (reflect.VInt nm k n) msgAndArgs t) = Ok true <-> n = 0).
  { intros nm k n. rewrite Zero_success. unfold equals_zero_of_its_type.
    change (reflect.TypeOf (reflect.VInt nm k n))
      with (Some (reflect.named nm (reflect.TInt k))).
    cbv iota beta. rewrite Zero_named_int.
    change (reflect.Value_Interface (reflect.VInt nm k 0))
      with (reflect.VInt nm k 0).
    rewrite DeepEqual_ints, Type_eqb_refl. simpl.
    split.
    - intros [H | H]; [ discriminate H | ].
      injection H as H. apply Z.eqb_eq. exact H.
    - intros ->. right. reflexivity. }
  assert (Hslice : forall nm e d es,
             fst (Zero (reflect.VSlice nm e d es) msgAndArgs t) = Ok true
             <-> d = None /\ es = []).
  { intros nm e d es. rewrite Zero_success. unfold equals_zero_of_its_type.
    change (reflect.TypeOf (reflect.VSlice nm e d es))
      with (Some (reflect.named nm (reflect.TSlice e))).
    cbv iota beta. rewrite Zero_named_slice.
    change (reflect.Value_Interface (reflect.VSlice nm e None []))
      with (reflect.VSlice nm e None []).
    unfold reflect.DeepEqual, reflect.deepValueEqual.
    change (reflect.TypeOf (reflect.VSlice nm e d es))
      with (Some (reflect.named nm (reflect.TSlice e))).
    change (reflect.TypeOf (reflect.VSlice nm e None []))
      with (Some (reflect.named nm (reflect.TSlice e))).
    rewrite Type_eqb_refl.
    destruct d as [a | ]; destruct es as [ | x es ]; simpl;
      (split;
       [ intros [H | H]; try discriminate H; split; reflexivity
       | intros [H1 H2]; try discriminate H1; try discriminate H2;
         right; reflexivity ]). }
  split; [ | split; [ | split; [ exact Hint | split; [ exact Hslice | ] ] ] ].
  - intros H. unfold Zero, NotZero, bind, lift.
    destruct H as [-> | H]; simpl.
    + split; [ reflexivity | apply Fail_ok; assumption ].
    + destruct (is_nil_interface i); simpl.
      * split; [ reflexivity | apply Fail_ok; assumption ].
      * rewrite H. simpl. split; [ reflexivity | apply Fail_ok; assumption ].
  - intros H. unfold Zero, NotZero, bind, lift.
    destruct (is_nil_interface i) eqn:N; simpl.
    + destruct i; try discriminate N. discriminate H.
    + rewrite H. simpl. split; [ reflexivity | apply Fail_ok; assumption ].
  - intros nm e a. split.
    + rewrite isEmpty_slice. reflexivity.
    + rewrite Hslice. intros [H _]. discriminate H.
Qed.

(* ================================================================== *)
(** ** Errors *)

Lemma messageFromMsgAndArgs_panics (msgAndArgs : list reflect.value) :
  msgAndArgs_ok msgAndArgs = false ->
  exists msg, messageFromMsgAndArgs msgAndArgs = Panic msg.
Proof.
  destruct msgAndArgs as [ | m rest ]; simpl; intros H; [ discriminate H | ].
  destruct m; try destruct nm; try discriminate H;
    destruct rest; eexists; reflexivity.
Qed.

Lemma DeepEqual_strings (a b : string) :
  reflect.DeepEqual (go_string a) (go_string b) = String.eqb a b.
Proof.
  unfold go_string, reflect.DeepEqual, reflect.deepValueEqual. simpl.
  destruct (String.eqb a b); reflexivity.
Qed.

(** X10.  [NoError] and [Error] follow [isNil] and are complementary: an
    error that is a nil pointer counts as no error.  [Error] formats the
    message arguments before it looks at the error, so with a first
    message argument that is no string it panics even when the error is
    not nil. *)
Theorem X10_NoError_and_Error :
  forall err msgAndArgs t,
    env_ok = true ->
    (msgAndArgs_ok msgAndArgs = true ->
     (isNil err = Ok true ->
      NoError err msgAndArgs t = (Ok true, t)
      /\ exists call,
           Error err msgAndArgs t = (Ok false, (t ++ [call])%list))
     /\ (isNil err = Ok false ->
         Error err msgAndArgs t = (Ok true, t)
         /\ exists call,
              NoError err msgAndArgs t = (Ok false, (t ++ [call])%list)))
    /\ (msgAndArgs_ok msgAndArgs = false ->
        exists msg, Error err msgAndArgs t = (Panic msg, t))
    /\ (forall nm e,
           NoError (reflect.VPtr nm e None) msgAndArgs t = (Ok true, t)).
Proof.
  intros err msgAndArgs t Henv.
  split; [ | split ].
  - intros Hargs.
    destruct (messageFromMsgAndArgs_ok _ Hargs) as [m Hm].
    split; intros H; unfold NoError, Error, NotNil, bind, lift;
      rewrite ?Hm, H; simpl;
      (split; [ reflexivity | apply Fail_ok; [ reflexivity || assumption | assumption ] ]).
  - intros Hargs.
    destruct (messageFromMsgAndArgs_panics _ Hargs) as [msg Hm].
    exists msg. unfold Error, bind, lift. rewrite Hm. reflexivity.
  - intros nm e. unfold NoError, bind, lift.
    assert (E : isNil (reflect.VPtr nm e None) = Ok true)
      by (destruct nm; reflexivity).
    rewrite E. reflexivity.
Qed.

(** X11.  [EqualError] succeeds, without reporting, exactly when the
    error is not nil and its text is the expected string; in every other
    case it returns false after exactly one report (a nil error is
    reported by [NotNil], a different text by [Equal]). *)
Theorem X11_EqualError :
  forall theError errString msgAndArgs t,
    msgAndArgs_ok msgAndArgs = true -> env_ok = true ->
    (isNil theError = Ok false -> Error_method theError = errString ->
     EqualError theError errString msgAndArgs t = (Ok true, t))
    /\ (isNil theError = Ok true ->
        exists call,
          EqualError theError errString msgAndArgs t
          = (Ok false, (t ++ [call])%list))
    /\ (isNil theError = Ok false -> Error_method theError <> errString ->
        exists call,
          EqualError theError errString msgAndArgs t
          = (Ok false, (t ++ [call])%list)).
Proof.
  intros theError errString msgAndArgs t Hargs Henv.
  destruct (messageFromMsgAndArgs_ok _ Hargs) as [m Hm].
  split; [ | split ].
  - intros Hn He. unfold EqualError, NotNil, bind, lift.
    rewrite Hm, Hn. simpl. rewrite Equal_cases, DeepEqual_strings, He.
    rewrite String.eqb_refl. reflexivity.
  - intros Hn. unfold EqualError, NotNil, bind, lift.
    rewrite Hm, Hn. simpl.
    destruct (Fail_ok "Expected value not to be nil."
                [go_string "An error is expected but got nil. %s"; go_string m]
                t eq_refl Henv) as [call Hc].
    rewrite Hc. exists call. reflexivity.
  - intros Hn He. unfold EqualError, NotNil, bind, lift.
    rewrite Hm, Hn. simpl. rewrite Equal_cases, DeepEqual_strings.
    apply String.eqb_neq in He. rewrite String.eqb_sym, He.
    destruct (diff_total (go_string errString) (go_string (Error_method theError)))
      as [d Hd].
    rewrite Hd. apply Fail_ok; [ reflexivity | assumption ].
Qed.

(* ================================================================== *)
(** ** The walk over the call stack *)

Lemma drop_app (p r : string) : strings.drop (String.length p) (p ++ r) = r.
Proof. induction p as [ | c p IH ]; simpl; [ destruct r; reflexivity | exact IH ]. Qed.

Lemma HasPrefix_app (p r : string) : strings.HasPrefix (p ++ r) p = true.
Proof. apply HasPrefix_spec. exists r. reflexivity. Qed.

(** X12.  [isTest] accepts a name exactly when it starts with the prefix
    and either ends there or goes on with a rune that is not a lower-case
    letter. *)
Theorem X12_isTest :
  (forall prefix rest,
      isTest (prefix ++ rest) prefix
      = match rest with
        | EmptyString => true
        | _ => negb (unicode_IsLower (fst (utf8.DecodeRuneInString rest)))
        end)
  /\ (forall name prefix,
         isTest name prefix = true -> exists rest, name = prefix ++ rest).
Proof.
  split.
  - intros prefix rest. unfold isTest.
    rewrite HasPrefix_app, drop_app, string_length_app. simpl negb. cbv iota.
    destruct rest as [ | c rest ].
    + rewrite Nat.add_0_r, Nat.eqb_refl. reflexivity.
    + destruct (Nat.eqb_spec (String.length prefix + String.length (String c rest))
                  (String.length prefix)) as [E | _].
      * simpl in E. lia.
      * destruct (utf8.DecodeRuneInString (String c rest)). reflexivity.
  - intros name prefix H. unfold isTest in H.
    destruct (strings.HasPrefix name prefix) eqn:P; [ | discriminate H ].
    apply HasPrefix_spec in P. exact P.
Qed.

Lemma from_end_1_last (parts : list string) :
  parts <> [] -> from_end parts 1 = Ok (List.last parts EmptyString).
Proof.
  intros Hne. unfold from_end, index_or_panic.
  destruct parts as [ | p ps ]; [ contradiction | ].
  change (List.length (p :: ps)) with (S (List.length ps)).
  destruct (Z.ltb_spec (Z.of_nat (S (List.length ps)) - 1) 0) as [H | _];
    [ lia | ].
  replace (Z.to_nat (Z.of_nat (S (List.length ps)) - 1)) with (List.length ps)
    by lia.
  clear Hne. revert p. induction ps as [ | q ps IH ]; intros p; [ reflexivity | ].
  change (nth_error (p :: q :: ps) (List.length (q :: ps)))
    with (nth_error (q :: ps) (List.length ps)).
  change (List.last (p :: q :: ps) EmptyString) with (List.last (q :: ps) EmptyString).
  apply IH.
Qed.

Lemma Split_not_nil (s : string) (sep : ascii) : strings.Split s sep <> [].
Proof.
  pose proof (Split_nonempty s sep) as H.
  destruct (strings.Split s sep); [ simpl in H; lia | discriminate ].
Qed.

(** What [CallerInfo] does with one frame that has a directory part. *)
Lemma CallerInfo_loop_frame (fr : runtime.Frame) (rest : list runtime.Frame)
  (callers : list string) :
  String.eqb (runtime.file fr) "<autogenerated>" = false ->
  has_dir (runtime.file fr) = true ->
  CallerInfo_loop (fr :: rest) callers
  = let callers' :=
      if listed fr then (callers ++ [trace_entry fr])%list else callers in
    match runtime.func fr with
    | None => Ok callers'
    | Some _ =>
        if is_test_frame fr then Ok callers'
        else CallerInfo_loop rest callers'
    end.
Proof.
  intros Hauto Hdir. simpl. rewrite Hauto.
  destruct (from_end_dir_ok _ Hdir) as [dir Hd].
  pose proof (from_end_1_last _ (Split_not_nil (runtime.file fr) "/"%char)) as Hl.
  unfold listed, trace_entry, is_test_frame. rewrite Hd, Hl. simpl.
  destruct (runtime.func fr) as [name | ]; [ | reflexivity ].
  rewrite (from_end_1_last _ (Split_not_nil name "."%char)). simpl.
  reflexivity.
Qed.

Lemma CallerInfo_loop_passed (pre : list runtime.Frame) :
  forallb passed_by pre = true ->
  forall rest callers,
    CallerInfo_loop (pre ++ rest)%list callers
    = CallerInfo_loop rest
        (callers ++ List.map trace_entry (List.filter listed pre))%list.
Proof.
  induction pre as [ | fr pre IH ]; intros Hp rest callers.
  - simpl. rewrite app_nil_r. reflexivity.
  - simpl in Hp. apply andb_true_iff in Hp. destruct Hp as [Hfr Hpre].
    unfold passed_by in Hfr.
    apply andb_true_iff in Hfr. destruct Hfr as [Hfr Htest].
    apply andb_true_iff in Hfr. destruct Hfr as [Hfr Hfunc].
    apply andb_true_iff in Hfr. destruct Hfr as [Hauto Hdir].
    apply negb_true_iff in Hauto. apply negb_true_iff in Htest.
    change ((fr :: pre) ++ rest)%list with (fr :: (pre ++ rest))%list.
    rewrite (CallerInfo_loop_frame fr (pre ++ rest)%list callers Hauto Hdir).
    destruct (runtime.func fr) as [name | ]; [ | discriminate Hfunc ].
    rewrite Htest. cbv zeta. rewrite (IH Hpre). simpl List.filter.
    destruct (listed fr); simpl; rewrite <- ?app_assoc; reflexivity.
Qed.

(** X13.  The trace of [CallerInfo]: when the walk passes by some frames
    and then meets the frame of a test, benchmark or example function (or
    one whose function is unknown), the trace lists, in order, the frames
    up to and including that one whose directory is none of assert, mock
    and require or whose file is mock_test.go, and nothing of what lies
    beyond; when it meets an autogenerated frame instead, the trace ends
    before it. *)
Theorem X13_CallerInfo_trace :
  forall (pre : list runtime.Frame) (fr : runtime.Frame)
         (post : list runtime.Frame),
    forallb passed_by pre = true ->
    (String.eqb (runtime.file fr) "<autogenerated>" = false ->
     has_dir (runtime.file fr) = true ->
     is_test_frame fr = true \/ runtime.func fr = None ->
     CallerInfo (pre ++ fr :: post)%list
     = Ok (List.map trace_entry (List.filter listed (pre ++ [fr])%list)))
    /\ (String.eqb (runtime.file fr) "<autogenerated>" = true ->
        CallerInfo (pre ++ fr :: post)%list
        = Ok (List.map trace_entry (List.filter listed pre))).
Proof.
  intros pre fr post Hpre. unfold CallerInfo. split.
  - intros Hauto Hdir Hstop.
    rewrite (CallerInfo_loop_passed pre Hpre).
    rewrite (CallerInfo_loop_frame fr post _ Hauto Hdir).
    rewrite filter_app, map_app. simpl app at 1. simpl List.filter.
    cbv zeta.
    destruct Hstop as [Ht | Hn].
    + rewrite Ht.
      destruct (runtime.func fr); destruct (listed fr); simpl;
        rewrite ?app_nil_r; reflexivity.
    + rewrite Hn. destruct (listed fr); simpl; rewrite ?app_nil_r; reflexivity.
  - intros Hauto. rewrite (CallerInfo_loop_passed pre Hpre).
    simpl. rewrite Hauto. reflexivity.
Qed.

(** X14.  When the walk runs out of frames without meeting a test
    function, [CallerInfo] returns nil: what it had collected is
    dropped. *)
Theorem X14_CallerInfo_nil_when_the_stack_runs_out :
  forall frames : list runtime.Frame,
    forallb passed_by frames = true ->
    CallerInfo frames = Ok [].
Proof.
  intros frames H. unfold CallerInfo.
  pose proof (CallerInfo_loop_passed frames H [] []) as E.
  rewrite app_nil_r in E. rewrite E. reflexivity.
Qed.

(* ================================================================== *)
(** ** The text of a report *)

Lemma Split_no_newline (s : string) :
  no_newline s = true -> strings.Split s "010"%char = [s].
Proof.
  induction s as [ | c s IH ]; simpl; intros H; [ reflexivity | ].
  apply andb_true_iff in H. destruct H as [Hc Hs].
  apply negb_true_iff in Hc. rewrite Hc, (IH Hs). reflexivity.
Qed.

Lemma Split_app_newline (a b : string) :
  no_newline a = true ->
  strings.Split (a ++ String "010"%char b) "010"%char
  = a :: strings.Split b "010"%char.
Proof.
  induction a as [ | c a IH ]; simpl; intros H; [ reflexivity | ].
  apply andb_true_iff in H. destruct H as [Hc Ha].
  apply negb_true_iff in Hc. rewrite Hc, (IH Ha). reflexivity.
Qed.

(** Splitting at the newlines undoes joining with newlines. *)
Lemma Split_Join_lines (lines : list string) :
  lines <> [] ->
  forallb no_newline lines = true ->
  strings.Split (strings.Join lines LF) "010"%char = lines.
Proof.
  induction lines as [ | x lines IH ]; intros Hne H; [ contradiction | ].
  simpl in H. apply andb_true_iff in H. destruct H as [Hx Hl].
  destruct lines as [ | y lines ].
  - simpl. apply Split_no_newline. exact Hx.
  - change (strings.Join (x :: y :: lines) LF)
      with (x ++ String "010"%char (strings.Join (y :: lines) LF)).
    rewrite (Split_app_newline _ _ Hx). f_equal.
    apply IH; [ discriminate | exact Hl ].
Qed.

Lemma map_dropCR_clean (lines : list string) :
  forallb clean_line lines = true -> List.map dropCR lines = lines.
Proof.
  induction lines as [ | x lines IH ]; simpl; intros H; [ reflexivity | ].
  apply andb_true_iff in H. destruct H as [Hx Hl].
  unfold clean_line in Hx. apply andb_true_iff in Hx. destruct Hx as [_ Hx].
  apply String.eqb_eq in Hx. rewrite Hx, (IH Hl). reflexivity.
Qed.

Lemma forallb_clean_no_newline (lines : list string) :
  forallb clean_line lines = true -> forallb no_newline lines = true.
Proof.
  induction lines as [ | x lines IH ]; simpl; intros H; [ reflexivity | ].
  apply andb_true_iff in H. destruct H as [Hx Hl].
  unfold clean_line in Hx. apply andb_true_iff in Hx. destruct Hx as [Hx _].
  rewrite Hx, (IH Hl). reflexivity.
Qed.

Lemma scanned_short (lines : list string) :
  forallb short_line lines = true -> scanned lines = lines.
Proof.
  induction lines as [ | x lines IH ]; simpl; intros H; [ reflexivity | ].
  apply andb_true_iff in H. destruct H as [Hx Hl].
  unfold short_line in Hx. apply Z.ltb_lt in Hx.
  destruct (Z.leb_spec MaxScanTokenSize (Z.of_nat (String.length x))); [ lia | ].
  rewrite (IH Hl). reflexivity.
Qed.

(** The scan stops before the first line that is too long. *)
Lemma scanned_long (pre : list string) (long : string) (post : list string) :
  forallb short_line pre = true ->
  MaxScanTokenSize <= Z.of_nat (String.length long) ->
  scanned (pre ++ long :: post)%list = pre.
Proof.
  intros Hp Hl. induction pre as [ | x pre IH ]; simpl.
  - destruct (Z.leb_spec MaxScanTokenSize (Z.of_nat (String.length long)));
      [ reflexivity | lia ].
  - simpl in Hp. apply andb_true_iff in Hp. destruct Hp as [Hx Hp].
    unfold short_line in Hx. apply Z.ltb_lt in Hx.
    destruct (Z.leb_spec MaxScanTokenSize (Z.of_nat (String.length x)));
      [ lia | ].
    rewrite (IH Hp). reflexivity.
Qed.

Lemma forallb_removelast {A : Type} (f : A -> bool) (l : list A) :
  forallb f l = true -> forallb f (List.removelast l) = true.
Proof.
  induction l as [ | x l IH ]; [ reflexivity | ].
  intros H. simpl in H. apply andb_true_iff in H. destruct H as [Hx Hl].
  destruct l as [ | y l ]; [ reflexivity | ].
  change (List.removelast (x :: y :: l)) with (x :: List.removelast (y :: l)).
  simpl forallb. rewrite Hx. simpl. apply IH. exact Hl.
Qed.

Lemma scan_lines_Join (lines : list string) :
  lines <> [] ->
  forallb clean_line lines = true ->
  forallb short_line lines = true ->
  scan_lines (strings.Join lines LF)
  = if String.eqb (List.last lines EmptyString) EmptyString
    then List.removelast lines else lines.
Proof.
  intros Hne Hc Hs. unfold scan_lines.
  rewrite (Split_Join_lines lines Hne (forallb_clean_no_newline _ Hc)).
  destruct (String.eqb (List.last lines EmptyString) EmptyString).
  - rewrite scanned_short by (apply forallb_removelast; exact Hs).
    apply map_dropCR_clean. apply forallb_removelast. exact Hc.
  - rewrite scanned_short by exact Hs.
    apply map_dropCR_clean. exact Hc.
Qed.

(** From a line that is too long on, nothing is scanned. *)
Lemma scan_lines_long (pre : list string) (long : string) (post : list string) :
  forallb clean_line pre = true ->
  forallb short_line pre = true ->
  no_newline long = true ->
  MaxScanTokenSize <= Z.of_nat (String.length long) ->
  forallb no_newline post = true ->
  scan_lines (strings.Join (pre ++ long :: post) LF) = pre.
Proof.
  intros Hc Hs Hn Hl Hpost. unfold scan_lines.
  rewrite Split_Join_lines.
  2: { destruct pre; discriminate. }
  2: { rewrite forallb_app, (forallb_clean_no_newline _ Hc). simpl.
       rewrite Hn, Hpost. reflexivity. }
  assert (E : (if String.eqb (List.last (pre ++ long :: post) EmptyString)
                    EmptyString
               then List.removelast (pre ++ long :: post)
               else (pre ++ long :: post)%list)
              = (pre ++ long :: (if String.eqb
                                      (List.last (pre ++ long :: post) EmptyString)
                                      EmptyString
                                 then List.removelast post else post))%list).
  { destruct (String.eqb (List.last (pre ++ long :: post) EmptyString)
                EmptyString) eqn:E; [ | reflexivity ].
    rewrite removelast_app by discriminate.
    destruct post as [ | y post ]; [ | reflexivity ].
    exfalso. rewrite last_last in E. apply String.eqb_eq in E. subst long.
    unfold MaxScanTokenSize in Hl. simpl in Hl. lia. }
  rewrite E, (scanned_long _ _ _ Hs Hl).
  apply map_dropCR_clean. exact Hc.
Qed.

Lemma tabs_written_rest (tabs : Z) :
  1 <= tabs -> tabs_written false tabs = Z.to_nat (Z.max 1 (tabs - 1)).
Proof.
  intros H. unfold tabs_written.
  destruct (Z.leb_spec tabs 0); [ lia | ].
  destruct (Z.eqb_spec tabs 1) as [-> | Hne]; [ reflexivity | ].
  f_equal. lia.
Qed.

Lemma indent_lines_rest (rest : list string) (tabs : Z) :
  1 <= tabs ->
  indent_lines false rest tabs
  = List.fold_right
      (fun l acc =>
         LF ++ strings.Repeat TAB (Z.to_nat (Z.max 1 (tabs - 1))) ++ l ++ acc)
      EmptyString rest.
Proof.
  intros H. induction rest as [ | l rest IH ]; [ reflexivity | ].
  cbn [indent_lines List.fold_right].
  rewrite (tabs_written_rest tabs H), IH. reflexivity.
Qed.

(** X15.  [indentMessageLines] puts [tabs] tabs before the first line of
    the message and, for [tabs] of two or more, one tab fewer before each
    further line (with one tab every line gets it), the lines being joined
    by newlines again; a newline at the end of the message adds no line,
    and the empty message stays empty.  This holds for lines of less than
    64 KiB: from a longer line on, the message is cut off. *)
Theorem X15_indentMessageLines :
  forall (first : string) (rest : list string) (tabs : Z),
    1 <= tabs ->
    forallb clean_line (first :: rest) = true ->
    forallb short_line (first :: rest) = true ->
    List.last (first :: rest) EmptyString <> EmptyString ->
    let indented :=
      strings.Repeat TAB (Z.to_nat tabs) ++ first
      ++ List.fold_right
           (fun l acc =>
              LF ++ strings.Repeat TAB (Z.to_nat (Z.max 1 (tabs - 1))) ++ l ++ acc)
           EmptyString rest in
    indentMessageLines (strings.Join (first :: rest) LF) tabs = indented
    /\ indentMessageLines (strings.Join ((first :: rest) ++ [EmptyString]) LF) tabs
       = indented
    /\ indentMessageLines EmptyString tabs = EmptyString
    /\ (forall (long : string) (post : list string),
           no_newline long = true ->
           MaxScanTokenSize <= Z.of_nat (String.length long) ->
           forallb no_newline post = true ->
           indentMessageLines
             (strings.Join ((first :: rest) ++ long :: post) LF) tabs = indented
           /\ indentMessageLines (strings.Join (long :: post) LF) tabs
              = EmptyString).
Proof.
  intros first rest tabs Ht Hc Hs Hlast indented.
  assert (Hnl : String.eqb (List.last (first :: rest) EmptyString) EmptyString
                = false) by (apply String.eqb_neq; exact Hlast).
  assert (Hind : indent_lines true (first :: rest) tabs = indented).
  { unfold indented. cbn [indent_lines].
    rewrite (indent_lines_rest rest tabs Ht). reflexivity. }
  split; [ | split; [ | split; [ reflexivity | ] ] ].
  - unfold indentMessageLines.
    rewrite scan_lines_Join; [ | discriminate | exact Hc | exact Hs ].
    rewrite Hnl. exact Hind.
  - unfold indentMessageLines.
    rewrite scan_lines_Join.
    + rewrite last_last, String.eqb_refl, removelast_last. exact Hind.
    + destruct rest; discriminate.
    + rewrite forallb_app, Hc. reflexivity.
    + rewrite forallb_app, Hs. reflexivity.
  - intros long post Hn Hl Hpost. split.
    + unfold indentMessageLines.
      rewrite (scan_lines_long (first :: rest) long post Hc Hs Hn Hl Hpost).
      exact Hind.
    + unfold indentMessageLines.
      pose proof (scan_lines_long [] long post eq_refl eq_refl Hn Hl Hpost)
        as E.
      change (([] ++ long :: post)%list) with (long :: post) in E.
      rewrite E. reflexivity.
Qed.

Lemma only_spaces_Repeat (n : nat) : only_spaces (strings.Repeat " " n) = true.
Proof. induction n as [ | n IH ]; simpl; [ reflexivity | exact IH ]. Qed.

Lemma only_spaces_getWhitespaceString (callerStack : list runtime.Frame) :
  only_spaces (getWhitespaceString callerStack) = true.
Proof.
  unfold getWhitespaceString.
  destruct (runtime.Caller callerStack 0); [ apply only_spaces_Repeat | reflexivity ].
Qed.

(** X16.  The one report of [Fail]: the padding is blank, the location is
    empty unless TESTIFY_PRINT_LOCATION is 1, the headline comes indented
    by two tabs, and the part for the messages is there exactly when the
    message is not empty.  The message is empty without message
    arguments, is the single argument as it stands, and is the first
    argument formatted with the others when there are several. *)
Theorem X16_Fail_report_text :
  forall (failureMessage : string) (msgAndArgs : list reflect.value)
         (t : TestingT),
    msgAndArgs_ok msgAndArgs = true -> env_ok = true ->
    (exists message padding location errorTrace,
        messageFromMsgAndArgs msgAndArgs = Ok message
        /\ only_spaces padding = true
        /\ (TESTIFY_PRINT_LOCATION env <> Some "1" -> location = EmptyString)
        /\ Fail failureMessage msgAndArgs t
           = (Ok false,
              (t ++ [match message with
                     | EmptyString =>
                         {| format := format_without_messages;
                            args := [go_string padding; go_string location;
                                     go_string errorTrace;
                                     go_string (indentMessageLines failureMessage 2)] |}
                     | _ =>
                         {| format := format_with_messages;
                            args := [go_string padding; go_string location;
                                     go_string errorTrace;
                                     go_string (indentMessageLines failureMessage 2);
                                     go_string message] |}
                     end])%list))
    /\ messageFromMsgAndArgs [] = Ok EmptyString
    /\ (forall m, messageFromMsgAndArgs [go_string m] = Ok m)
    /\ (forall f a rest,
           messageFromMsgAndArgs (go_string f :: a :: rest)
           = Ok (Sprintf f (a :: rest))).
Proof.
  intros failureMessage msgAndArgs t Hargs Henv.
  split; [ | repeat split ].
  unfold env_ok in Henv.
  assert (Hstack : frames_ok (stack env) = true).
  { simpl in Henv. apply andb_true_iff in Henv. apply Henv. }
  destruct (Fail_location_ok _ Hstack) as [loc Hloc].
  destruct (messageFromMsgAndArgs_ok _ Hargs) as [m Hm].
  destruct (CallerInfo_loop_ok _ Henv []) as [l Hl].
  exists m, (getWhitespaceString (stack env)),
    (if String.eqb match TESTIFY_PRINT_LOCATION env with
                   | Some v => v
                   | None => EmptyString
                   end "1"
     then loc else EmptyString),
    (strings.Join l (LF ++ CR ++ TAB ++ TAB ++ TAB)).
  split; [ exact Hm | ].
  split; [ apply only_spaces_getWhitespaceString | ].
  split.
  { intros Hne.
    destruct (TESTIFY_PRINT_LOCATION env) as [v | ]; [ | reflexivity ].
    destruct (String.eqb_spec v "1") as [-> | _]; [ | reflexivity ].
    contradiction Hne. reflexivity. }
  unfold Fail, bind, lift, CallerInfo. rewrite Hm, Hl.
  destruct (String.eqb match TESTIFY_PRINT_LOCATION env with
                       | Some v => v
                       | None => EmptyString
                       end "1"); rewrite ?Hloc;
    destruct m; reflexivity.
Qed.

(* ================================================================== *)
(** ** More about numeric closeness *)

Lemma toFloat_accepts (x : reflect.value) :
  snd (toFloat x) = true <->
  ((exists k n, x = reflect.VInt None k n
                /\ k <> reflect.KUint /\ k <> reflect.KUintptr)
   \/ (exists k f, x = reflect.VFloat None k f)).
Proof.
  split.
  - destruct x; simpl; intros H; try discriminate H;
      destruct nm; try discriminate H.
    + left. exists k, n. destruct k; try discriminate H;
        (split; [ reflexivity | split; discriminate ]).
    + right. exists k, f. reflexivity.
  - intros [(k & n & -> & Hk1 & Hk2) | (k & f & ->)].
    + destruct k; try reflexivity; contradiction.
    + destruct k; reflexivity.
Qed.

Lemma InEpsilon_not_numerical (expected actual : reflect.value)
  (epsilon : spec_float) (msgAndArgs : list reflect.value) (t : TestingT) :
  snd (toFloat expected) = false \/ snd (toFloat actual) = false ->
  calcEpsilonDelta expected actual epsilon = S754_zero false
  /\ InEpsilon expected actual epsilon msgAndArgs t
     = Fail (Sprintf "Parameters must be numerical" []) msgAndArgs t.
Proof.
  intros H. split.
  - unfold calcEpsilonDelta.
    destruct (toFloat expected) as [af aok], (toFloat actual) as [bf bok].
    simpl in H. destruct H as [-> | ->]; [ reflexivity | ].
    rewrite orb_true_r. reflexivity.
  - unfold InEpsilon. apply InDelta_not_numerical. exact H.
Qed.

(** X17.  [toFloat] accepts exactly the values of the predeclared types
    int, int8 to int64, uint8 to uint64, float32 and float64: a [uint], a
    [uintptr] and a number of a defined type such as [time.Duration] are
    not numeric for it, and [InDelta] and [InEpsilon] report on them that
    the parameters must be numerical, even for two equal operands. *)
Theorem X17_toFloat_accepts_eleven_types :
  (forall x,
      snd (toFloat x) = true <->
      ((exists k n, x = reflect.VInt None k n
                    /\ k <> reflect.KUint /\ k <> reflect.KUintptr)
       \/ (exists k f, x = reflect.VFloat None k f)))
  /\ (forall x actual delta msgAndArgs t,
         snd (toFloat x) = false ->
         InDelta x actual delta msgAndArgs t
         = Fail (Sprintf "Parameters must be numerical" []) msgAndArgs t
         /\ InEpsilon x actual delta msgAndArgs t
            = Fail (Sprintf "Parameters must be numerical" []) msgAndArgs t)
  /\ (forall n delta msgAndArgs t,
         fst (InDelta (reflect.VInt None reflect.KUint n)
                (reflect.VInt None reflect.KUint n) delta msgAndArgs t) <> Ok true)
  /\ (forall name k n delta msgAndArgs t,
         fst (InDelta (reflect.VInt (Some name) k n)
                (reflect.VInt (Some name) k n) delta msgAndArgs t) <> Ok true).
Proof.
  split; [ exact toFloat_accepts | ].
  split.
  { intros x actual delta msgAndArgs t H. split.
    - apply InDelta_not_numerical. left. exact H.
    - apply InEpsilon_not_numerical. left. exact H. }
  split.
  - intros n delta msgAndArgs t.
    rewrite InDelta_not_numerical by (left; reflexivity).
    apply Fail_never_true.
  - intros name k n delta msgAndArgs t.
    rewrite InDelta_not_numerical by (left; reflexivity).
    apply Fail_never_true.
Qed.

Lemma InDelta_verdict (expected actual : reflect.value) (delta : spec_float)
  (msgAndArgs : list reflect.value) (t : TestingT) :
  msgAndArgs_ok msgAndArgs = true -> env_ok = true ->
  verdict (InDelta expected actual delta msgAndArgs t) t.
Proof.
  intros Hargs Henv. unfold verdict, InDelta.
  destruct (toFloat expected) as [af aok], (toFloat actual) as [bf bok].
  repeat match goal with
         | |- context [if ?c then _ else _] => destruct c
         end;
    first [ left; reflexivity | right; apply Fail_ok; assumption ].
Qed.

Lemma InEpsilon_verdict (expected actual : reflect.value) (epsilon : spec_float)
  (msgAndArgs : list reflect.value) (t : TestingT) :
  msgAndArgs_ok msgAndArgs = true -> env_ok = true ->
  verdict (InEpsilon expected actual epsilon msgAndArgs t) t.
Proof. intros Hargs Henv. unfold InEpsilon. apply InDelta_verdict; assumption. Qed.

Lemma Index_slice_ok (nm : reflect.tyname) (e : reflect.rtype) (d : option nat)
  (es : list reflect.value) (i : nat) :
  (i < List.length es)%nat ->
  exists y, reflect.Index (reflect.VSlice nm e d es) (Z.of_nat i) = Ok y.
Proof.
  intros Hi. simpl.
  destruct (Z.ltb_spec (Z.of_nat i) 0); [ lia | ].
  destruct (Z.leb_spec (Z.of_nat (List.length es)) (Z.of_nat i)); [ lia | ].
  simpl. rewrite Nat2Z.id.
  destruct (nth_error es i) as [y | ] eqn:E.
  - exists y. reflexivity.
  - apply nth_error_None in E. lia.
Qed.

(** The loop of the slice assertions over an expected slice that is long
    enough: no panic, and at most one report, after which it stops. *)
Lemma slice_loop_verdict
  (check : reflect.value -> reflect.value -> spec_float ->
           list reflect.value -> M bool)
  (delta : spec_float)
  (Hcheck : forall x y t, verdict (check x y delta [] t) t)
  (nm nm' : reflect.tyname) (e e' : reflect.rtype) (d d' : option nat)
  (expected : list reflect.value) (xs : list reflect.value) :
  forall (pre : list reflect.value) (t : TestingT),
    (List.length pre + List.length xs <= List.length expected)%nat ->
    verdict
      (slice_loop check (reflect.VSlice nm e d (pre ++ xs)%list)
         (reflect.VSlice nm' e' d' expected) delta
         (List.length xs) (Z.of_nat (List.length pre)) t) t.
Proof.
  induction xs as [ | x xs IH ]; intros pre t Hlen.
  - left. reflexivity.
  - simpl List.length in Hlen.
    cbn [slice_loop List.length]. unfold bind at 1, lift at 1.
    rewrite (Index_sequence (reflect.VSlice nm e d (pre ++ x :: xs)%list)
               pre xs x)
      by (left; exists nm, e, d; reflexivity).
    unfold bind at 1, lift at 1.
    destruct (Index_slice_ok nm' e' d' expected (List.length pre)) as [y Hy];
      [ lia | ].
    rewrite Hy. unfold bind at 1.
    destruct (Hcheck (reflect.Value_Interface x) (reflect.Value_Interface y) t)
      as [Hc | [call Hc]]; rewrite Hc; simpl.
    + replace (Z.of_nat (List.length pre) + 1)
        with (Z.of_nat (List.length (pre ++ [x])%list))
        by (rewrite length_app; simpl; lia).
      replace (pre ++ x :: xs)%list with ((pre ++ [x]) ++ xs)%list
        by (rewrite <- app_assoc; reflexivity).
      apply IH. rewrite length_app. simpl. lia.
    + right. exists call. reflexivity.
Qed.

Lemma not_both_slices_slices (nm nm' : reflect.tyname) (e e' : reflect.rtype)
  (d d' : option nat) (es es' : list reflect.value) :
  not_both_slices (reflect.VSlice nm e d es) (reflect.VSlice nm' e' d' es')
  = Ok false.
Proof. destruct nm, nm'; reflexivity. Qed.

Lemma not_both_slices_guard (expected actual : reflect.value) :
  expected = reflect.VNil \/ actual = reflect.VNil
  \/ reflect.Value_Kind actual <> reflect.Slice
  \/ reflect.Value_Kind expected <> reflect.Slice ->
  not_both_slices expected actual = Ok true.
Proof.
  unfold not_both_slices, reflect.Value_Kind.
  intros [-> | [-> | [H | H]]].
  - reflexivity.
  - simpl. rewrite orb_true_r. reflexivity.
  - destruct expected; [ reflexivity | .. ];
      (destruct actual; [ reflexivity | .. ]);
      simpl in *; rewrite ?Value_Kind_named in *; simpl in *;
      try reflexivity;
      try (exfalso; apply H; reflexivity);
      match goal with
      | |- context [reflect.Kind_eqb ?k reflect.Slice] =>
          destruct (reflect.Kind_eqb k reflect.Slice) eqn:E;
          [ apply Kind_eqb_eq in E; contradiction | reflexivity ]
      end.
  - destruct expected; [ reflexivity | .. ];
      (destruct actual; [ reflexivity | .. ]);
      simpl in *; rewrite ?Value_Kind_named in *; simpl in *;
      try reflexivity;
      try (exfalso; apply H; reflexivity);
      repeat match goal with
      | |- context [reflect.Kind_eqb ?k reflect.Slice] =>
          destruct (reflect.Kind_eqb k reflect.Slice) eqn:?; simpl
      end; try reflexivity;
      match goal with
      | E : reflect.Kind_eqb _ reflect.Slice = true |- _ =>
          apply Kind_eqb_eq in E; contradiction
      end.
Qed.

Lemma Index_slice_nth (nm : reflect.tyname) (e : reflect.rtype) (d : option nat)
  (es : list reflect.value) (i : nat) (y : reflect.value) :
  nth_error es i = Some y ->
  reflect.Index (reflect.VSlice nm e d es) (Z.of_nat i) = Ok y.
Proof.
  intros H. simpl.
  assert (Hi : (i < List.length es)%nat) by (apply nth_error_Some; congruence).
  destruct (Z.ltb_spec (Z.of_nat i) 0); [ lia | ].
  destruct (Z.leb_spec (Z.of_nat (List.length es)) (Z.of_nat i)); [ lia | ].
  simpl. rewrite Nat2Z.id, H. reflexivity.
Qed.

(** The loop of the slice assertions passes over [k] pairs that the check
    accepts and goes on with the next index. *)
Lemma slice_loop_skip
  (check : reflect.value -> reflect.value -> spec_float ->
           list reflect.value -> M bool)
  (delta : spec_float)
  (nm nm' : reflect.tyname) (e e' : reflect.rtype) (d d' : option nat)
  (actual expected : list reflect.value) (t : TestingT) :
  forall (k i n : nat),
    (forall j x z,
        (i <= j < i + k)%nat ->
        nth_error actual j = Some x -> nth_error expected j = Some z ->
        check (reflect.Value_Interface x) (reflect.Value_Interface z) delta [] t
        = (Ok true, t)) ->
    (i + k <= List.length actual)%nat ->
    (i + k <= List.length expected)%nat ->
    slice_loop check (reflect.VSlice nm e d actual)
      (reflect.VSlice nm' e' d' expected) delta (k + n) (Z.of_nat i) t
    = slice_loop check (reflect.VSlice nm e d actual)
        (reflect.VSlice nm' e' d' expected) delta n (Z.of_nat (i + k)) t.
Proof.
  induction k as [ | k IH ]; intros i n Hpass Ha He.
  - rewrite Nat.add_0_r. reflexivity.
  - destruct (nth_error actual i) as [x | ] eqn:Ex;
      [ | apply nth_error_None in Ex; lia ].
    destruct (nth_error expected i) as [z | ] eqn:Ez;
      [ | apply nth_error_None in Ez; lia ].
    cbn [Nat.add slice_loop]. unfold bind at 1, lift at 1.
    rewrite (Index_slice_nth _ _ _ _ _ _ Ex).
    unfold bind at 1, lift at 1.
    rewrite (Index_slice_nth _ _ _ _ _ _ Ez).
    unfold bind at 1.
    rewrite (Hpass i x z) by (try lia; assumption).
    cbn [negb].
    replace (Z.of_nat i + 1) with (Z.of_nat (S i)) by lia.
    replace (i + S k)%nat with (S i + k)%nat by lia.
    apply IH.
    + intros j x' z' Hj. apply Hpass. lia.
    + lia.
    + lia.
Qed.

(** When every pair passes the loop returns true; otherwise its outcome is
    that of the check on the first pair that does not pass. *)
Lemma slice_loop_outcome
  (check : reflect.value -> reflect.value -> spec_float ->
           list reflect.value -> M bool)
  (delta : spec_float)
  (nm nm' : reflect.tyname) (e e' : reflect.rtype) (d d' : option nat)
  (actual expected : list reflect.value) (t : TestingT) :
  ((List.length actual <= List.length expected)%nat ->
   (forall j x z,
       nth_error actual j = Some x -> nth_error expected j = Some z ->
       check (reflect.Value_Interface x) (reflect.Value_Interface z) delta [] t
       = (Ok true, t)) ->
   slice_loop check (reflect.VSlice nm e d actual)
     (reflect.VSlice nm' e' d' expected) delta (List.length actual) 0 t
   = (Ok true, t))
  /\ (forall i a y,
         nth_error actual i = Some a -> nth_error expected i = Some y ->
         (forall j x z,
             (j < i)%nat ->
             nth_error actual j = Some x -> nth_error expected j = Some z ->
             check (reflect.Value_Interface x) (reflect.Value_Interface z)
               delta [] t = (Ok true, t)) ->
         fst (check (reflect.Value_Interface a) (reflect.Value_Interface y)
                delta [] t) <> Ok true ->
         slice_loop check (reflect.VSlice nm e d actual)
           (reflect.VSlice nm' e' d' expected) delta (List.length actual) 0 t
         = check (reflect.Value_Interface a) (reflect.Value_Interface y)
             delta [] t).
Proof.
  split.
  - intros Hlen Hpass.
    pose proof (slice_loop_skip check delta nm nm' e e' d d' actual expected t
                  (List.length actual) 0 0) as H.
    rewrite Nat.add_0_r in H. simpl Z.of_nat in H. rewrite H.
    + reflexivity.
    + intros j x z _. apply Hpass.
    + simpl. lia.
    + simpl. exact Hlen.
  - intros i a y Ha Hy Hpass Hfail.
    assert (Hi : (i < List.length actual)%nat)
      by (apply nth_error_Some; congruence).
    assert (Hi' : (i < List.length expected)%nat)
      by (apply nth_error_Some; congruence).
    pose proof (slice_loop_skip check delta nm nm' e e' d d' actual expected t
                  i 0 (List.length actual - i)) as H.
    replace (i + (List.length actual - i))%nat with (List.length actual) in H
      by lia.
    simpl Z.of_nat in H. rewrite H; [ | | simpl; lia | simpl; lia ].
    2: { intros j x z Hj. apply Hpass. simpl in Hj. lia. }
    simpl Nat.add.
    destruct (List.length actual - i)%nat as [ | n ] eqn:En; [ lia | ].
    cbn [slice_loop]. unfold bind at 1, lift at 1.
    rewrite (Index_slice_nth _ _ _ _ _ _ Ha).
    unfold bind at 1, lift at 1.
    rewrite (Index_slice_nth _ _ _ _ _ _ Hy).
    unfold bind at 1.
    destruct (check (reflect.Value_Interface a) (reflect.Value_Interface y)
                delta [] t) as [[[ | ] | msg] t'];
      [ exfalso; apply Hfail; reflexivity | reflexivity | reflexivity ].
Qed.

(** X18.  [InDeltaSlice] and [InEpsilonSlice] report that the parameters
    must be slices when an operand is nil or no slice.  On two slices they
    call [InDelta] (or [InEpsilon]) on the pairs of elements in order, the
    element of the actual slice first and without the message arguments:
    when every pair passes they return true without a report, and
    otherwise their outcome is that of the check on the first pair that
    does not pass, later pairs not being looked at.  On two slices of
    which the expected one is at least as long as the actual one they do
    not panic.  Only the indices of the actual slice are visited: against
    an empty actual slice every expected slice passes. *)
Theorem X18_slice_assertions :
  forall (delta : spec_float) (msgAndArgs : list reflect.value) (t : TestingT),
    msgAndArgs_ok msgAndArgs = true -> env_ok = true ->
    (forall expected actual,
        expected = reflect.VNil \/ actual = reflect.VNil
        \/ reflect.Value_Kind actual <> reflect.Slice
        \/ reflect.Value_Kind expected <> reflect.Slice ->
        InDeltaSlice expected actual delta msgAndArgs t
        = Fail (Sprintf "Parameters must be slice" []) msgAndArgs t
        /\ InEpsilonSlice expected actual delta msgAndArgs t
           = Fail (Sprintf "Parameters must be slice" []) msgAndArgs t)
    /\ (forall nm e d es nm' e' d' es',
           (List.length es' <= List.length es)%nat ->
           ((forall j x z,
                nth_error es' j = Some x -> nth_error es j = Some z ->
                InDelta (reflect.Value_Interface x) (reflect.Value_Interface z)
                  delta [] t = (Ok true, t)) ->
            InDeltaSlice (reflect.VSlice nm e d es) (reflect.VSlice nm' e' d' es')
              delta msgAndArgs t = (Ok true, t))
           /\ ((forall j x z,
                   nth_error es' j = Some x -> nth_error es j = Some z ->
                   InEpsilon (reflect.Value_Interface x)
                     (reflect.Value_Interface z) delta [] t = (Ok true, t)) ->
               InEpsilonSlice (reflect.VSlice nm e d es)
                 (reflect.VSlice nm' e' d' es') delta msgAndArgs t = (Ok true, t)))
    /\ (forall nm e d es nm' e' d' es' i a y,
           nth_error es' i = Some a -> nth_error es i = Some y ->
           ((forall j x z,
                (j < i)%nat ->
                nth_error es' j = Some x -> nth_error es j = Some z ->
                InDelta (reflect.Value_Interface x) (reflect.Value_Interface z)
                  delta [] t = (Ok true, t)) ->
            fst (InDelta (reflect.Value_Interface a) (reflect.Value_Interface y)
                   delta [] t) <> Ok true ->
            InDeltaSlice (reflect.VSlice nm e d es) (reflect.VSlice nm' e' d' es')
              delta msgAndArgs t
            = InDelta (reflect.Value_Interface a) (reflect.Value_Interface y)
                delta [] t)
           /\ ((forall j x z,
                   (j < i)%nat ->
                   nth_error es' j = Some x -> nth_error es j = Some z ->
                   InEpsilon (reflect.Value_Interface x)
                     (reflect.Value_Interface z) delta [] t = (Ok true, t)) ->
               fst (InEpsilon (reflect.Value_Interface a)
                      (reflect.Value_Interface y) delta [] t) <> Ok true ->
               InEpsilonSlice (reflect.VSlice nm e d es)
                 (reflect.VSlice nm' e' d' es') delta msgAndArgs t
               = InEpsilon (reflect.Value_Interface a)
                   (reflect.Value_Interface y) delta [] t))
    /\ (forall nm e d es nm' e' d' es',
           (List.length es' <= List.length es)%nat ->
           verdict (InDeltaSlice (reflect.VSlice nm e d es)
                      (reflect.VSlice nm' e' d' es') delta msgAndArgs t) t
           /\ verdict (InEpsilonSlice (reflect.VSlice nm e d es)
                         (reflect.VSlice nm' e' d' es') delta msgAndArgs t) t)
    /\ (forall nm e d es nm' e' d',
           InDeltaSlice (reflect.VSlice nm e d es) (reflect.VSlice nm' e' d' [])
             delta msgAndArgs t = (Ok true, t)
           /\ InEpsilonSlice (reflect.VSlice nm e d es)
                (reflect.VSlice nm' e' d' []) delta msgAndArgs t = (Ok true, t)).
Proof.
  intros delta msgAndArgs t Hargs Henv.
  assert (Hd : forall nm e d es nm' e' d' es',
             InDeltaSlice (reflect.VSlice nm e d es)
               (reflect.VSlice nm' e' d' es') delta msgAndArgs t
             = slice_loop InDelta (reflect.VSlice nm' e' d' es')
                 (reflect.VSlice nm e d es) delta (List.length es') 0 t).
  { intros. unfold InDeltaSlice, bind, lift.
    rewrite not_both_slices_slices. simpl. rewrite Nat2Z.id. reflexivity. }
  assert (He : forall nm e d es nm' e' d' es',
             InEpsilonSlice (reflect.VSlice nm e d es)
               (reflect.VSlice nm' e' d' es') delta msgAndArgs t
             = slice_loop InEpsilon (reflect.VSlice nm' e' d' es')
                 (reflect.VSlice nm e d es) delta (List.length es') 0 t).
  { intros. unfold InEpsilonSlice, bind, lift.
    rewrite not_both_slices_slices. simpl. rewrite Nat2Z.id. reflexivity. }
  split; [ | split; [ | split; [ | split ] ] ].
  - intros expected actual H.
    unfold InDeltaSlice, InEpsilonSlice, bind, lift.
    rewrite (not_both_slices_guard expected actual H). split; reflexivity.
  - intros nm e d es nm' e' d' es' Hlen. rewrite Hd, He. split; intros Hpass.
    + apply (proj1 (slice_loop_outcome InDelta delta nm' nm e' e d' d es' es t));
        assumption.
    + apply (proj1 (slice_loop_outcome InEpsilon delta nm' nm e' e d' d es' es t));
        assumption.
  - intros nm e d es nm' e' d' es' i a y Ha Hy. rewrite Hd, He.
    split; intros Hpass Hfail.
    + apply (proj2 (slice_loop_outcome InDelta delta nm' nm e' e d' d es' es t)
               i a y); assumption.
    + apply (proj2 (slice_loop_outcome InEpsilon delta nm' nm e' e d' d es' es t)
               i a y); assumption.
  - intros nm e d es nm' e' d' es' Hlen. rewrite Hd, He.
    split.
    + apply (slice_loop_verdict InDelta delta
               (fun x y t0 => InDelta_verdict x y delta [] t0 eq_refl Henv)
               nm' nm e' e d' d es es' [] t).
      simpl. exact Hlen.
    + apply (slice_loop_verdict InEpsilon delta
               (fun x y t0 => InEpsilon_verdict x y delta [] t0 eq_refl Henv)
               nm' nm e' e d' d es es' [] t).
      simpl. exact Hlen.
  - intros nm e d es nm' e' d'. rewrite Hd, He. split; reflexivity.
Qed.

Lemma wrap_int64_neg (delta : Z) :
  - 2 ^ 63 < delta < 2 ^ 63 ->
  reflect.wrap_int reflect.KInt64 (- delta) = - delta.
Proof.
  intros H. unfold reflect.wrap_int.
  change (reflect.int_signed reflect.KInt64) with true.
  change (2 ^ reflect.int_bits reflect.KInt64) with 18446744073709551616.
  change (2 ^ 63) with 9223372036854775808 in H.
  change (18446744073709551616 / 2) with 9223372036854775808.
  cbv iota beta zeta.
  rewrite Z.mod_small by lia. lia.
Qed.

(** X19.  For a tolerance other than the smallest int64, [WithinDuration]
    succeeds, without reporting, exactly when the difference of the two
    times is at most the tolerance in absolute value; with a negative
    tolerance it never succeeds. *)
Theorem X19_WithinDuration :
  forall expected actual delta msgAndArgs t,
    - 2 ^ 63 < delta < 2 ^ 63 ->
    (WithinDuration expected actual delta msgAndArgs t = (Ok true, t)
     <-> Z.abs (time_Sub expected actual) <= delta)
    /\ (fst (WithinDuration expected actual delta msgAndArgs t) = Ok true
        <-> Z.abs (time_Sub expected actual) <= delta)
    /\ (delta < 0 ->
        fst (WithinDuration expected actual delta msgAndArgs t) <> Ok true).
Proof.
  intros expected actual delta msgAndArgs t Hd.
  assert (Hfst : fst (WithinDuration expected actual delta msgAndArgs t) = Ok true
                 <-> Z.abs (time_Sub expected actual) <= delta).
  { unfold WithinDuration. rewrite (wrap_int64_neg delta Hd).
    destruct (Z.ltb_spec (time_Sub expected actual) (- delta)) as [H1 | H1];
      destruct (Z.ltb_spec delta (time_Sub expected actual)) as [H2 | H2]; simpl;
      (split;
       [ intros H; try (exfalso; revert H; apply Fail_never_true); lia
       | intros H; try reflexivity; exfalso; lia ]). }
  split; [ | split; [ exact Hfst | ] ].
  - split.
    + intros H. apply Hfst. rewrite H. reflexivity.
    + intros H. unfold WithinDuration. rewrite (wrap_int64_neg delta Hd).
      destruct (Z.ltb_spec (time_Sub expected actual) (- delta)) as [H1 | H1];
        [ exfalso; lia | ].
      destruct (Z.ltb_spec delta (time_Sub expected actual)) as [H2 | H2];
        [ exfalso; lia | reflexivity ].
  - intros Hneg H. apply Hfst in H. lia.
Qed.

(* ================================================================== *)
(** ** The location line *)

Lemma Fail_location_library (pre : list runtime.Frame) :
  forallb in_library pre = true ->
  forall rest, Fail_location (pre ++ rest)%list = Fail_location rest.
Proof.
  induction pre as [ | fr pre IH ]; intros H rest; [ reflexivity | ].
  simpl in H. apply andb_true_iff in H. destruct H as [Hfr Hpre].
  unfold in_library in Hfr. simpl.
  destruct (from_end (strings.Split (runtime.file fr) "/"%char) 2) as [dir | msg];
    [ | discriminate Hfr ].
  simpl.
  destruct (String.eqb dir "assert"), (String.eqb dir "mock"),
    (String.eqb dir "require"); simpl in *;
    try discriminate Hfr; apply IH; exact Hpre.
Qed.

Lemma from_end_no_dir (file : string) :
  has_dir file = false ->
  exists msg, from_end (strings.Split file "/"%char) 2 = Panic msg.
Proof.
  unfold has_dir, from_end, index_or_panic. intros H.
  apply Z.leb_gt in H.
  pose proof (Split_nonempty file "/"%char) as Hn.
  destruct (Z.ltb_spec
              (Z.of_nat (List.length (strings.Split file "/"%char)) - 2) 0);
    [ eexists; reflexivity | lia ].
Qed.

(** X20.  The location line [Fail] looks for when TESTIFY_PRINT_LOCATION
    is 1 is that of the first frame whose directory is none of assert,
    mock and require, and it is empty when the stack holds library frames
    only; a frame met before whose file name has no directory part, an
    autogenerated one for instance, makes the search panic, and [Fail]
    with it, before anything is reported. *)
Theorem X20_Fail_location :
  forall (pre : list runtime.Frame) (fr : runtime.Frame)
         (post : list runtime.Frame),
    forallb in_library pre = true ->
    (has_dir (runtime.file fr) = true -> in_library fr = false ->
     Fail_location (pre ++ fr :: post)%list
     = Ok (Sprintf ("%s:%d:0" ++ LF)
             [go_string (runtime.file fr); go_int (runtime.line fr)]))
    /\ Fail_location pre = Ok EmptyString
    /\ (has_dir (runtime.file fr) = false ->
        (exists msg, Fail_location (pre ++ fr :: post)%list = Panic msg)
        /\ (TESTIFY_PRINT_LOCATION env = Some "1" ->
            stack env = (pre ++ fr :: post)%list ->
            forall failureMessage msgAndArgs t,
            exists msg, Fail failureMessage msgAndArgs t = (Panic msg, t))).
Proof.
  intros pre fr post Hpre.
  split; [ | split ].
  - intros Hdir Hout. rewrite (Fail_location_library pre Hpre). simpl.
    unfold in_library in Hout.
    destruct (from_end_dir_ok _ Hdir) as [dir Hd]. rewrite Hd in *. simpl.
    destruct (String.eqb dir "assert"), (String.eqb dir "mock"),
      (String.eqb dir "require"); simpl in *;
      try discriminate Hout; reflexivity.
  - pose proof (Fail_location_library pre Hpre []) as E.
    rewrite app_nil_r in E. rewrite E. reflexivity.
  - intros Hdir.
    assert (P : exists msg, Fail_location (pre ++ fr :: post)%list = Panic msg).
    { rewrite (Fail_location_library pre Hpre). simpl.
      destruct (from_end_no_dir _ Hdir) as [msg Hm]. rewrite Hm.
      exists msg. reflexivity. }
    split; [ exact P | ].
    intros Hvar Hstack failureMessage msgAndArgs t.
    destruct P as [msg P]. exists msg.
    unfold Fail, bind, lift. rewrite Hvar, Hstack. simpl String.eqb.
    cbv iota. rewrite P. reflexivity.
Qed.

(* ================================================================== *)
(** ** More about emptiness and the diff *)

(** X21.  What [isEmpty] never takes for empty: a struct, an array (even
    of length zero), a function (even nil), and the zero of a defined
    boolean, string or integer type; a string or boolean of the
    predeclared type is empty exactly when it is the empty string or
    false. *)
Theorem X21_isEmpty_never_empty :
  (forall nm fs vs, isEmpty (reflect.VStruct nm fs vs) = Ok false)
  /\ (forall nm e es, isEmpty (reflect.VArray nm e es) = Ok false)
  /\ (forall nm sig code, isEmpty (reflect.VFunc nm sig code) = Ok false)
  /\ (forall name b, isEmpty (reflect.VBool (Some name) b) = Ok false)
  /\ (forall name s, isEmpty (reflect.VString (Some name) s) = Ok false)
  /\ (forall name k n, isEmpty (reflect.VInt (Some name) k n) = Ok false)
  /\ (forall s, isEmpty (go_string s) = Ok (String.eqb s EmptyString))
  /\ (forall b, isEmpty (go_bool b) = Ok (negb b)).
Proof.
  split; [ intros nm fs vs; destruct nm; reflexivity | ].
  split; [ intros nm e es; destruct nm; reflexivity | ].
  split; [ intros nm sig code; destruct nm; reflexivity | ].
  split; [ intros name b; reflexivity | ].
  split; [ intros name s; reflexivity | ].
  split; [ intros name k n; destruct k; reflexivity | ].
  split.
  - intros s. unfold isEmpty. simpl.
    destruct (String.eqb s EmptyString); reflexivity.
  - intros b. destruct b; reflexivity.
Qed.

Lemma typeAndKind_pointer (nm : reflect.tyname) (e : reflect.rtype)
  (tg : option (nat * reflect.value)) :
  typeAndKind (reflect.VPtr nm e tg) = Ok (e, reflect.kindOf e).
Proof. destruct nm; reflexivity. Qed.

(** X22.  [typeAndKind] looks through one pointer, so [diff] compares a
    value of a composite type with a pointer to such a value as if both
    were values: the text is not empty, although the two, having
    different types, are never strictly equal.  A pointer to a pointer
    counts as a scalar: no diff. *)
Theorem X22_diff_looks_through_one_pointer :
  forall (nm : reflect.tyname) (tg : option (nat * reflect.value))
         (v : reflect.value) (ty : reflect.rtype),
    reflect.TypeOf v = Some ty ->
    reflect.kindOf ty <> reflect.Ptr ->
    (composite (reflect.kindOf ty) = true ->
     (exists text,
         diff (reflect.VPtr nm ty tg) v = Ok text /\ text <> EmptyString)
     /\ (exists text,
            diff v (reflect.VPtr nm ty tg) = Ok text /\ text <> EmptyString))
    /\ ObjectsAreEqual (reflect.VPtr None ty tg) v = Ok false
    /\ (forall nm' tg',
           diff (reflect.VPtr nm (reflect.TPtr ty) tg)
             (reflect.VPtr nm' (reflect.TPtr ty) tg') = Ok EmptyString).
Proof.
  intros nm tg v ty Hty Hk.
  assert (Hv : v <> reflect.VNil) by (intros ->; discriminate Hty).
  assert (Hp : forall n g, reflect.VPtr n ty g <> reflect.VNil) by discriminate.
  assert (Tv : deref_type v = Some ty).
  { destruct v; try exact Hty.
    exfalso. apply Hk. simpl in Hty. injection Hty as <-.
    destruct nm0; reflexivity. }
  split; [ | split ].
  - intros Hc. split.
    + rewrite diff_unfold by auto.
      unfold deref_kind. rewrite Tv.
      change (deref_type (reflect.VPtr nm ty tg)) with (Some ty).
      rewrite Type_eqb_refl, Hc. simpl.
      eexists. split; [ reflexivity | discriminate ].
    + rewrite diff_unfold by auto.
      unfold deref_kind. rewrite Tv.
      change (deref_type (reflect.VPtr nm ty tg)) with (Some ty).
      rewrite Type_eqb_refl, Hc. simpl.
      eexists. split; [ reflexivity | discriminate ].
  - rewrite ObjectsAreEqual_DeepEqual. f_equal.
    destruct (reflect.DeepEqual (reflect.VPtr None ty tg) v) eqn:E;
      [ | reflexivity ].
    apply DeepEqual_same_type in E. rewrite Hty in E. simpl in E.
    injection E as E. exfalso. apply Hk. rewrite <- E. reflexivity.
  - intros nm' tg'. rewrite diff_unfold by discriminate.
    unfold deref_kind. simpl. rewrite andb_false_r. reflexivity.
Qed.

(* ================================================================== *)
(** ** When [Fail] can write its report *)



(** File names with a directory part throughout are more than the walks
    need. *)
Lemma frames_ok_walks (frames : list runtime.Frame) :
  frames_ok frames = true ->
  location_walk_ok frames = true /\ trace_walk_ok frames = true.
Proof.
  induction frames as [ | fr rest IH ]; simpl; intros H; [ split; reflexivity | ].
  apply andb_true_iff in H. destruct H as [Hfr Hrest].
  destruct (IH Hrest) as [H1 H2]. rewrite Hfr, H1, H2. simpl.
  split.
  - apply orb_true_r.
  - destruct (String.eqb (runtime.file fr) "<autogenerated>"); simpl;
      [ reflexivity | ].
    destruct (runtime.func fr); [ apply orb_true_r | reflexivity ].
Qed.

Lemma env_ok_walks_ok : env_ok = true -> walks_ok = true.
Proof.
  unfold env_ok, walks_ok. intros H.
  destruct (frames_ok_walks _ H) as [_ H2]. rewrite H2.
  simpl in H. apply andb_true_iff in H. destruct H as [_ H].
  destruct (frames_ok_walks _ H) as [H1 _]. rewrite H1.
  destruct (String.eqb _ "1"); reflexivity.
Qed.


End Assert.

(* ================================================================== *)
(** ** The theorems at the sample inputs *)



Lemma C1_witness :
  msgAndArgs_ok [go_string "int32 must not equal int64"] = true
  /\ env_ok sample.env = true
  /\ fst (Exactly sample.Sprintf sample.IsLower sample.Sdump
            sample.GetUnifiedDiffString sample.env
            sample.int32_5 sample.int64_5
            [go_string "int32 must not equal int64"] []) = Ok false.
Proof.
  split; [ reflexivity | ]. split; [ reflexivity | ].
  destruct (C1_value_equality_converts_expected_to_actual
              sample.Sprintf sample.IsLower sample.Sdump
              sample.GetUnifiedDiffString sample.env) as (_ & H & _).
  destruct (H [go_string "int32 must not equal int64"] []) as (_ & _ & K).
  apply K; reflexivity.
Defined.

Lemma C4_witness :
  (fst (InDelta sample.Sprintf sample.IsLower sample.env
          (go_float64 sample.f_3_14159) (go_float64 sample.f_22_7)
          sample.f_0_01 [] []) = Ok true
   <-> float64.leb
         (float64.abs (float64.sub sample.f_3_14159 sample.f_22_7))
         sample.f_0_01 = true)
  /\ InDelta sample.Sprintf sample.IsLower sample.env
       (go_string "three") (go_float64 sample.f_3_0) sample.f_0_01 [] []
     = Fail sample.Sprintf sample.IsLower sample.env
         (sample.Sprintf "Parameters must be numerical" []) [] []
  /\ fst (InDelta sample.Sprintf sample.IsLower sample.env
            (go_float64 float64.NaN) (go_float64 sample.f_3_0) sample.f_0_01
            [] []) <> Ok true.
Proof.
  split; [ | split ].
  - destruct (C4_InDelta_within_tolerance sample.Sprintf sample.IsLower
                sample.env
                (go_float64 sample.f_3_14159) (go_float64 sample.f_22_7)
                sample.f_0_01 [] []) as (_ & _ & H & _).
    destruct (H eq_refl eq_refl eq_refl eq_refl) as (_ & _ & K).
    apply K; reflexivity.
  - destruct (C4_InDelta_within_tolerance sample.Sprintf sample.IsLower
                sample.env (go_string "three") (go_float64 sample.f_3_0)
                sample.f_0_01 [] []) as (H & _).
    apply H. left. reflexivity.
  - destruct (C4_InDelta_within_tolerance sample.Sprintf sample.IsLower
                sample.env (go_float64 float64.NaN) (go_float64 sample.f_3_0)
                sample.f_0_01 [] []) as (_ & H & _).
    apply H; [ reflexivity | reflexivity | left; reflexivity ].
Defined.


Lemma C6_witness :
  reflect.IntKind_eqb reflect.KInt8 reflect.KUintptr = false
  /\ isEmpty sample.time_Time sample.time_IsZero
       (reflect.VInt None reflect.KInt8 0) = Ok true.
Proof.
  split; [ reflexivity | ].
  destruct (C6_isEmpty_of_zero_values sample.time_Time sample.time_IsZero)
    as (_ & _ & _ & H & _).
  apply H. reflexivity.
Defined.




Lemma C9_witness :
  is_scalar (go_int 0) = true
  /\ NotNil sample.Sprintf sample.IsLower sample.env (go_int 0) [] []
     = (Ok true, [])
  /\ exists call,
       Nil sample.Sprintf sample.IsLower sample.env (go_int 0) [] []
       = (Ok false, [call]).
Proof.
  split; [ reflexivity | ].
  destruct (C9_isNil_only_nil_interface_or_nil_reference
              sample.Sprintf sample.IsLower sample.time_Time sample.time_IsZero
              sample.env) as (_ & _ & H & _).
  destruct (H (go_int 0) [] [] eq_refl) as (HN & _ & _ & K).
  split; [ exact HN | ].
  apply K; reflexivity.
Defined.

Lemma C10_witness :
  reflect.kindOf sample.time_Time = reflect.Struct
  /\ isEmpty sample.time_Time sample.time_IsZero
       (sample.ptr_to_time 8 (sample.a_time 0 0)) = Ok true
  /\ isEmpty sample.time_Time sample.time_IsZero
       (sample.ptr_to_time 8 (sample.a_time 1136214245 0)) = Ok false
  /\ isEmpty sample.time_Time sample.time_IsZero
       (reflect.VPtr None reflect.TString (Some (9%nat, go_string EmptyString)))
     = Ok false.
Proof.
  split; [ reflexivity | ].
  destruct (C10_isEmpty_looks_through_time_pointers_only
              sample.time_Time sample.time_IsZero eq_refl)
    as (Ht & Hother & _).
  split; [ apply (Ht 8%nat (sample.a_time 0 0)) | ].
  split; [ apply (Ht 8%nat (sample.a_time 1136214245 0)) | ].
  apply Hother. discriminate.
Defined.

(* ================================================================== *)
(** ** Where the claims as first stated fail *)

(** C3 as stated.  A non-nil function value bears no NaN and yet is not
    strictly equal to itself. *)
Lemma C3_counterexample_function_value :
  bears_NaN sample.some_func = false
  /\ ObjectsAreEqual sample.some_func sample.some_func = Ok false
  /\ ~ (forall v, bears_NaN v = false -> ObjectsAreEqual v v = Ok true).
Proof.
  split; [ reflexivity | ]. split; [ reflexivity | ].
  intros H. specialize (H sample.some_func eq_refl). discriminate H.
Qed.

(** C4 as stated.  With a NaN tolerance [InDelta(1.0, 2.0, NaN)] succeeds,
    although [|1 - 2| <= NaN] does not hold. *)
Lemma C4_counterexample_NaN_delta :
  InDelta sample.Sprintf sample.IsLower sample.env
    (go_float64 (float64.of_Z 1)) (go_float64 (float64.of_Z 2)) float64.NaN [] []
  = (Ok true, [])
  /\ float64.leb
       (float64.abs (float64.sub (float64.of_Z 1) (float64.of_Z 2)))
       float64.NaN = false
  /\ ~ (forall expected actual delta,
           snd (toFloat expected) = true -> snd (toFloat actual) = true ->
           float64.IsNaN (fst (toFloat expected)) = false ->
           float64.IsNaN (fst (toFloat actual)) = false ->
           (fst (InDelta sample.Sprintf sample.IsLower sample.env
                   expected actual delta [] []) = Ok true
            <-> float64.leb
                  (float64.abs (float64.sub (fst (toFloat expected))
                                  (fst (toFloat actual))))
                  delta = true)).
Proof.
  split; [ reflexivity | ]. split; [ reflexivity | ].
  intros H.
  specialize (H (go_float64 (float64.of_Z 1)) (go_float64 (float64.of_Z 2))
                float64.NaN eq_refl eq_refl eq_refl eq_refl).
  destruct H as [H _]. specialize (H eq_refl). discriminate H.
Qed.


(** C6 as stated.  [uintptr(0)] is a numeric zero and is not empty; nor
    are [complex128(0)] and [time.Duration(0)]. *)
Lemma C6_counterexample_uintptr_zero :
  is_numeric_kind (reflect.Value_Kind sample.uintptr_0) = true
  /\ sample.uintptr_0 = reflect.VInt None reflect.KUintptr 0
  /\ isEmpty sample.time_Time sample.time_IsZero sample.uintptr_0 = Ok false
  /\ isEmpty sample.time_Time sample.time_IsZero sample.complex128_0 = Ok false
  /\ isEmpty sample.time_Time sample.time_IsZero sample.duration_0 = Ok false
  /\ ~ (forall k, isEmpty sample.time_Time sample.time_IsZero
                    (reflect.VInt None k 0) = Ok true).
Proof.
  repeat (split; [ reflexivity | ]).
  intros H. specialize (H reflect.KUintptr). discriminate H.
Qed.



(* ================================================================== *)
(** ** The further properties at the sample inputs *)

Lemma X1_witness :
  reflect.TypeOf sample.int_42 = reflect.TypeOf (go_int 42)
  /\ ObjectsAreEqual sample.int32_5 reflect.VNil <> Ok true.
Proof.
  destruct X1_ObjectsAreEqual_needs_the_same_type as (H & _ & Hn & _).
  split.
  - apply H. reflexivity.
  - intros E. apply Hn in E. discriminate E.
Defined.

Lemma X2_witness :
  (Equal sample.Sprintf sample.IsLower sample.Sdump sample.GetUnifiedDiffString
     sample.env sample.int_42 (go_int 42) [] [] = (Ok true, [])
   /\ exists call,
        NotEqual sample.Sprintf sample.IsLower sample.env
          sample.int_42 (go_int 42) [] [] = (Ok false, [call]))
  /\ (NotEqual sample.Sprintf sample.IsLower sample.env
        sample.int32_5 sample.int64_5 [] [] = (Ok true, [])
      /\ exists call,
           Equal sample.Sprintf sample.IsLower sample.Sdump
             sample.GetUnifiedDiffString sample.env
             sample.int32_5 sample.int64_5 [] [] = (Ok false, [call])).
Proof.
  split.
  - destruct (X2_Equal_and_NotEqual_are_complementary
                sample.Sprintf sample.IsLower sample.Sdump
                sample.GetUnifiedDiffString sample.env
                sample.int_42 (go_int 42) [] [] eq_refl eq_refl) as [H _].
    apply H. reflexivity.
  - destruct (X2_Equal_and_NotEqual_are_complementary
                sample.Sprintf sample.IsLower sample.Sdump
                sample.GetUnifiedDiffString sample.env
                sample.int32_5 sample.int64_5 [] [] eq_refl eq_refl) as [_ H].
    apply H. reflexivity.
Defined.

Lemma X3_witness :
  EqualValues sample.Sprintf sample.IsLower sample.env
    sample.int_42 (go_int 42) [] [] = (Ok true, []).
Proof.
  destruct (X3_Exactly_Equal_EqualValues
              sample.Sprintf sample.IsLower sample.Sdump
              sample.GetUnifiedDiffString sample.env
              sample.int_42 (go_int 42) [] []) as [_ H].
  apply H. reflexivity.
Defined.

Lemma X4_witness :
  ObjectsAreEqualValues sample.int64_300 sample.uint8_44 = Ok true
  /\ ObjectsAreEqualValues sample.int_42 reflect.VNil <> Ok true.
Proof.
  destruct X4_ObjectsAreEqualValues_on_integers as (H & Hn & _).
  split.
  - unfold sample.int64_300, sample.uint8_44. rewrite H. reflexivity.
  - intros E. apply Hn in E. discriminate E.
Defined.

Lemma X5_witness :
  (Nil sample.Sprintf sample.IsLower sample.env reflect.VNil [] [] = (Ok true, [])
   /\ exists call,
        NotNil sample.Sprintf sample.IsLower sample.env reflect.VNil [] []
        = (Ok false, [call]))
  /\ (NotNil sample.Sprintf sample.IsLower sample.env sample.int_42 [] []
      = (Ok true, [])
      /\ exists call,
           Nil sample.Sprintf sample.IsLower sample.env sample.int_42 [] []
           = (Ok false, [call])).
Proof.
  split.
  - destruct (X5_Nil_and_NotNil_are_complementary
                sample.Sprintf sample.IsLower sample.env reflect.VNil [] []
                eq_refl eq_refl) as (H & _).
    apply H. reflexivity.
  - destruct (X5_Nil_and_NotNil_are_complementary
                sample.Sprintf sample.IsLower sample.env sample.int_42 [] []
                eq_refl eq_refl) as (_ & H & _).
    apply H. reflexivity.
Defined.

Lemma X6_witness :
  (Empty sample.Sprintf sample.IsLower sample.time_Time sample.time_IsZero
     sample.env (go_string EmptyString) [] [] = (Ok true, [])
   /\ exists call,
        NotEmpty sample.Sprintf sample.IsLower sample.time_Time
          sample.time_IsZero sample.env (go_string EmptyString) [] []
        = (Ok false, [call]))
  /\ (NotEmpty sample.Sprintf sample.IsLower sample.time_Time sample.time_IsZero
        sample.env sample.int_42 [] [] = (Ok true, [])
      /\ exists call,
           Empty sample.Sprintf sample.IsLower sample.time_Time
             sample.time_IsZero sample.env sample.int_42 [] []
           = (Ok false, [call])).
Proof.
  split.
  - destruct (X6_Empty_and_NotEmpty_are_complementary
                sample.Sprintf sample.IsLower sample.time_Time sample.time_IsZero
                sample.env (go_string EmptyString) [] [] eq_refl eq_refl)
      as [H _].
    apply H. reflexivity.
  - destruct (X6_Empty_and_NotEmpty_are_complementary
                sample.Sprintf sample.IsLower sample.time_Time sample.time_IsZero
                sample.env sample.int_42 [] [] eq_refl eq_refl) as [_ H].
    apply H. reflexivity.
Defined.

Lemma X7_witness :
  ((exists call,
       Contains sample.Sprintf sample.IsLower sample.env
         sample.int_42 (go_int 4) [] [] = (Ok false, [call]))
   /\ (exists call,
          NotContains sample.Sprintf sample.IsLower sample.env
            sample.int_42 (go_int 4) [] [] = (Ok false, [call])))
  /\ (Contains sample.Sprintf sample.IsLower sample.env
        sample.hello_world_slice (go_string "World") [] [] = (Ok true, [])
      /\ exists call,
           NotContains sample.Sprintf sample.IsLower sample.env
             sample.hello_world_slice (go_string "World") [] []
           = (Ok false, [call]))
  /\ (NotContains sample.Sprintf sample.IsLower sample.env
        sample.hello_world_slice (go_string "Earth") [] [] = (Ok true, [])
      /\ exists call,
           Contains sample.Sprintf sample.IsLower sample.env
             sample.hello_world_slice (go_string "Earth") [] []
           = (Ok false, [call])).
Proof.
  split; [ | split ].
  - destruct (X7_Contains_and_NotContains sample.Sprintf sample.IsLower
                sample.env sample.int_42 (go_int 4) [] [] eq_refl eq_refl)
      as (H & _).
    apply H. reflexivity.
  - destruct (X7_Contains_and_NotContains sample.Sprintf sample.IsLower
                sample.env sample.hello_world_slice (go_string "World") [] []
                eq_refl eq_refl) as (_ & H & _).
    apply H. reflexivity.
  - destruct (X7_Contains_and_NotContains sample.Sprintf sample.IsLower
                sample.env sample.hello_world_slice (go_string "Earth") [] []
                eq_refl eq_refl) as (_ & _ & H).
    apply H. reflexivity.
Defined.

Lemma X8_witness :
  Len sample.Sprintf sample.IsLower sample.env sample.hello_world_slice 2 [] []
  = (Ok true, [])
  /\ Len sample.Sprintf sample.IsLower sample.env sample.int_42 2 [] []
     = Fail sample.Sprintf sample.IsLower sample.env
         (sample.Sprintf (DQ ++ "%s" ++ DQ ++ " could not be applied builtin len()")
            [sample.int_42]) [] []
  /\ Len sample.Sprintf sample.IsLower sample.env sample.ptr_to_two_ints 2 [] []
     = (Ok true, [])
  /\ Len sample.Sprintf sample.IsLower sample.env sample.hello_world_slice 3 [] []
     = Fail sample.Sprintf sample.IsLower sample.env
         (sample.Sprintf (DQ ++ "%s" ++ DQ ++ " should have %d item(s), but has %d")
            [sample.hello_world_slice; go_int 3; go_int 2]) [] [].
Proof.
  split; [ | split; [ | split ] ].
  - destruct (X8_Len_on_what_has_a_length sample.Sprintf sample.IsLower
                sample.env sample.hello_world_slice 2 [] []) as (H & _).
    apply H. reflexivity.
  - destruct (X8_Len_on_what_has_a_length sample.Sprintf sample.IsLower
                sample.env sample.int_42 2 [] []) as (_ & _ & H & _).
    apply H; reflexivity.
  - destruct (X8_Len_on_what_has_a_length sample.Sprintf sample.IsLower
                sample.env sample.ptr_to_two_ints 2 [] []) as (_ & _ & _ & H & _).
    apply (H 2%nat); reflexivity.
  - destruct (X8_Len_on_what_has_a_length sample.Sprintf sample.IsLower
                sample.env sample.hello_world_slice 3 [] [])
      as (_ & _ & _ & _ & H & _).
    apply (H 2); [ reflexivity | discriminate ].
Defined.

Lemma X9_witness :
  (Zero sample.Sprintf sample.IsLower sample.env sample.duration_0 [] []
   = (Ok true, [])
   /\ exists call,
        NotZero sample.Sprintf sample.IsLower sample.env sample.duration_0 [] []
        = (Ok false, [call]))
  /\ (NotZero sample.Sprintf sample.IsLower sample.env sample.int_42 [] []
      = (Ok true, [])
      /\ exists call,
           Zero sample.Sprintf sample.IsLower sample.env sample.int_42 [] []
           = (Ok false, [call])).
Proof.
  split.
  - destruct (X9_Zero_and_NotZero sample.Sprintf sample.IsLower
                sample.time_Time sample.time_IsZero sample.env
                sample.duration_0 [] [] eq_refl eq_refl) as (H & _).
    apply H. right. reflexivity.
  - destruct (X9_Zero_and_NotZero sample.Sprintf sample.IsLower
                sample.time_Time sample.time_IsZero sample.env
                sample.int_42 [] [] eq_refl eq_refl) as (_ & H & _).
    apply H. reflexivity.
Defined.

Lemma X10_witness :
  (NoError sample.Sprintf sample.IsLower sample.env reflect.VNil [] []
   = (Ok true, [])
   /\ exists call,
        Error sample.Sprintf sample.IsLower sample.env reflect.VNil [] []
        = (Ok false, [call]))
  /\ (Error sample.Sprintf sample.IsLower sample.env
        (sample.new_error 11 "boom") [] [] = (Ok true, [])
      /\ exists call,
           NoError sample.Sprintf sample.IsLower sample.env
             (sample.new_error 11 "boom") [] [] = (Ok false, [call]))
  /\ exists msg,
       Error sample.Sprintf sample.IsLower sample.env
         (sample.new_error 11 "boom") [sample.int_42] [] = (Panic msg, []).
Proof.
  split; [ | split ].
  - destruct (X10_NoError_and_Error sample.Sprintf sample.IsLower sample.env
                reflect.VNil [] [] eq_refl) as (H & _).
    destruct (H eq_refl) as [K _]. apply K. reflexivity.
  - destruct (X10_NoError_and_Error sample.Sprintf sample.IsLower sample.env
                (sample.new_error 11 "boom") [] [] eq_refl) as (H & _).
    destruct (H eq_refl) as [_ K]. apply K. reflexivity.
  - destruct (X10_NoError_and_Error sample.Sprintf sample.IsLower sample.env
                (sample.new_error 11 "boom") [sample.int_42] [] eq_refl)
      as (_ & H & _).
    apply H. reflexivity.
Defined.

Lemma X11_witness :
  EqualError sample.Sprintf sample.IsLower sample.Sdump
    sample.GetUnifiedDiffString sample.env sample.Error_method
    (sample.new_error 11 "boom") "boom" [] [] = (Ok true, [])
  /\ (exists call,
         EqualError sample.Sprintf sample.IsLower sample.Sdump
           sample.GetUnifiedDiffString sample.env sample.Error_method
           reflect.VNil "boom" [] [] = (Ok false, [call]))
  /\ (exists call,
         EqualError sample.Sprintf sample.IsLower sample.Sdump
           sample.GetUnifiedDiffString sample.env sample.Error_method
           (sample.new_error 11 "boom") "bang" [] [] = (Ok false, [call])).
Proof.
  split; [ | split ].
  - destruct (X11_EqualError sample.Sprintf sample.IsLower sample.Sdump
                sample.GetUnifiedDiffString sample.env sample.Error_method
                (sample.new_error 11 "boom") "boom" [] [] eq_refl eq_refl)
      as (H & _).
    apply H; reflexivity.
  - destruct (X11_EqualError sample.Sprintf sample.IsLower sample.Sdump
                sample.GetUnifiedDiffString sample.env sample.Error_method
                reflect.VNil "boom" [] [] eq_refl eq_refl) as (_ & H & _).
    apply H. reflexivity.
  - destruct (X11_EqualError sample.Sprintf sample.IsLower sample.Sdump
                sample.GetUnifiedDiffString sample.env sample.Error_method
                (sample.new_error 11 "boom") "bang" [] [] eq_refl eq_refl)
      as (_ & _ & H).
    apply H; [ reflexivity | discriminate ].
Defined.

Lemma X12_witness :
  isTest sample.IsLower "TestAdd" "Test" = true
  /\ isTest sample.IsLower "Testify" "Test" = false
  /\ exists rest, "TestAdd" = "Test" ++ rest.
Proof.
  destruct (X12_isTest sample.IsLower) as [H K].
  split; [ apply (H "Test" "Add") | ].
  split; [ apply (H "Test" "ify") | ].
  apply K. reflexivity.
Defined.

Lemma X13_witness :
  CallerInfo sample.Sprintf sample.IsLower
    [sample.frame_CallerInfo; sample.frame_Fail; sample.frame_Equal;
     sample.frame_test; sample.frame_runner]
  = Ok [trace_entry sample.Sprintf sample.frame_test]
  /\ CallerInfo sample.Sprintf sample.IsLower
       [sample.frame_CallerInfo; sample.frame_Fail; sample.frame_autogenerated;
        sample.frame_test]
     = Ok [].
Proof.
  split.
  - destruct (X13_CallerInfo_trace sample.Sprintf sample.IsLower
                [sample.frame_CallerInfo; sample.frame_Fail; sample.frame_Equal]
                sample.frame_test [sample.frame_runner] eq_refl) as [H _].
    apply H; [ reflexivity | reflexivity | left; reflexivity ].
  - destruct (X13_CallerInfo_trace sample.Sprintf sample.IsLower
                [sample.frame_CallerInfo; sample.frame_Fail]
                sample.frame_autogenerated [sample.frame_test] eq_refl)
      as [_ H].
    apply H. reflexivity.
Defined.

Lemma X14_witness :
  CallerInfo sample.Sprintf sample.IsLower
    [sample.frame_CallerInfo; sample.frame_Fail; sample.frame_runner]
  = Ok [].
Proof.
  apply (X14_CallerInfo_nil_when_the_stack_runs_out
           sample.Sprintf sample.IsLower
           [sample.frame_CallerInfo; sample.frame_Fail; sample.frame_runner]).
  reflexivity.
Defined.

Lemma X15_witness :
  indentMessageLines ("Not equal: 1" ++ LF ++ "        != 2") 2
  = TAB ++ TAB ++ "Not equal: 1" ++ LF ++ TAB ++ "        != 2"
  /\ indentMessageLines
       (strings.Join ["Not equal: 1"; "        != 2";
                      strings.Repeat "x" (Z.to_nat MaxScanTokenSize); "end"] LF) 2
     = TAB ++ TAB ++ "Not equal: 1" ++ LF ++ TAB ++ "        != 2".
Proof.
  destruct (X15_indentMessageLines "Not equal: 1" ["        != 2"] 2)
    as (H & _ & _ & K).
  - lia.
  - reflexivity.
  - reflexivity.
  - discriminate.
  - split; [ exact H | ].
    destruct (K (strings.Repeat "x" (Z.to_nat MaxScanTokenSize)) ["end"])
      as [K1 _].
    + vm_compute. reflexivity.
    + vm_compute. discriminate.
    + reflexivity.
    + exact K1.
Defined.

Lemma X16_witness :
  exists padding location errorTrace,
    only_spaces padding = true
    /\ location = EmptyString
    /\ Fail sample.Sprintf sample.IsLower sample.env "Should be true"
         [go_string "check %d"] []
       = (Ok false,
          [{| format := format_with_messages;
              args := [go_string padding; go_string location;
                       go_string errorTrace;
                       go_string (indentMessageLines "Should be true" 2);
                       go_string "check %d"] |}]).
Proof.
  destruct (X16_Fail_report_text sample.Sprintf sample.IsLower sample.env
              "Should be true" [go_string "check %d"] [] eq_refl eq_refl)
    as ((message & padding & location & errorTrace & Hm & Hp & Hl & HF) & _).
  injection Hm as <-.
  exists padding, location, errorTrace.
  split; [ exact Hp | ]. split; [ apply Hl; discriminate | exact HF ].
Defined.

Lemma X17_witness :
  snd (toFloat (go_int 7)) = true
  /\ InDelta sample.Sprintf sample.IsLower sample.env
       sample.duration_0 sample.duration_0 sample.f_0_01 [] []
     = Fail sample.Sprintf sample.IsLower sample.env
         (sample.Sprintf "Parameters must be numerical" []) [] [].
Proof.
  destruct (X17_toFloat_accepts_eleven_types sample.Sprintf sample.IsLower
              sample.env) as (H & K & _).
  split.
  - apply H. left. exists reflect.KInt, 7.
    split; [ reflexivity | split; discriminate ].
  - apply K. reflexivity.
Defined.

Lemma X18_witness :
  (exists call,
      InDeltaSlice sample.Sprintf sample.IsLower sample.env
        sample.int_42 sample.one_float sample.f_0_01 [] [] = (Ok false, [call]))
  /\ InDeltaSlice sample.Sprintf sample.IsLower sample.env
       sample.floats_1_3 sample.floats_1_3_02 sample.f_0_01
       [go_string "prices"] []
     = InDelta sample.Sprintf sample.IsLower sample.env
         (go_float64 sample.f_3_02) (go_float64 sample.f_3_0) sample.f_0_01 [] []
  /\ InDeltaSlice sample.Sprintf sample.IsLower sample.env
       sample.floats_1_3 sample.floats_1_3 sample.f_0_01 [go_string "prices"] []
     = (Ok true, [])
  /\ verdict
       (InDeltaSlice sample.Sprintf sample.IsLower sample.env
          sample.floats_1_3 sample.floats_1_3_02 sample.f_0_01
          [go_string "prices"] []) [].
Proof.
  split; [ | split; [ | split ] ].
  - destruct (X18_slice_assertions sample.Sprintf sample.IsLower sample.env
                sample.f_0_01 [] [] eq_refl eq_refl) as (Hg & _).
    destruct (Hg sample.int_42 sample.one_float) as [E _].
    + right. right. right. discriminate.
    + rewrite E. apply Fail_ok; reflexivity.
  - destruct (X18_slice_assertions sample.Sprintf sample.IsLower sample.env
                sample.f_0_01 [go_string "prices"] [] eq_refl eq_refl)
      as (_ & _ & Hf & _).
    destruct (Hf None (reflect.TFloat reflect.KFloat64) (Some 15%nat)
                [go_float64 (float64.of_Z 1); go_float64 sample.f_3_0]
                None (reflect.TFloat reflect.KFloat64) (Some 16%nat)
                [go_float64 (float64.of_Z 1); go_float64 sample.f_3_02]
                1%nat (go_float64 sample.f_3_02) (go_float64 sample.f_3_0)
                eq_refl eq_refl) as [K _].
    apply K.
    + intros j x z Hj Hx Hz.
      destruct j as [ | j ]; [ | lia ].
      injection Hx as <-. injection Hz as <-. reflexivity.
    + vm_compute. discriminate.
  - destruct (X18_slice_assertions sample.Sprintf sample.IsLower sample.env
                sample.f_0_01 [go_string "prices"] [] eq_refl eq_refl)
      as (_ & Hp & _).
    destruct (Hp None (reflect.TFloat reflect.KFloat64) (Some 15%nat)
                [go_float64 (float64.of_Z 1); go_float64 sample.f_3_0]
                None (reflect.TFloat reflect.KFloat64) (Some 15%nat)
                [go_float64 (float64.of_Z 1); go_float64 sample.f_3_0])
      as [K _]; [ simpl; lia | ].
    apply K.
    intros j x z Hx Hz.
    destruct j as [ | [ | j ] ];
      [ injection Hx as <-; injection Hz as <-; reflexivity
      | injection Hx as <-; injection Hz as <-; reflexivity
      | destruct j; discriminate Hx ].
  - destruct (X18_slice_assertions sample.Sprintf sample.IsLower sample.env
                sample.f_0_01 [go_string "prices"] [] eq_refl eq_refl)
      as (_ & _ & _ & Hv & _).
    apply (Hv None (reflect.TFloat reflect.KFloat64) (Some 15%nat)
             [go_float64 (float64.of_Z 1); go_float64 sample.f_3_0]
             None (reflect.TFloat reflect.KFloat64) (Some 16%nat)
             [go_float64 (float64.of_Z 1); go_float64 sample.f_3_02]).
    simpl. lia.
Defined.

Lemma X19_witness :
  WithinDuration sample.Sprintf sample.IsLower sample.env sample.time_Sub
    (sample.a_time 10 0) (sample.a_time 12 500) 3000000000 [] []
  = (Ok true, [])
  /\ fst (WithinDuration sample.Sprintf sample.IsLower sample.env sample.time_Sub
            (sample.a_time 10 0) (sample.a_time 10 0) (-1) [] []) <> Ok true.
Proof.
  split.
  - destruct (X19_WithinDuration sample.Sprintf sample.IsLower sample.env
                sample.time_Sub (sample.a_time 10 0) (sample.a_time 12 500)
                3000000000 [] []) as (H & _).
    + split; reflexivity.
    + apply H. vm_compute. discriminate.
  - destruct (X19_WithinDuration sample.Sprintf sample.IsLower sample.env
                sample.time_Sub (sample.a_time 10 0) (sample.a_time 10 0)
                (-1) [] []) as (_ & _ & H).
    + split; reflexivity.
    + apply H. reflexivity.
Defined.

Lemma X20_witness :
  Fail_location sample.Sprintf
    [sample.frame_Fail; sample.frame_Equal; sample.frame_test; sample.frame_runner]
  = Ok (sample.Sprintf ("%s:%d:0" ++ LF)
          [go_string "/home/dev/calc/calc_test.go"; go_int 12])
  /\ exists msg,
       Fail sample.Sprintf sample.IsLower sample.env_print_location
         "Not equal" [] [] = (Panic msg, []).
Proof.
  split.
  - destruct (X20_Fail_location sample.Sprintf sample.IsLower sample.env
                [sample.frame_Fail; sample.frame_Equal] sample.frame_test
                [sample.frame_runner] eq_refl) as (H & _).
    apply H; reflexivity.
  - destruct (X20_Fail_location sample.Sprintf sample.IsLower
                sample.env_print_location
                [sample.frame_Fail; sample.frame_Equal]
                sample.frame_autogenerated
                [sample.frame_test; sample.frame_runner] eq_refl)
      as (_ & _ & H).
    destruct (H eq_refl) as [_ K].
    apply K; reflexivity.
Defined.

Lemma X22_witness :
  (exists text,
      diff sample.Sdump sample.GetUnifiedDiffString
        (reflect.VPtr None sample.Pair (Some (12%nat, sample.a_pair)))
        sample.a_pair = Ok text
      /\ text <> EmptyString)
  /\ ObjectsAreEqual (reflect.VPtr None sample.Pair (Some (12%nat, sample.a_pair)))
       sample.a_pair = Ok false.
Proof.
  destruct (X22_diff_looks_through_one_pointer
              sample.Sdump sample.GetUnifiedDiffString
              None (Some (12%nat, sample.a_pair)) sample.a_pair sample.Pair
              eq_refl) as (H & K & _).
  - discriminate.
  - split; [ apply H; reflexivity | exact K ].
Defined.
